(** * Korean exchange aggregator: a shallow embedding and its properties

    The development follows the Python sources of the repository:
    - [api_prices.py]   ([PriceAPI]: the price cascade),
    - [api_bithumb.py], [api_upbit.py], [api_coinone.py], [api_korbit.py]
      (the four signed exchange clients),
    - [cex_agg.py]      ([Aggregator]: the cross-exchange report),
    - [real_folio.py]   ([PortfolioManager]: the portfolio read from
      the environment and priced by the cascade).

    Conventions of the embedding
    - Python [float] values are rationals ([Q]); the non-finite floats
      ([inf], [nan]) are outside the model, and so are the numbers of a
      payload beyond the range of a double: on an integer that large
      Python's [float] raises [OverflowError], and on an integer
      literal longer than the interpreter's digit limit the decoder
      itself raises a plain [ValueError].  The numbers of the model are
      those that [float] converts.
    - [sort_values] is modelled by a sort that keeps the order of rows
      of equal key; pandas does not promise that order, and no property
      here depends on it: the rows of a sorted frame are stated as a
      rearrangement, in descending order.
    - A decoded JSON payload is a value of [json]; Python's dynamic
      checks on such values (attribute lookup, subscripting, [float()])
      are written out and raise the exception Python raises.
    - A computation that touches the network is a function of the
      [network] (what every request is answered with) and of the log of
      requests issued so far; it returns a [result] and the new log.
      During one run a request is answered the same way each time it
      is sent.
    - The wall clock is read by the Korbit client only, and there the
      readings are arguments; the [date] column of a report is left
      out.
    - Request signing (JWT, HMAC, nonces) only decorates the headers of a
      request and is not part of the model; the request log keeps the
      method and the URL. *)

From Stdlib Require Import List String Ascii Bool Arith PeanoNat Lia.
From Stdlib Require Import QArith Lqa.
From Stdlib Require Import DecimalString.
From Stdlib Require Import Sorting.Sorted Sorting.Permutation.
Import ListNotations.

Local Open Scope list_scope.
Local Open Scope string_scope.

(* ------------------------------------------------------------------ *)
(** ** Strings *)

Module Str.

Definition upper_ascii (c : ascii) : ascii :=
  let n := nat_of_ascii c in
  if (97 <=? n)%nat && (n <=? 122)%nat then ascii_of_nat (n - 32) else c.

Definition lower_ascii (c : ascii) : ascii :=
  let n := nat_of_ascii c in
  if (65 <=? n)%nat && (n <=? 90)%nat then ascii_of_nat (n + 32) else c.

(** [str.upper()] and [str.lower()] on ASCII text. *)
Fixpoint upper (s : string) : string :=
  match s with
  | EmptyString => EmptyString
  | String c t => String (upper_ascii c) (upper t)
  end.

Fixpoint lower (s : string) : string :=
  match s with
  | EmptyString => EmptyString
  | String c t => String (lower_ascii c) (lower t)
  end.

(** [sub in s] for strings. *)
Fixpoint contains (sub s : string) : bool :=
  String.prefix sub s ||
  match s with
  | EmptyString => false
  | String _ t => contains sub t
  end.

(** [x in l] for a list of strings. *)
Definition mem (x : string) (l : list string) : bool :=
  existsb (String.eqb x) l.

(** Two codes that differ by case only. *)
Definition ci_eqb (a b : string) : bool := String.eqb (lower a) (lower b).

(** Membership in a list of codes, the case of the letters set aside. *)
Definition ci_mem (x : string) (l : list string) : bool := existsb (ci_eqb x) l.

Definition of_nat (n : nat) : string :=
  NilEmpty.string_of_uint (Nat.to_uint n).

End Str.

(* ------------------------------------------------------------------ *)
(** ** Rationals as Python floats *)

Definition Qlt_bool (a b : Q) : bool := negb (Qle_bool b a).

(* ------------------------------------------------------------------ *)
(** ** Python values, exceptions and results *)

#[warnings="-register-all"]
Inductive json : Type :=
| JNull
| JBool (b : bool)
| JNum (q : Q)
| JStr (s : string)
| JList (l : list json)
| JDict (kv : list (string * json)).

(** The exceptions the sources can meet.  The first three are subclasses
    of [requests.exceptions.RequestException] (for [JSONDecodeError]:
    as raised by [Response.json()] of requests 2.27 and later). *)
Inductive exn : Type :=
| ConnectionError (msg : string)
| HTTPError (msg : string)
| JSONDecodeError (msg : string)
| ValueError
| TypeError
| KeyError
| IndexError
| AttributeError.

Definition is_RequestException (e : exn) : bool :=
  match e with
  | ConnectionError _ | HTTPError _ | JSONDecodeError _ => true
  | _ => false
  end.

Definition is_ValueError_or_TypeError (e : exn) : bool :=
  match e with ValueError | TypeError => true | _ => false end.

Definition is_ValueError_or_KeyError (e : exn) : bool :=
  match e with ValueError | KeyError => true | _ => false end.

(** [except Exception]: every exception of the model. *)
Definition is_Exception (e : exn) : bool := true.

Inductive result (A : Type) : Type :=
| Ok (a : A)
| Raise (e : exn).
Arguments Ok {A} a.
Arguments Raise {A} e.

Module Py.

Fixpoint assoc (k : string) (kv : list (string * json)) : option json :=
  match kv with
  | [] => None
  | (k', v) :: rest => if String.eqb k k' then Some v else assoc k rest
  end.

(** Truth value of an object ([if data:]). *)
Definition truthy (v : json) : bool :=
  match v with
  | JNull => false
  | JBool b => b
  | JNum q => negb (Qeq_bool q 0)
  | JStr s => negb (String.eqb s "")
  | JList l => match l with [] => false | _ => true end
  | JDict kv => match kv with [] => false | _ => true end
  end.

(** [len(v)]. *)
Definition len (v : json) : result nat :=
  match v with
  | JStr s => Ok (String.length s)
  | JList l => Ok (List.length l)
  | JDict kv => Ok (List.length kv)
  | _ => Raise TypeError
  end.

(** [v.get(key, default)]: only a dict has the method. *)
Definition get (v : json) (key : string) (default : json) : result json :=
  match v with
  | JDict kv => Ok (match assoc key kv with Some x => x | None => default end)
  | _ => Raise AttributeError
  end.

(** [v[key]] for a string key. *)
Definition getitem (v : json) (key : string) : result json :=
  match v with
  | JDict kv => match assoc key kv with Some x => Ok x | None => Raise KeyError end
  | _ => Raise TypeError
  end.

(** [v[0]]. *)
Definition getitem0 (v : json) : result json :=
  match v with
  | JList l => match l with x :: _ => Ok x | [] => Raise IndexError end
  | JDict _ => Raise KeyError
  | JStr s => match s with String c _ => Ok (JStr (String c "")) | EmptyString => Raise IndexError end
  | _ => Raise TypeError
  end.

(** [v == s] for a string literal [s]. *)
Definition eq_str (v : json) (s : string) : bool :=
  match v with JStr x => String.eqb x s | _ => false end.

(** [isinstance(v, dict)]. *)
Definition is_dict (v : json) : bool :=
  match v with JDict _ => true | _ => false end.

End Py.

(* ------------------------------------------------------------------ *)
(** ** The network and the [io] monad *)

Inductive http_method : Type := GET | POST.

Record request : Type := mkRequest { meth : http_method; url : string }.

(** What [requests] hands back: a response object with a status, a
    reason phrase and a body that decodes to JSON or fails to. *)
Record Response : Type := mkResponse {
  status_code : nat;
  reason : string;
  body : string + json   (* [inl msg]: the body is not JSON *)
}.

(** The answer to a request: the transport fails, or a response comes. *)
Inductive answer : Type :=
| Unreachable (msg : string)
| Answered (r : Response).

Definition network : Type := request -> answer.

Definition io (A : Type) : Type := network -> list request -> result A * list request.

Definition ret {A} (a : A) : io A := fun _ log => (Ok a, log).

Definition bind {A B} (c : io A) (k : A -> io B) : io B :=
  fun net log =>
    match c net log with
    | (Ok a, log') => k a net log'
    | (Raise e, log') => (Raise e, log')
    end.

Definition lift {A} (r : result A) : io A := fun _ log => (r, log).

Definition raise {A} (e : exn) : io A := lift (Raise e).

(** [try: c except <catches>: h]. *)
Definition try_except {A} (c : io A) (catches : exn -> bool) (h : exn -> io A) : io A :=
  fun net log =>
    match c net log with
    | (Ok a, log') => (Ok a, log')
    | (Raise e, log') => if catches e then h e net log' else (Raise e, log')
    end.

Declare Scope io_scope.
Delimit Scope io_scope with io.
Notation "x <- c ;; k" := (bind c (fun x => k))
  (at level 61, c at next level, right associativity) : io_scope.
Notation "c ;;; k" := (bind c (fun _ => k))
  (at level 61, right associativity) : io_scope.
Local Open Scope io_scope.

(** What a computation returns and what it asks of the network when it
    starts from an empty log. *)
Definition run {A} (c : io A) (net : network) : result A := fst (c net []).

Definition requests_of {A} (c : io A) (net : network) : list request := snd (c net []).

(** A computation that only appends to the log and never reads it. *)
Definition log_free {A} (c : io A) : Prop :=
  forall net log, c net log = (run c net, (log ++ requests_of c net)%list).

(** A computation that sends nothing. *)
Definition silent {A} (c : io A) : Prop :=
  forall net log, snd (c net log) = log.

(** [requests.get(url)] / [requests.post(url)]: one request goes out. *)
Definition send (m : http_method) (u : string) : io Response :=
  fun net log =>
    let rq := mkRequest m u in
    (match net rq with
     | Unreachable msg => Raise (ConnectionError msg)
     | Answered r => Ok r
     end, (log ++ [rq])%list).

Definition requests_get (u : string) : io Response := send GET u.
Definition requests_post (u : string) : io Response := send POST u.

(** [response.raise_for_status()]. *)
Definition raise_for_status (u : string) (r : Response) : result unit :=
  let s := status_code r in
  if (400 <=? s)%nat && (s <? 500)%nat then
    Raise (HTTPError (Str.of_nat s ++ " Client Error: " ++ reason r ++ " for url: " ++ u))
  else if (500 <=? s)%nat && (s <? 600)%nat then
    Raise (HTTPError (Str.of_nat s ++ " Server Error: " ++ reason r ++ " for url: " ++ u))
  else Ok tt.

(** [response.json()].  A body is either text that is not JSON ([inl],
    refused with [JSONDecodeError]) or what it decodes to ([inr]).  A
    body that is JSON and that the decoder refuses all the same (an
    integer literal beyond the interpreter's digit limit: a plain
    [ValueError]) is not among the answers of the model. *)
Definition response_json (r : Response) : result json :=
  match body r with
  | inr j => Ok j
  | inl msg => Raise (JSONDecodeError msg)
  end.

(** An answer that [raise_for_status] or [json()] refuses, or no answer
    at all. *)
Definition fails (a : answer) : bool :=
  match a with
  | Unreachable _ => true
  | Answered r =>
      ((400 <=? status_code r)%nat && (status_code r <? 600)%nat)
      || match body r with inl _ => true | inr _ => false end
  end.

(** [str(e)] for the exceptions that carry a message. *)
Definition str_of_exn (e : exn) : string :=
  match e with
  | ConnectionError m | HTTPError m | JSONDecodeError m => m
  | ValueError => "ValueError"
  | TypeError => "TypeError"
  | KeyError => "KeyError"
  | IndexError => "IndexError"
  | AttributeError => "AttributeError"
  end.

(** What the Python runtime does with text and numbers: [float(s)] on a
    string ([None]: [ValueError]) and [str(v)] as used by f-strings. *)
Class PyRuntime : Type := {
  float_of_str : string -> option Q;
  str_of_json : json -> string
}.

(** [float(v)].  A number of the model is one that [float] converts:
    an integer beyond the range of a double, on which Python raises
    [OverflowError], is not among them. *)
Definition py_float `{PyRuntime} (v : json) : result Q :=
  match v with
  | JNum q => Ok q
  | JBool b => Ok (if b then 1 else 0)%Q
  | JStr s => match float_of_str s with Some q => Ok q | None => Raise ValueError end
  | _ => Raise TypeError
  end.

(** [f"{v}"]: a string is spliced as it is. *)
Definition fmt `{PyRuntime} (v : json) : string :=
  match v with JStr s => s | _ => str_of_json v end.

(* ------------------------------------------------------------------ *)
(** ** api_prices.py *)

Module PriceAPI.

Record ExchangePrice : Type := mkExchangePrice {
  exchange : string;
  price : Q;
  error : option string
}.

Definition is_error (r : ExchangePrice) : bool :=
  match error r with Some _ => true | None => false end.

Definition token_map : list (string * string) :=
  [ ("btc", "bitcoin"); ("eth", "ethereum"); ("sol", "solana");
    ("xrp", "ripple"); ("ada", "cardano"); ("doge", "dogecoin");
    ("link", "chainlink"); ("uni", "uniswap"); ("ai16z", "ai16z");
    ("virtual", "virtual-protocol"); ("sui", "sui"); ("fet", "fetch-ai");
    ("usdc", "usd-coin"); ("usdt", "tether") ].

Fixpoint token_map_get (k : string) (m : list (string * string)) (default : string) : string :=
  match m with
  | [] => default
  | (k', v) :: rest => if String.eqb k k' then v else token_map_get k rest default
  end.

Section Model.
Context `{PyRuntime}.

(** Returns the decoded payload, or the text ["Error: ..."] as a string. *)
Definition _make_request (u : string) : io json :=
  try_except
    (response <- requests_get u ;;
     lift (raise_for_status u response) ;;;
     lift (response_json response))
    is_RequestException
    (fun e => ret (JStr ("Error: " ++ str_of_exn e))).

Definition get_upbit_price (coin : string) : io ExchangePrice :=
  if String.eqb (Str.lower coin) "krw" then ret (mkExchangePrice "Upbit" 1 None)
  else
    data <- _make_request ("https://api.upbit.com/v1/ticker?markets=KRW-" ++ Str.upper coin) ;;
    match data with
    | JStr s => ret (mkExchangePrice "Upbit" 0 (Some s))
    | _ =>
      nonempty <- (if Py.truthy data
                   then n <- lift (Py.len data) ;; ret (0 <? n)%nat
                   else ret false) ;;
      if nonempty : bool then
        try_except
          (first <- lift (Py.getitem0 data) ;;
           v <- lift (Py.get first "trade_price" (JNum 0)) ;;
           p <- lift (py_float v) ;;
           ret (mkExchangePrice "Upbit" p None))
          is_ValueError_or_TypeError
          (fun _ => ret (mkExchangePrice "Upbit" 0 (Some "Error: Invalid price data")))
      else ret (mkExchangePrice "Upbit" 0 (Some "Error: Empty response from API"))
    end.

Definition get_bithumb_price (coin : string) : io ExchangePrice :=
  if String.eqb (Str.lower coin) "krw" then ret (mkExchangePrice "Bithumb" 1 None)
  else
    data <- _make_request ("https://api.bithumb.com/public/ticker/" ++ coin ++ "_KRW") ;;
    match data with
    | JStr s => ret (mkExchangePrice "Bithumb" 0 (Some s))
    | _ =>
      status <- lift (Py.get data "status" JNull) ;;
      if Py.eq_str status "0000" then
        try_except
          (d <- lift (Py.getitem data "data") ;;
           v <- lift (Py.get d "closing_price" (JNum 0)) ;;
           p <- lift (py_float v) ;;
           ret (mkExchangePrice "Bithumb" p None))
          is_ValueError_or_TypeError
          (fun _ => ret (mkExchangePrice "Bithumb" 0 (Some "Error: Invalid price data")))
      else
        status' <- lift (Py.get data "status" JNull) ;;
        ret (mkExchangePrice "Bithumb" 0
               (Some ("Error: API returned status " ++ fmt status')))
    end.

Definition get_coinone_price (coin : string) : io ExchangePrice :=
  if String.eqb (Str.lower coin) "krw" then ret (mkExchangePrice "Coinone" 1 None)
  else
    data <- _make_request ("https://api.coinone.co.kr/ticker/?currency=" ++ coin) ;;
    match data with
    | JStr s => ret (mkExchangePrice "Coinone" 0 (Some s))
    | _ =>
      code <- lift (Py.get data "errorCode" JNull) ;;
      if Py.eq_str code "0" then
        try_except
          (v <- lift (Py.get data "last" (JNum 0)) ;;
           p <- lift (py_float v) ;;
           ret (mkExchangePrice "Coinone" p None))
          is_ValueError_or_TypeError
          (fun _ => ret (mkExchangePrice "Coinone" 0 (Some "Error: Invalid price data")))
      else
        code' <- lift (Py.get data "errorCode" JNull) ;;
        ret (mkExchangePrice "Coinone" 0
               (Some ("Error: API returned errorCode " ++ fmt code')))
    end.

Definition get_coingecko_price (coin : string) : io ExchangePrice :=
  if String.eqb (Str.lower coin) "krw" then ret (mkExchangePrice "Coingecko" 1 None)
  else
    let token_id := token_map_get (Str.lower coin) token_map (Str.lower coin) in
    data <- _make_request ("https://api.coingecko.com/api/v3/simple/price?ids="
                           ++ token_id ++ "&vs_currencies=krw") ;;
    match data with
    | JStr s => ret (mkExchangePrice "Coingecko" 0 (Some s))
    | _ =>
      try_except
        (entry <- lift (Py.get data token_id (JDict [])) ;;
         v <- lift (Py.get entry "krw" (JNum 0)) ;;
         p <- lift (py_float v) ;;
         ret (mkExchangePrice "Coingecko" p None))
        is_ValueError_or_TypeError
        (fun _ => ret (mkExchangePrice "Coingecko" 0
                         (Some ("Error: Unable to get price for " ++ coin))))
    end.

Definition exchanges : list ((string -> io ExchangePrice) * string) :=
  [ (get_upbit_price, "Upbit");
    (get_bithumb_price, "Bithumb");
    (get_coinone_price, "Coinone");
    (get_coingecko_price, "Coingecko") ].

(** The [for get_price, exchange_name in exchanges] loop with its early
    [return], and the [return] after the loop. *)
Fixpoint first_valid_loop (l : list ((string -> io ExchangePrice) * string))
         (symbol : string) : io (Q * string) :=
  match l with
  | [] => ret (0%Q, "No valid price found")
  | (get_price, exchange_name) :: rest =>
      result <- get_price symbol ;;
      if negb (is_error result) && Qlt_bool 0 (price result)
      then ret (price result, exchange_name)
      else first_valid_loop rest symbol
  end.

Definition get_first_valid_price (symbol : string) : io (Q * string) :=
  first_valid_loop exchanges symbol.

End Model.

End PriceAPI.

(* ------------------------------------------------------------------ *)
(** ** Pure Python steps that may raise *)

Definition and_then {A B} (r : result A) (k : A -> result B) : result B :=
  match r with Ok a => k a | Raise e => Raise e end.

Notation "'let!' x := r 'in' k" := (and_then r (fun x => k))
  (at level 10, x name, r at level 100, k at level 200).

(** A comprehension [[f(x) for x in l]] whose body may raise. *)
Fixpoint mapM {A B} (f : A -> result B) (l : list A) : result (list B) :=
  match l with
  | [] => Ok []
  | x :: t => let! y := f x in let! ys := mapM f t in Ok (y :: ys)
  end.

(** A comprehension [[x for x in l if p(x)]] whose test may raise. *)
Fixpoint filterM {A} (p : A -> result bool) (l : list A) : result (list A) :=
  match l with
  | [] => Ok []
  | x :: t =>
      let! keep := p x in
      let! rest := filterM p t in
      Ok (if keep : bool then x :: rest else rest)
  end.

(** A [for] loop that appends to a list, over an [io] body; [None] is
    an iteration that appends nothing ([continue]). *)
Fixpoint for_append {A B} (body : A -> io (option B)) (l : list A) : io (list B) :=
  match l with
  | [] => ret []
  | x :: t =>
      r <- body x ;;
      rest <- for_append body t ;;
      ret (match r with Some y => y :: rest | None => rest end)
  end.

(** What the loop [for_append] returns, from what its turns return. *)
Fixpoint gather {B} (turns : list (result (option B))) : result (list B) :=
  match turns with
  | [] => Ok []
  | r :: t =>
      let! y := r in
      let! ys := gather t in
      Ok (match y with Some b => b :: ys | None => ys end)
  end.

Module PyMore.

(** [for x in v]: the items of a list, the keys of a dict, the
    characters of a string. *)
Definition iter (v : json) : result (list json) :=
  match v with
  | JList l => Ok l
  | JDict kv => Ok (map (fun p => JStr (fst p)) kv)
  | JStr s => Ok (map (fun c => JStr (String c "")) (list_ascii_of_string s))
  | _ => Raise TypeError
  end.

(** [v.upper()] and [v.lower()]: string methods. *)
Definition upper (v : json) : result string :=
  match v with JStr s => Ok (Str.upper s) | _ => Raise AttributeError end.

Definition lower (v : json) : result string :=
  match v with JStr s => Ok (Str.lower s) | _ => Raise AttributeError end.

(** [v in l] for a list [l] of strings. *)
Definition in_strs (v : json) (l : list string) : bool :=
  match v with JStr s => Str.mem s l | _ => false end.

Fixpoint assoc_set (k : string) (v : json) (kv : list (string * json)) : list (string * json) :=
  match kv with
  | [] => [(k, v)]
  | (k', v') :: rest =>
      if String.eqb k k' then (k, v) :: rest else (k', v') :: assoc_set k v rest
  end.

(** [d[k] = v]. *)
Definition setitem (d : json) (k : string) (v : json) : result json :=
  match d with
  | JDict kv => Ok (JDict (assoc_set k v kv))
  | _ => Raise TypeError
  end.

End PyMore.

(* ------------------------------------------------------------------ *)
(** ** Report lines and data frames *)

(** A normalized balance: [{'currency': ..., 'balance': ...}]. *)
Record Balance : Type := mkBalance {
  currency : json;
  balance : Q
}.

Module Report.

(** One row of a report.  The [date] column (the wall clock at the time
    the row is built) is not modelled. *)
Record Line : Type := mkLine {
  currency : json;
  balance : Q;
  price : Q;
  total : Q;
  exchange : option string
}.

End Report.

Module pd.

Record DataFrame : Type := mkDataFrame {
  columns : list string;
  rows : list Report.Line
}.

Definition report_columns : list string :=
  ["currency"; "balance"; "price"; "total"; "date"].

(** [pd.DataFrame(records)]: the columns are the keys of the records, so a
    frame built from no record has no column. *)
Definition of_records (records : list Report.Line) : DataFrame :=
  match records with
  | [] => mkDataFrame [] []
  | _ => mkDataFrame report_columns records
  end.

(** [pd.DataFrame(columns=...)]. *)
Definition of_columns (cols : list string) : DataFrame := mkDataFrame cols [].

(** [df.empty]. *)
Definition empty (df : DataFrame) : bool :=
  match rows df, columns df with
  | [], _ => true
  | _, [] => true
  | _, _ => false
  end.

Fixpoint insert_desc (x : Report.Line) (l : list Report.Line) : list Report.Line :=
  match l with
  | [] => [x]
  | y :: t =>
      if Qle_bool (Report.total y) (Report.total x) then x :: y :: t
      else y :: insert_desc x t
  end.

(** Rows by [total], largest first.  Among rows of equal total the
    order is a choice of the model (pandas sorts with its default
    [quicksort], which promises none), on which no property here
    depends. *)
Definition sort_desc (l : list Report.Line) : list Report.Line :=
  fold_right insert_desc [] l.

(** [df.sort_values(by="total", ascending=False)], with or without
    [ignore_index] / [reset_index]: the row labels are not modelled.
    A frame without the column raises [KeyError]. *)
Definition sort_values_total (df : DataFrame) : result DataFrame :=
  if Str.mem "total" (columns df)
  then Ok (mkDataFrame (columns df) (sort_desc (rows df)))
  else Raise KeyError.

(** [df['exchange'] = name]. *)
Definition set_exchange (name : string) (df : DataFrame) : DataFrame :=
  mkDataFrame
    (if Str.mem "exchange" (columns df) then columns df
     else (columns df ++ ["exchange"])%list)
    (map (fun r => Report.mkLine (Report.currency r) (Report.balance r)
                     (Report.price r) (Report.total r) (Some name))
         (rows df)).

Fixpoint union_columns (a b : list string) : list string :=
  match b with
  | [] => a
  | c :: t => union_columns (if Str.mem c a then a else (a ++ [c])%list) t
  end.

(** [pd.concat(dfs, ignore_index=True)]. *)
Definition concat (dfs : list DataFrame) : DataFrame :=
  mkDataFrame
    (fold_left union_columns (map columns dfs) [])
    (List.concat (map rows dfs)).

(** Largest first. *)
Definition desc (a b : Report.Line) : Prop := Report.total b <= Report.total a.

End pd.

(* ------------------------------------------------------------------ *)
(** ** api_bithumb.py *)

Module BithumbAPI.

Definition BASE_URL : string := "https://api.bithumb.com".

Definition EXCLUDED_COINS : list string := ["P"; "ETHW"; "ETHF"].

Section Model.
Context `{PyRuntime}.

(** A transport failure, an error status or a body that is not JSON
    becomes the empty list. *)
Definition _request (method : string) (endpoint : string) : io json :=
  try_except
    (let u := BASE_URL ++ endpoint in
     response <- (if String.eqb (Str.upper method) "GET"
                  then requests_get u else requests_post u) ;;
     lift (raise_for_status u response) ;;;
     lift (response_json response))
    is_RequestException
    (fun _ => ret (JList [])).

(** [{'currency': account['currency'],
      'balance': float(account['balance']) + float(account['locked'])}] *)
Definition normalize (account : json) : result Balance :=
  let! c := Py.getitem account "currency" in
  let! b := Py.getitem account "balance" in
  let! b := py_float b in
  let! l := Py.getitem account "locked" in
  let! l := py_float l in
  Ok (mkBalance c (b + l)).

(** [next((acc for acc in accounts if acc['currency'] == currency), None)] *)
Definition find_account (accounts : list Balance) (c : string) : option Balance :=
  find (fun acc => Py.eq_str (currency acc) c) accounts.

Definition get_balances (currencies : option (list string)) : io (list Balance) :=
  response <- _request "GET" "/v1/accounts" ;;
  accounts <- lift (let! items := PyMore.iter response in mapM normalize items) ;;
  match currencies with
  | None => ret accounts
  | Some cs =>
      ret (map (fun c =>
                  match find_account accounts c with
                  | Some account => account
                  | None => mkBalance (JStr c) 0
                  end) cs)
  end.

(** The test of the comprehension: [float(balance['balance']) > 0 and
    balance['currency'].upper() not in EXCLUDED_COINS]. *)
Definition is_nonzero (b : Balance) : result bool :=
  if Qlt_bool 0 (balance b) then
    let! u := PyMore.upper (currency b) in Ok (negb (Str.mem u EXCLUDED_COINS))
  else Ok false.

Definition get_nonzero_balances : io (list Balance) :=
  balances <- get_balances None ;;
  lift (filterM is_nonzero balances).

Definition get_price_by_currency (coin : json) : io Q :=
  try_except
    (response <- _request "GET" ("/public/ticker/" ++ fmt coin ++ "_KRW") ;;
     has_data <- (if Py.is_dict response
                  then d <- lift (Py.get response "data" JNull) ;; ret (Py.truthy d)
                  else ret false) ;;
     if has_data : bool then
       d <- lift (Py.getitem response "data") ;;
       v <- lift (Py.getitem d "closing_price") ;;
       lift (py_float v)
     else ret 0%Q)
    is_ValueError_or_KeyError
    (fun _ => ret 0%Q).

Definition report_line (account : Balance) : io (option Report.Line) :=
  let c := currency account in
  let b := balance account in
  p <- (if Py.eq_str c "KRW" then ret 1%Q else get_price_by_currency c) ;;
  ret (Some (Report.mkLine c b p (b * p) None)).

(** No sort here: the rows come out in the order of the accounts. *)
Definition get_report (currencies : option (list string)) : io pd.DataFrame :=
  accounts <- get_balances currencies ;;
  match accounts with
  | [] => ret (pd.of_columns pd.report_columns)
  | _ =>
      report_data <- for_append report_line accounts ;;
      ret (pd.of_records report_data)
  end.

(** What the answer for a requested currency must be: an account of the
    payload under that code, or the zero placeholder when the payload
    has none. *)
Definition entry_for (accounts : list Balance) (c : string) (b : Balance) : Prop :=
  (In b accounts /\ currency b = JStr c)
  \/ ((forall a, In a accounts -> currency a <> JStr c) /\ b = mkBalance (JStr c) 0).

(** The currencies of the accounts [get_nonzero_balances] kept.  Each
    of them went through [.upper()] there, so each is a string. *)
Definition currencies_of (accounts : list Balance) : list string :=
  flat_map (fun a => match currency a with JStr s => [s] | _ => [] end) accounts.

Definition get_report_with_nonzero_balances : io pd.DataFrame :=
  nonzero_accounts <- get_nonzero_balances ;;
  get_report (Some (currencies_of nonzero_accounts)).

(** An account entry as the dict it is. *)
Definition to_dict (a : Balance) : json :=
  JDict [("currency", currency a); ("balance", JNum (balance a))].

(** The answer for a currency without holdings: the balance is the
    text ['0'], not a number. *)
Definition no_balance (c : string) : json :=
  JDict [("currency", JStr c); ("balance", JStr "0")].

Definition get_balance_by_currency (c : string) : io json :=
  accounts <- get_balances (Some [c]) ;;
  match accounts with
  | a :: _ => if Qlt_bool 0 (balance a) then ret (to_dict a) else ret (no_balance c)
  | [] => ret (no_balance c)
  end.

Definition accounts_request : request := mkRequest GET (BASE_URL ++ "/v1/accounts").

Definition ticker_request (coin : json) : request :=
  mkRequest GET (BASE_URL ++ "/public/ticker/" ++ fmt coin ++ "_KRW").

(** The price a report line is built with. *)
Definition unit_price (net : network) (c : json) : result Q :=
  if Py.eq_str c "KRW" then Ok 1%Q else run (get_price_by_currency c) net.

(** A line of a report, for the account it is built from. *)
Definition line_for (net : network) (a : Balance) (r : Report.Line) : Prop :=
  Report.currency r = currency a
  /\ Report.balance r = balance a
  /\ unit_price net (currency a) = Ok (Report.price r)
  /\ Report.total r = balance a * Report.price r.

End Model.

End BithumbAPI.

(* ------------------------------------------------------------------ *)
(** ** api_upbit.py *)

Module UpbitAPI.

Definition BASE_URL : string := "https://api.upbit.com/v1/".

Definition EXCLUDED_COINS : list string := ["ETHW"; "ETHF"].

Section Model.
Context `{PyRuntime}.

(** [balance['balance'] = str(float(balance['balance']) + float(balance['locked']))].
    Python stores the text of the sum and every reader applies [float]
    to it again; [float(str(x))] is [x], so the model stores the number. *)
Definition add_locked (entry : json) : result json :=
  let! b := Py.getitem entry "balance" in
  let! b := py_float b in
  let! l := Py.getitem entry "locked" in
  let! l := py_float l in
  PyMore.setitem entry "balance" (JNum (b + l)).

(** The test [balance['currency'] in currencies]. *)
Definition requested (currencies : list string) (entry : json) : result bool :=
  let! c := Py.getitem entry "currency" in Ok (PyMore.in_strs c currencies).

Definition get_balances (currencies : option (list string)) : io (list json) :=
  response <- requests_get (BASE_URL ++ "accounts") ;;
  if negb (status_code response =? 200)%nat then ret []
  else
    payload <- lift (response_json response) ;;
    balances <- lift (let! items := PyMore.iter payload in mapM add_locked items) ;;
    match currencies with
    | Some (c :: cs) => lift (filterM (requested (c :: cs)) balances)
    | _ => ret balances
    end.

Definition get_balance_by_currency (c : string) : io (option json) :=
  balances <- get_balances (Some [c]) ;;
  ret (match balances with b :: _ => Some b | [] => None end).

(** [float(balance['balance']) > 0 and
     balance['currency'].upper() not in EXCLUDED_COINS] *)
Definition is_nonzero (entry : json) : result bool :=
  let! b := Py.getitem entry "balance" in
  let! b := py_float b in
  if Qlt_bool 0 b then
    let! c := Py.getitem entry "currency" in
    let! u := PyMore.upper c in
    Ok (negb (Str.mem u EXCLUDED_COINS))
  else Ok false.

Definition get_nonzero_balances : io (list json) :=
  balances <- get_balances None ;;
  lift (filterM is_nonzero balances).

Definition accounts_request : request := mkRequest GET (BASE_URL ++ "accounts").

(** The currency and the total of an entry [get_balances] returns. *)
Definition currency_of (entry : json) : json :=
  match Py.getitem entry "currency" with Ok v => v | Raise _ => JNull end.

Definition is_requested (currencies : list string) (entry : json) : bool :=
  PyMore.in_strs (currency_of entry) currencies.


End Model.

End UpbitAPI.

(* ------------------------------------------------------------------ *)
(** ** api_coinone.py *)

Module CoinoneAPI.

Definition BASE_URL : string := "https://api.coinone.co.kr/".

(** What [get_price_by_currency] returns: a number, or a text. *)
Inductive price_or_text : Type :=
| Number (p : Q)
| Text (s : string).

Section Model.
Context `{PyRuntime}.

(** No [try] here: a transport failure or a body that is not JSON
    raises; the status is not looked at. *)
Definition _post_request (endpoint : string) : io json :=
  let u := BASE_URL ++ endpoint in
  response <- requests_post u ;;
  lift (response_json response).

(** [{"currency": balance["currency"],
      "balance": float(balance["available"]) + float(balance["limit"])}] *)
Definition normalize (entry : json) : result Balance :=
  let! c := Py.getitem entry "currency" in
  let! a := Py.getitem entry "available" in
  let! a := py_float a in
  let! l := Py.getitem entry "limit" in
  let! l := py_float l in
  Ok (mkBalance c (a + l)).

(** The requested currencies travel in the signed payload of the
    request; the exchange decides which entries it answers with. *)
Definition get_balances (currencies : list string) : io (list Balance) :=
  response <- _post_request "/v2.1/account/balance" ;;
  r <- lift (Py.get response "result" JNull) ;;
  if negb (Py.eq_str r "success") then ret []
  else
    bs <- lift (Py.get response "balances" (JList [])) ;;
    lift (let! items := PyMore.iter bs in mapM normalize items).

(** The comprehension of [get_nonzero_balances]: the test
    [float(available) + float(limit) > 0] comes first, the entry is
    built only when it holds. *)
Definition nonzero_entry (entry : json) : result (option Balance) :=
  let! a := Py.getitem entry "available" in
  let! a := py_float a in
  let! l := Py.getitem entry "limit" in
  let! l := py_float l in
  if Qlt_bool 0 (a + l) then
    let! b := normalize entry in Ok (Some b)
  else Ok None.

Fixpoint filter_mapM {A B} (f : A -> result (option B)) (l : list A) : result (list B) :=
  match l with
  | [] => Ok []
  | x :: t =>
      let! y := f x in
      let! ys := filter_mapM f t in
      Ok (match y with Some b => b :: ys | None => ys end)
  end.

Definition get_nonzero_balances : io (list Balance) :=
  response <- _post_request "/v2.1/account/balance/all" ;;
  r <- lift (Py.get response "result" JNull) ;;
  if negb (Py.eq_str r "success") then ret []
  else
    bs <- lift (Py.get response "balances" (JList [])) ;;
    lift (let! items := PyMore.iter bs in filter_mapM nonzero_entry items).

(** The local helper of [get_price_by_currency]. *)
Definition _make_request (u : string) : io json :=
  try_except
    (response <- requests_get u ;;
     lift (raise_for_status u response) ;;;
     lift (response_json response))
    is_RequestException
    (fun e => ret (JStr ("Error: " ++ str_of_exn e))).

(** The payload is used as a dict whatever [_make_request] returned:
    there is no [isinstance(data, str)] test before [data.get]. *)
Definition get_price_by_currency (coin : json) : io price_or_text :=
  lc <- lift (PyMore.lower coin) ;;
  if String.eqb lc "krw" then ret (Number 1)
  else
    data <- _make_request ("https://api.coinone.co.kr/ticker/?currency=" ++ fmt coin) ;;
    code <- lift (Py.get data "errorCode" JNull) ;;
    if Py.eq_str code "0" then
      try_except
        (v <- lift (Py.get data "last" (JNum 0)) ;;
         p <- lift (py_float v) ;;
         ret (Number p))
        is_ValueError_or_TypeError
        (fun _ => ret (Text "Error: Invalid Coinone price data.."))
    else ret (Text "Error: Invalid Coinone price data").

(** One turn of the report loop: [continue] on a text that holds
    ["Error"]; a text without it cannot be multiplied by a float. *)
Definition report_line (b : Balance) : io (option Report.Line) :=
  let c := currency b in
  let balance_amount := balance b in
  p <- get_price_by_currency c ;;
  match p with
  | Text s =>
      if Str.contains "Error" s then ret None else raise TypeError
  | Number p =>
      ret (Some (Report.mkLine c balance_amount p (p * balance_amount) None))
  end.

Definition get_report (currencies : list string) : io pd.DataFrame :=
  balances <- get_balances currencies ;;
  report_data <- for_append report_line balances ;;
  lift (pd.sort_values_total (pd.of_records report_data)).

Definition get_report_with_nonzero_balances : io pd.DataFrame :=
  nonzero_balances <- get_nonzero_balances ;;
  report_data <- for_append report_line nonzero_balances ;;
  lift (pd.sort_values_total (pd.of_records report_data)).

(** [next((balance for balance in items if balance["currency"] == c), None)] *)
Fixpoint first_under (c : string) (items : list json) : result (option json) :=
  match items with
  | [] => Ok None
  | x :: t =>
      let! v := Py.getitem x "currency" in
      if Py.eq_str v c then Ok (Some x) else first_under c t
  end.

(** A request of its own, for the one currency; [None] unless the
    answer is a success and holds an entry under the currency. *)
Definition get_balance_by_currency (c : string) : io (option Balance) :=
  response <- _post_request "/v2.1/account/balance" ;;
  r <- lift (Py.get response "result" JNull) ;;
  if negb (Py.eq_str r "success") then ret None
  else
    bs <- lift (Py.get response "balances" (JList [])) ;;
    lift (let! items := PyMore.iter bs in
          let! balance_data := first_under c items in
          match balance_data with
          | Some x =>
              if Py.truthy x then let! b := normalize x in Ok (Some b) else Ok None
          | None => Ok None
          end).

Definition ticker_request (s : string) : request :=
  mkRequest GET ("https://api.coinone.co.kr/ticker/?currency=" ++ s).


(** What the price lookup of a currency returns on a network. *)
Definition price_at (net : network) (c : json) : result price_or_text :=
  run (get_price_by_currency c) net.

(** The lines a balance contributes to a report: one when its price is
    a number, none when it is a text. *)
Definition lines_of (net : network) (b : Balance) : list Report.Line :=
  match price_at net (currency b) with
  | Ok (Number p) => [Report.mkLine (currency b) (balance b) p (p * balance b) None]
  | _ => []
  end.

End Model.

End CoinoneAPI.

(* ------------------------------------------------------------------ *)
(** ** api_korbit.py *)

Module KorbitAPI.

Definition BASE_URL : string := "https://api.korbit.co.kr".

Definition EXCLUDED_COINS : list string := ["ethw"; "ethf"].

(** The fields of a client object; [access_token] starts as [None]. *)
Record t : Type := mk {
  client_id : string;
  client_secret : string;
  access_token : json;
  token_expires_at : Q
}.

(** One entry of the dict [get_balances] builds. *)
Record entry : Type := mkEntry {
  e_currency : string;
  e_balance : Q;
  e_available : Q;
  e_locked : Q
}.

(** A method of the client: it reads and writes the fields of [self]
    and talks to the network.  The fields are kept when it raises. *)
Definition method (A : Type) : Type :=
  t -> network -> list request -> result A * t * list request.

Definition mret {A} (a : A) : method A := fun self _ log => (Ok a, self, log).

Definition mbind {A B} (c : method A) (k : A -> method B) : method B :=
  fun self net log =>
    match c self net log with
    | (Ok a, self', log') => k a self' net log'
    | (Raise e, self', log') => (Raise e, self', log')
    end.

Definition of_io {A} (c : io A) : method A :=
  fun self net log => let (r, log') := c net log in (r, self, log').

Definition of_result {A} (r : result A) : method A := of_io (lift r).

Definition get_self : method t := fun self _ log => (Ok self, self, log).

Definition set_access_token (v : json) : method unit :=
  fun self _ log =>
    (Ok tt, mk (client_id self) (client_secret self) v (token_expires_at self), log).

Definition set_token_expires_at (x : Q) : method unit :=
  fun self _ log =>
    (Ok tt, mk (client_id self) (client_secret self) (access_token self) x, log).

Definition mtry_except {A} (c : method A) (catches : exn -> bool) (h : exn -> method A)
  : method A :=
  fun self net log =>
    match c self net log with
    | (Ok a, self', log') => (Ok a, self', log')
    | (Raise e, self', log') =>
        if catches e then h e self' net log' else (Raise e, self', log')
    end.

Declare Scope method_scope.
Delimit Scope method_scope with method.
Notation "x <- c ;; k" := (mbind c (fun x => k))
  (at level 61, c at next level, right associativity) : method_scope.
Notation "c ;;; k" := (mbind c (fun _ => k))
  (at level 61, right associativity) : method_scope.

(** [x + v] for a float [x]: a number or a bool adds, anything else is a
    [TypeError]. *)
Definition float_add (x : Q) (v : json) : result Q :=
  match v with
  | JNum q => Ok (x + q)
  | JBool b => Ok (x + (if b then 1 else 0))
  | _ => Raise TypeError
  end.

Fixpoint dict_set {V} (k : string) (v : V) (d : list (string * V)) : list (string * V) :=
  match d with
  | [] => [(k, v)]
  | (k', v') :: rest =>
      if String.eqb k k' then (k, v) :: rest else (k', v') :: dict_set k v rest
  end.

Section Model.
Context `{PyRuntime}.
Local Open Scope method_scope.

(** [now] is what [time.time()] returns at the expiry test and [now']
    what it returns when the expiry of a new token is computed.  The
    [except Exception: print(...); raise] of the source leaves the
    exception as it is. *)
Definition _get_access_token (now now' : Q) : method unit :=
  self <- get_self ;;
  if Qlt_bool now (token_expires_at self) then mret tt
  else
    let u := BASE_URL ++ "/v1/oauth2/access_token" in
    response <- of_io (requests_post u) ;;
    of_result (raise_for_status u response) ;;;
    token_data <- of_result (response_json response) ;;
    tok <- of_result (Py.getitem token_data "access_token") ;;
    set_access_token tok ;;;
    expires_in <- of_result (Py.getitem token_data "expires_in") ;;
    x <- of_result (float_add now' expires_in) ;;
    set_token_expires_at (x - 60).

(** The value of the [Authorization] header. *)
Definition _get_headers (now now' : Q) : method string :=
  _get_access_token now now' ;;;
  self <- get_self ;;
  mret ("Bearer " ++ fmt (access_token self)).

(** [KorbitAPI(client_id, client_secret)]: the fields are set and the
    first token is asked for. *)
Definition fresh (id secret : string) : t := mk id secret JNull 0.

Definition __init__ (now now' : Q) : method unit := _get_access_token now now'.

Definition build_entry (currencies : option (list string)) (kv : string * json)
           (balances : list (string * entry)) : result (list (string * entry)) :=
  let (c, b) := kv in
  let skip := match currencies with
              | Some (x :: xs) => negb (Str.mem c (x :: xs))
              | _ => false
              end in
  if skip then Ok balances
  else
    let! a := Py.get b "available" (JNum 0) in
    let! a := py_float a in
    let! u := Py.get b "trade_in_use" (JNum 0) in
    let! u := py_float u in
    Ok (dict_set c (mkEntry c (a + u) a u) balances).

Fixpoint build_entries (currencies : option (list string)) (items : list (string * json))
         (balances : list (string * entry)) : result (list (string * entry)) :=
  match items with
  | [] => Ok balances
  | kv :: rest =>
      let! balances' := build_entry currencies kv balances in
      build_entries currencies rest balances'
  end.

(** [data.items()]. *)
Definition items (data : json) : result (list (string * json)) :=
  match data with JDict kv => Ok kv | _ => Raise AttributeError end.

Definition get_balances (now now' : Q) (currencies : option (list string))
  : method (list (string * entry)) :=
  mtry_except
    (_get_headers now now' ;;;
     let u := BASE_URL ++ "/v1/user/balances" in
     response <- of_io (requests_get u) ;;
     of_result (raise_for_status u response) ;;;
     data <- of_result (response_json response) ;;
     if negb (Py.truthy data) then mret []
     else
       kvs <- of_result (items data) ;;
       of_result (build_entries currencies kvs []))
    is_RequestException
    (fun _ => mret []).

(** [data['balance'] > 0 and currency.lower() not in EXCLUDED_COINS] *)
Definition is_nonzero (kv : string * entry) : bool :=
  Qlt_bool 0 (e_balance (snd kv)) && negb (Str.mem (Str.lower (fst kv)) EXCLUDED_COINS).

Definition get_nonzero_balances (now now' : Q) : method (list (string * entry)) :=
  balances <- get_balances now now' None ;;
  mret (filter is_nonzero balances).

(** [d.get(k)] on the dict [get_balances] builds. *)
Fixpoint dict_lookup {V} (k : string) (d : list (string * V)) : option V :=
  match d with
  | [] => None
  | (k', v) :: rest => if String.eqb k k' then Some v else dict_lookup k rest
  end.

Definition get_balance_by_currency (now now' : Q) (c : string) : method (option entry) :=
  balances <- get_balances now now' (Some [c]) ;;
  mret (dict_lookup c balances).

Definition balances_request : request := mkRequest GET (BASE_URL ++ "/v1/user/balances").

End Model.

Definition grant_request : request :=
  mkRequest POST (BASE_URL ++ "/v1/oauth2/access_token").

(** The network answers the grant request with a status that is no
    error and a JSON body holding the token [tok] and the number
    [expires_in]. *)
Definition grants (net : network) (tok : json) (expires_in : Q) : Prop :=
  exists (r : Response) (token_data : json),
    net grant_request = Answered r
    /\ raise_for_status (url grant_request) r = Ok tt
    /\ body r = inr token_data
    /\ Py.getitem token_data "access_token" = Ok tok
    /\ Py.getitem token_data "expires_in" = Ok (JNum expires_in).

(** What holds of the dict of balances at every turn of the loop of
    [get_balances]: no key twice, every entry filed under its own
    currency with [balance = available + locked], and only requested
    currencies when a request that is not empty was given. *)
Definition well_formed_entries (cs : option (list string))
           (d : list (string * entry)) : Prop :=
  NoDup (map fst d)
  /\ Forall (fun kv =>
               e_currency (snd kv) = fst kv
               /\ e_balance (snd kv) = e_available (snd kv) + e_locked (snd kv)) d
  /\ (forall x xs, cs = Some (x :: xs) -> Forall (fun kv => In (fst kv) (x :: xs)) d).

End KorbitAPI.

(* ------------------------------------------------------------------ *)
(** ** cex_agg.py *)

Module Aggregator.

(** What the aggregator asks of an exchange client. *)
Record Client : Type := mkClient {
  get_report_with_nonzero_balances : io pd.DataFrame
}.

Record t : Type := mk {
  bithumb : Client;
  coinone : Client;
  korbit : Client;
  upbit : Client
}.

(** One block of [get_report]: the report of a client, tagged and
    appended to [dfs] unless it is empty. *)
Definition collect (c : Client) (name : string) (dfs : list pd.DataFrame)
  : io (list pd.DataFrame) :=
  df <- get_report_with_nonzero_balances c ;;
  if negb (pd.empty df) then ret (dfs ++ [pd.set_exchange name df])%list
  else ret dfs.

(** One [try] around the four blocks and the merge; [except Exception]
    answers with an empty frame. *)
Definition get_report (self : t) : io pd.DataFrame :=
  try_except
    (dfs <- collect (bithumb self) "Bithumb" [] ;;
     dfs <- collect (coinone self) "Coinone" dfs ;;
     dfs <- collect (korbit self) "Korbit" dfs ;;
     dfs <- collect (upbit self) "Upbit" dfs ;;
     match dfs with
     | [] => ret (pd.of_records [])
     | _ => lift (pd.sort_values_total (pd.concat dfs))
     end)
    is_Exception
    (fun _ => ret (pd.of_records [])).

(** [first_failure net clients log e log']: from the log [log] the
    reports of [clients] are built in turn; the first that raises raises
    [e] and leaves the log [log']; those before it returned. *)
Inductive first_failure (net : network)
  : list Client -> list request -> exn -> list request -> Prop :=
| fails_here : forall c rest log e log',
    get_report_with_nonzero_balances c net log = (Raise e, log') ->
    first_failure net (c :: rest) log e log'
| fails_later : forall c rest log df log1 e log',
    get_report_with_nonzero_balances c net log = (Ok df, log1) ->
    first_failure net rest log1 e log' ->
    first_failure net (c :: rest) log e log'.

Definition clients (self : t) : list Client :=
  [bithumb self; coinone self; korbit self; upbit self].

(** The rows a report brings to the aggregation: none when it is
    empty, its rows under the name of the exchange otherwise. *)
Definition tagged (name : string) (df : pd.DataFrame) : list Report.Line :=
  if pd.empty df then [] else pd.rows (pd.set_exchange name df).

End Aggregator.

(* ------------------------------------------------------------------ *)
(** ** real_folio.py *)

Module PortfolioManager.

Record CryptoHolding : Type := mkHolding {
  symbol : string;
  amount : Q
}.

(** A row of the portfolio frame; the row of the sum has [pd.NA]
    ([None]) for amount, price and exchange.  The [date] column is not
    modelled. *)
Module Row.
Record t : Type := mk {
  symbol : string;
  amount : option Q;
  price_krw : option Q;
  exchange : option string;
  total_krw : Q
}.
End Row.

(** [s.split(sep)] for a separator of one character. *)
Fixpoint split_on (sep : ascii) (s : string) : list string :=
  match s with
  | EmptyString => [EmptyString]
  | String c t =>
      if Ascii.eqb c sep then EmptyString :: split_on sep t
      else match split_on sep t with
           | piece :: rest => String c piece :: rest
           | [] => [String c EmptyString]
           end
  end.

(** [l[1]]. *)
Definition item1 (l : list string) : result string :=
  match l with
  | _ :: x :: _ => Ok x
  | _ => Raise IndexError
  end.

Fixpoint insert_desc (x : Row.t) (l : list Row.t) : list Row.t :=
  match l with
  | [] => [x]
  | y :: t =>
      if Qle_bool (Row.total_krw y) (Row.total_krw x) then x :: y :: t
      else y :: insert_desc x t
  end.

(** Rows by [total_krw], largest first.  Among rows of equal total the
    order is a choice of the model, on which no property here depends. *)
Definition sort_desc (l : list Row.t) : list Row.t := fold_right insert_desc [] l.

(** [pd.DataFrame(rows).sort_values(by="total_krw", ascending=False)]:
    a frame built from no row has no column to sort by. *)
Definition sort_values_total_krw (rows : list Row.t) : result (list Row.t) :=
  match rows with
  | [] => Raise KeyError
  | _ => Ok (sort_desc rows)
  end.

Definition desc (a b : Row.t) : Prop := Row.total_krw b <= Row.total_krw a.

Definition sum_totals (rows : list Row.t) : Q :=
  fold_right (fun r acc => Row.total_krw r + acc) 0 rows.

Section Model.
Context `{PyRuntime}.

(** [environ] is what [os.environ.items()] yields once the [.env] file
    is loaded.  An amount that [float] refuses is warned about and left
    out. *)
Fixpoint load_holdings (environ : list (string * string)) : result (list CryptoHolding) :=
  match environ with
  | [] => Ok []
  | (key, value) :: rest =>
      if String.prefix "CRYPTO_" key then
        let! piece := item1 (split_on "_"%char key) in
        let symbol := Str.lower piece in
        match float_of_str value with
        | Some amount =>
            let! holdings := load_holdings rest in
            Ok (mkHolding symbol amount :: holdings)
        | None => load_holdings rest
        end
      else load_holdings rest
  end.

Definition row_of (holding : CryptoHolding) (price : Q) (exchange : string) : Row.t :=
  Row.mk (Str.upper (symbol holding)) (Some (amount holding)) (Some price)
         (Some exchange) (price * amount holding).

(** The loop over the holdings: the rows, and [total_value] as it is
    summed up. *)
Fixpoint holdings_loop (holdings : list CryptoHolding) (total_value : Q)
  : io (list Row.t * Q) :=
  match holdings with
  | [] => ret ([], total_value)
  | holding :: rest =>
      pe <- PriceAPI.get_first_valid_price (symbol holding) ;;
      let total_holding_value := fst pe * amount holding in
      rt <- holdings_loop rest (total_value + total_holding_value) ;;
      ret (row_of holding (fst pe) (snd pe) :: fst rt, snd rt)
  end.

Definition total_row (total_value : Q) : Row.t :=
  Row.mk "TOTAL" None None None total_value.

Definition calculate_portfolio (holdings : list CryptoHolding) : io (list Row.t) :=
  rt <- holdings_loop holdings 0 ;;
  df <- lift (sort_values_total_krw (fst rt)) ;;
  ret (df ++ [total_row (snd rt)])%list.

End Model.

End PortfolioManager.

(* ------------------------------------------------------------------ *)
(** ** The filter of held balances as the specification words it *)

Module BalanceNormalizer.

(** A currency code is excluded when it is in the exclusion set, the
    case of its letters set aside. *)
Definition excluded (excl : list string) (code : json) : bool :=
  match code with JStr s => Str.ci_mem s excl | _ => false end.

(** Keeps the entries with [total > 0] whose code is not excluded. *)
Definition nonzero_only {A} (total : A -> Q) (code : A -> json)
           (excl : list string) (balances : list A) : list A :=
  filter (fun b => Qlt_bool 0 (total b) && negb (excluded excl (code b))) balances.

(** What an account payload says of one currency: its code, the
    amount that is free and the amount held by open orders. *)
Record Holding : Type := mkHolding {
  code : string;
  available : Q;
  locked : Q
}.

Definition total (h : Holding) : Q := available h + locked h.

(** The holdings with [total > 0] whose code is not excluded. *)
Definition held (excl : list string) (holdings : list Holding) : list Holding :=
  nonzero_only total (fun h => JStr (code h)) excl holdings.

(** The entry the Bithumb and Coinone clients build for a holding, and
    the one the Korbit client files under its code. *)
Definition entry (h : Holding) : Balance := mkBalance (JStr (code h)) (total h).


Section Payload.
Context `{PyRuntime}.



End Payload.

End BalanceNormalizer.

(* ------------------------------------------------------------------ *)
(** ** The price cascade as the specification words it *)

Module PriceResolver.

(** A quote is valid when it carries no error and its price is positive. *)
Definition is_valid (q : PriceAPI.ExchangePrice) : bool :=
  match PriceAPI.error q with
  | None => Qlt_bool 0 (PriceAPI.price q)
  | Some _ => false
  end.

(** The local fiat unit, whatever the case of its letters. *)
Definition is_local_fiat (symbol : string) : bool :=
  String.eqb (Str.lower symbol) "krw".

Record PriceSource : Type := mkSource {
  name : string;
  lookup : string -> io PriceAPI.ExchangePrice
}.

Definition sentinel : Q * string := (0%Q, "No valid price found").

(** Sources are tried in order.  At the source being evaluated: the
    fiat unit is worth [1] and nothing is asked of the network;
    otherwise the source is asked, a valid quote ends the search and an
    invalid one moves it to the next source.  With no source left the
    answer is the sentinel. *)
Fixpoint cascade (sources : list PriceSource) (symbol : string) : io (Q * string) :=
  match sources with
  | [] => ret sentinel
  | s :: later =>
      if is_local_fiat symbol then ret (1%Q, name s)
      else
        q <- lookup s symbol ;;
        if is_valid q then ret (PriceAPI.price q, name s)
        else cascade later symbol
  end.

(** An entry of the list [exchanges] of the source, read as a source. *)
Definition as_source (p : (string -> io PriceAPI.ExchangePrice) * string)
  : PriceSource :=
  mkSource (snd p) (fst p).

Section Reference.
Context `{PyRuntime}.

(** The fixed order: three exchanges, then the market-data aggregator. *)
Definition sources : list PriceSource :=
  [ mkSource "Upbit" PriceAPI.get_upbit_price;
    mkSource "Bithumb" PriceAPI.get_bithumb_price;
    mkSource "Coinone" PriceAPI.get_coinone_price;
    mkSource "Coingecko" PriceAPI.get_coingecko_price ].

Definition resolve (symbol : string) : io (Q * string) := cascade sources symbol.

End Reference.

Definition exchange_names : list string := ["Upbit"; "Bithumb"; "Coinone"; "Coingecko"].

(** The requests the four lookups send for a symbol, in the order of
    the sources. *)
Definition ticker_requests (symbol : string) : list request :=
  [ mkRequest GET ("https://api.upbit.com/v1/ticker?markets=KRW-" ++ Str.upper symbol);
    mkRequest GET ("https://api.bithumb.com/public/ticker/" ++ symbol ++ "_KRW");
    mkRequest GET ("https://api.coinone.co.kr/ticker/?currency=" ++ symbol);
    mkRequest GET ("https://api.coingecko.com/api/v3/simple/price?ids="
                   ++ PriceAPI.token_map_get (Str.lower symbol) PriceAPI.token_map
                        (Str.lower symbol)
                   ++ "&vs_currencies=krw") ].

(** [asked_in_vain symbol net l log log']: from the log [log], every
    lookup of [l] was run in turn, each gave a quote that is not valid,
    and the log is then [log']. *)
Inductive asked_in_vain (symbol : string) (net : network)
  : list ((string -> io PriceAPI.ExchangePrice) * string) ->
    list request -> list request -> Prop :=
| vain_nil : forall log, asked_in_vain symbol net [] log log
| vain_cons : forall get_price nm rest log log1 log2 q,
    get_price symbol net log = (Ok q, log1) ->
    is_valid q = false ->
    asked_in_vain symbol net rest log1 log2 ->
    asked_in_vain symbol net ((get_price, nm) :: rest) log log2.

End PriceResolver.

(* ------------------------------------------------------------------ *)
(** ** A small runtime for the examples *)

Module Example.

Definition digit (c : ascii) : option Z :=
  let n := nat_of_ascii c in
  if (48 <=? n)%nat && (n <=? 57)%nat then Some (Z.of_nat (n - 48)) else None.

(** Digits before and after the point: the numerator read so far, the
    power of ten under it, and whether a digit was met. *)
Fixpoint read_digits (s : string) (after_point seen : bool) (num : Z) (den : positive)
  : option Q :=
  match s with
  | EmptyString => if seen then Some (Qred (num # den)) else None
  | String c t =>
      if Ascii.eqb c "."%char then
        if after_point then None else read_digits t true seen num den
      else
        match digit c with
        | Some d =>
            read_digits t after_point true (10 * num + d)%Z
                        (if after_point then (10 * den)%positive else den)
        | None => None
        end
  end.

(** [float(s)] on plain decimal numerals such as ["97000000"], ["0.25"]
    or ["-3"]; every other text is refused. *)
Definition float_of_decimal (s : string) : option Q :=
  match s with
  | EmptyString => None
  | String c t =>
      if Ascii.eqb c "-"%char then option_map Qopp (read_digits t false false 0 1)
      else read_digits s false false 0 1
  end.

Definition str_of (v : json) : string :=
  match v with
  | JNull => "None"
  | JBool true => "True"
  | JBool false => "False"
  | JStr s => s
  | JNum _ => "<number>"
  | JList _ => "<list>"
  | JDict _ => "<dict>"
  end.

Definition runtime : PyRuntime :=
  {| float_of_str := float_of_decimal; str_of_json := str_of |}.

Definition ok_json (j : json) : answer := Answered (mkResponse 200 "OK" (inr j)).

Definition not_found : answer := Answered (mkResponse 404 "Not Found" (inr (JDict []))).

(** A network on which only Bithumb lists the coin [ARGO], at 250. *)
Definition only_bithumb_lists_argo : network :=
  fun rq =>
    if String.eqb (url rq) "https://api.upbit.com/v1/ticker?markets=KRW-ARGO"
    then not_found
    else if String.eqb (url rq) "https://api.bithumb.com/public/ticker/argo_KRW"
    then ok_json (JDict [("status", JStr "0000");
                         ("data", JDict [("closing_price", JStr "250")])])
    else Unreachable "no route to host".

(** An account that holds one BTC and five units of a coin no ticker
    knows, as Bithumb and as Coinone report it; the tickers of both price
    BTC at 100 and refuse the other coin. *)
Definition btc_and_unknown : network :=
  fun rq =>
    let u := url rq in
    if String.eqb u "https://api.bithumb.com/v1/accounts" then
      ok_json (JList [ JDict [("currency", JStr "BTC"); ("balance", JStr "1"); ("locked", JStr "0")];
                       JDict [("currency", JStr "UNKNOWNCOIN"); ("balance", JStr "5"); ("locked", JStr "0")] ])
    else if String.eqb u "https://api.bithumb.com/public/ticker/BTC_KRW" then
      ok_json (JDict [("status", JStr "0000"); ("data", JDict [("closing_price", JStr "100")])])
    else if String.eqb u "https://api.bithumb.com/public/ticker/UNKNOWNCOIN_KRW" then
      ok_json (JDict [("status", JStr "5500"); ("message", JStr "Invalid Parameter")])
    else if String.eqb u "https://api.coinone.co.kr//v2.1/account/balance" then
      ok_json (JDict [("result", JStr "success");
                      ("balances",
                       JList [ JDict [("currency", JStr "BTC"); ("available", JStr "1"); ("limit", JStr "0")];
                               JDict [("currency", JStr "UNKNOWNCOIN"); ("available", JStr "5"); ("limit", JStr "0")] ])])
    else if String.eqb u "https://api.coinone.co.kr/ticker/?currency=BTC" then
      ok_json (JDict [("errorCode", JStr "0"); ("last", JStr "100")])
    else if String.eqb u "https://api.coinone.co.kr/ticker/?currency=UNKNOWNCOIN" then
      ok_json (JDict [("errorCode", JStr "108"); ("result", JStr "error")])
    else Unreachable "no route to host".

(** A Bithumb account with 50 won and one BTC, priced at 100. *)
Definition krw_then_btc : network :=
  fun rq =>
    let u := url rq in
    if String.eqb u "https://api.bithumb.com/v1/accounts" then
      ok_json (JList [ JDict [("currency", JStr "KRW"); ("balance", JStr "50"); ("locked", JStr "0")];
                       JDict [("currency", JStr "BTC"); ("balance", JStr "1"); ("locked", JStr "0")] ])
    else if String.eqb u "https://api.bithumb.com/public/ticker/BTC_KRW" then
      ok_json (JDict [("status", JStr "0000"); ("data", JDict [("closing_price", JStr "100")])])
    else Unreachable "no route to host".

(** A network on which nothing can be reached. *)
Definition offline (msg : string) : network := fun _ => Unreachable msg.

(** The Bithumb and Coinone clients as they are, and stand-ins with
    nothing to report for the other two. *)
Definition nothing_to_report : Aggregator.Client :=
  Aggregator.mkClient (ret (pd.of_columns pd.report_columns)).

Definition aggregator : Aggregator.t :=
  Aggregator.mk
    (Aggregator.mkClient (@BithumbAPI.get_report_with_nonzero_balances runtime))
    (Aggregator.mkClient (@CoinoneAPI.get_report_with_nonzero_balances runtime))
    nothing_to_report
    nothing_to_report.

(** An Upbit account with one BTC and two ETHW. *)
Definition upbit_btc_ethw : network :=
  fun rq =>
    if String.eqb (url rq) "https://api.upbit.com/v1/accounts" then
      ok_json (JList [ JDict [("currency", JStr "BTC"); ("balance", JStr "1"); ("locked", JStr "0")];
                       JDict [("currency", JStr "ETHW"); ("balance", JStr "2"); ("locked", JStr "0")] ])
    else Unreachable "no route to host".

Definition upbit_btc : json :=
  JDict [("currency", JStr "BTC"); ("balance", JNum 1); ("locked", JStr "0")].

Definition upbit_ethw : json :=
  JDict [("currency", JStr "ETHW"); ("balance", JNum 2); ("locked", JStr "0")].

(** Holdings on the four exchanges, with fork coins among them, some
    in lower or mixed case. *)
Definition holdings : network :=
  fun rq =>
    let u := url rq in
    if String.eqb u "https://api.bithumb.com/v1/accounts" then
      ok_json (JList [ JDict [("currency", JStr "BTC"); ("balance", JStr "1"); ("locked", JStr "0")];
                       JDict [("currency", JStr "ethw"); ("balance", JStr "2"); ("locked", JStr "0")];
                       JDict [("currency", JStr "XRP"); ("balance", JStr "0"); ("locked", JStr "0")] ])
    else if String.eqb u "https://api.upbit.com/v1/accounts" then
      ok_json (JList [ JDict [("currency", JStr "EthF"); ("balance", JStr "2"); ("locked", JStr "1")];
                       JDict [("currency", JStr "BTC"); ("balance", JStr "1"); ("locked", JStr "0")] ])
    else if String.eqb u "https://api.coinone.co.kr//v2.1/account/balance/all" then
      ok_json (JDict [("result", JStr "success");
                      ("balances",
                       JList [ JDict [("currency", JStr "BTC"); ("available", JStr "1"); ("limit", JStr "0")];
                               JDict [("currency", JStr "XRP"); ("available", JStr "0"); ("limit", JStr "0")] ])])
    else if String.eqb u "https://api.bithumb.com/public/ticker/BTC_KRW" then
      ok_json (JDict [("status", JStr "0000"); ("data", JDict [("closing_price", JStr "100")])])
    else if String.eqb u "https://api.coinone.co.kr/ticker/?currency=BTC" then
      ok_json (JDict [("errorCode", JStr "0"); ("last", JStr "101")])
    else if String.eqb u "https://api.korbit.co.kr/v1/oauth2/access_token" then
      ok_json (JDict [("access_token", JStr "tok-1"); ("expires_in", JNum 3600)])
    else if String.eqb u "https://api.korbit.co.kr/v1/user/balances" then
      ok_json (JDict [ ("btc", JDict [("available", JStr "1"); ("trade_in_use", JStr "0")]);
                       ("ETHW", JDict [("available", JStr "2"); ("trade_in_use", JStr "0")]) ])
    else Unreachable "no route to host".

Definition korbit_holdings : list (string * KorbitAPI.entry) :=
  [ ("btc", KorbitAPI.mkEntry "btc" 1 1 0); ("ETHW", KorbitAPI.mkEntry "ETHW" 2 2 0) ].

Definition coinone_all : json :=
  JDict [("result", JStr "success");
         ("balances",
          JList [ JDict [("currency", JStr "BTC"); ("available", JStr "1"); ("limit", JStr "0")];
                  JDict [("currency", JStr "XRP"); ("available", JStr "0"); ("limit", JStr "0")] ])].

Definition btc_balance : Balance := mkBalance (JStr "BTC") 1.

Definition unknown_balance : Balance := mkBalance (JStr "UNKNOWNCOIN") 5.

(** The token endpoint of Korbit hands out the token ["tok-1"], good
    for [expires_in] seconds. *)
Definition korbit_grants (expires_in : Q) : network :=
  fun rq =>
    if String.eqb (url rq) "https://api.korbit.co.kr/v1/oauth2/access_token"
    then ok_json (JDict [("access_token", JStr "tok-1"); ("expires_in", JNum expires_in)])
    else Unreachable "no route to host".

(** A client built at time [1000] against that endpoint, with tokens
    good for 120 seconds. *)
Definition korbit_client_120 : KorbitAPI.t :=
  snd (fst (KorbitAPI.__init__ 1000 1000 (KorbitAPI.fresh "id" "secret")
                               (korbit_grants 120) [])).

(** A network that gives every request the same answer. *)
Definition always (a : answer) : network := fun _ => a.

(** Upbit answers the ticker request for BTC with a JSON object, under
    the status 200. *)
Definition upbit_object : network :=
  fun rq =>
    if String.eqb (url rq) "https://api.upbit.com/v1/ticker?markets=KRW-BTC"
    then ok_json (JDict [("error", JDict [("name", JStr "too_many_requests")])])
    else Unreachable "no route to host".

(** The ticker of Bithumb knows the coin and has no closing price. *)
Definition bithumb_null_price : network :=
  fun rq =>
    if String.eqb (url rq) "https://api.bithumb.com/public/ticker/BTC_KRW"
    then ok_json (JDict [("status", JStr "0000");
                         ("data", JDict [("closing_price", JNull)])])
    else Unreachable "no route to host".

(** A Bithumb account with one BTC, priced at 100, and a Coinone
    account whose only balance is zero. *)
Definition coinone_holds_nothing : network :=
  fun rq =>
    let u := url rq in
    if String.eqb u "https://api.bithumb.com/v1/accounts" then
      ok_json (JList [ JDict [("currency", JStr "BTC"); ("balance", JStr "1"); ("locked", JStr "0")] ])
    else if String.eqb u "https://api.bithumb.com/public/ticker/BTC_KRW" then
      ok_json (JDict [("status", JStr "0000"); ("data", JDict [("closing_price", JStr "100")])])
    else if String.eqb u "https://api.coinone.co.kr//v2.1/account/balance/all" then
      ok_json (JDict [("result", JStr "success");
                      ("balances",
                       JList [ JDict [("currency", JStr "XRP"); ("available", JStr "0"); ("limit", JStr "0")] ])])
    else Unreachable "no route to host".

(** A Coinone account with five units of a coin its ticker refuses. *)
Definition coinone_unlisted : network :=
  fun rq =>
    let u := url rq in
    if String.eqb u "https://api.coinone.co.kr//v2.1/account/balance" then
      ok_json (JDict [("result", JStr "success");
                      ("balances",
                       JList [ JDict [("currency", JStr "UNKNOWNCOIN"); ("available", JStr "5"); ("limit", JStr "0")] ])])
    else if String.eqb u "https://api.coinone.co.kr/ticker/?currency=UNKNOWNCOIN" then
      ok_json (JDict [("errorCode", JStr "108"); ("result", JStr "error")])
    else Unreachable "no route to host".

(** The token endpoint of Korbit answers with an object that holds no
    token. *)
Definition korbit_refuses : network :=
  fun rq =>
    if String.eqb (url rq) "https://api.korbit.co.kr/v1/oauth2/access_token"
    then ok_json (JDict [("error", JStr "invalid_client")])
    else Unreachable "no route to host".


(** The environment of a portfolio with two ARGO and one BTC, and what
    the price lookups give on a network where only ARGO is listed. *)
Definition environ : list (string * string) :=
  [ ("HOME", "/root"); ("CRYPTO_ARGO", "2"); ("CRYPTO_BTC", "1"); ("CRYPTO_ETH", "many") ].

Definition portfolio : list PortfolioManager.CryptoHolding :=
  [ PortfolioManager.mkHolding "argo" 2; PortfolioManager.mkHolding "btc" 1 ].

Definition quote (h : PortfolioManager.CryptoHolding) : Q * string :=
  if String.eqb (PortfolioManager.symbol h) "argo" then (250, "Bithumb")
  else PriceResolver.sentinel.

End Example.

(* ================================================================== *)
(** * Properties *)

(** ** Comparisons *)

Lemma Qlt_bool_iff (a b : Q) : Qlt_bool a b = true <-> a < b.
Proof.
  unfold Qlt_bool. rewrite negb_true_iff.
  split.
  - intros E. apply Qnot_le_lt. intros L.
    apply Qle_bool_iff in L. congruence.
  - intros L. destruct (Qle_bool b a) eqn:E; [|reflexivity].
    apply Qle_bool_iff in E. exfalso. apply (Qlt_not_le _ _ L E).
Qed.

Lemma Qlt_bool_false_iff (a b : Q) : Qlt_bool a b = false <-> b <= a.
Proof.
  unfold Qlt_bool. rewrite negb_false_iff. apply Qle_bool_iff.
Qed.

(** ** Case of letters *)







(** ** Steps of the [io] monad *)

Lemma bind_ret {A B} (a : A) (k : A -> io B) net log :
  bind (ret a) k net log = k a net log.
Proof. reflexivity. Qed.

Lemma bind_ok {A B} (c : io A) (k : A -> io B) net log a log' :
  c net log = (Ok a, log') -> bind c k net log = k a net log'.
Proof. intros E; unfold bind; now rewrite E. Qed.

Lemma bind_raise {A B} (c : io A) (k : A -> io B) net log e log' :
  c net log = (Raise e, log') -> bind c k net log = (Raise e, log').
Proof. intros E; unfold bind; now rewrite E. Qed.

(** Opens a test or a match of the goal whose subject holds no other
    test or match. *)
Ltac plain x :=
  lazymatch x with
  | context [match _ with _ => _ end] => fail
  | _ => idtac
  end.

Ltac open_inner :=
  match goal with
  | |- context [match ?x with _ => _ end] => plain x; destruct x eqn:?
  end.

(** ** Computations that never read the log *)

Lemma log_free_ret {A} (a : A) : log_free (ret a).
Proof. intros net log. unfold ret, run, requests_of. cbn. now rewrite app_nil_r. Qed.

Lemma log_free_lift {A} (r : result A) : log_free (lift r).
Proof. intros net log. unfold lift, run, requests_of. cbn. now rewrite app_nil_r. Qed.

Lemma log_free_raise {A} (e : exn) : log_free (@raise A e).
Proof. apply log_free_lift. Qed.

Lemma log_free_send m u : log_free (send m u).
Proof. intros net log. reflexivity. Qed.

Lemma log_free_bind {A B} (c : io A) (k : A -> io B) :
  log_free c -> (forall a, log_free (k a)) -> log_free (bind c k).
Proof.
  intros Hc Hk net log. unfold run, requests_of, bind.
  rewrite (Hc net log), (Hc net []). cbn [app].
  destruct (run c net) as [a|e].
  - rewrite (Hk a net (log ++ requests_of c net)%list), (Hk a net (requests_of c net)).
    cbn [fst snd]. now rewrite app_assoc.
  - reflexivity.
Qed.

Lemma log_free_try_except {A} (c : io A) catches (h : exn -> io A) :
  log_free c -> (forall e, log_free (h e)) -> log_free (try_except c catches h).
Proof.
  intros Hc Hh net log. unfold run, requests_of, try_except.
  rewrite (Hc net log), (Hc net []). cbn [app].
  destruct (run c net) as [a|e]; [reflexivity|].
  destruct (catches e); [|reflexivity].
  rewrite (Hh e net (log ++ requests_of c net)%list), (Hh e net (requests_of c net)).
  cbn [fst snd]. now rewrite app_assoc.
Qed.

Lemma log_free_for_append {A B} (body : A -> io (option B)) (l : list A) :
  (forall x, log_free (body x)) -> log_free (for_append body l).
Proof.
  intros Hb. induction l as [|x t IH]; cbn [for_append].
  - apply log_free_ret.
  - apply log_free_bind; [apply Hb|]. intros r.
    apply log_free_bind; [apply IH|]. intros rest. apply log_free_ret.
Qed.

(** Solves [log_free c] for a computation built from the steps above,
    opening its tests and matches. *)
Ltac log_free_step :=
  match goal with
  | |- forall _, _ => intro
  | |- log_free (ret _) => apply log_free_ret
  | |- log_free (lift _) => apply log_free_lift
  | |- log_free (raise _) => apply log_free_raise
  | |- log_free (requests_get _) => apply log_free_send
  | |- log_free (requests_post _) => apply log_free_send
  | |- log_free (bind _ _) => apply log_free_bind
  | |- log_free (try_except _ _ _) => apply log_free_try_except
  | |- log_free (for_append _ _) => apply log_free_for_append
  | |- log_free (if ?b then _ else _) => destruct b
  | |- log_free (match ?x with _ => _ end) => destruct x
  | |- log_free (let _ := _ in _) => cbv zeta
  end.

Ltac log_free_tac := repeat log_free_step.

(** What a sequence returns, read off its parts. *)
Lemma run_bind {A B} (c : io A) (k : A -> io B) net :
  log_free c -> (forall a, log_free (k a)) ->
  run (bind c k) net
  = match run c net with Ok a => run (k a) net | Raise e => Raise e end.
Proof.
  intros Hc Hk. unfold run at 1. unfold bind. rewrite (Hc net []). cbn [app].
  destruct (run c net) as [a|e]; [|reflexivity].
  now rewrite (Hk a net (requests_of c net)).
Qed.

Lemma run_ret {A} (a : A) net : run (ret a) net = Ok a.
Proof. reflexivity. Qed.

Lemma run_lift {A} (r : result A) net : run (lift r) net = r.
Proof. reflexivity. Qed.

(** With a log-free computation, the result from any log is the result
    from the empty one. *)
Lemma run_from {A} (c : io A) net log :
  log_free c -> fst (c net log) = run c net.
Proof. intros Hc. now rewrite (Hc net log). Qed.

Lemma returns_from {A} (c : io A) net log r log' :
  log_free c -> c net log = (r, log') -> run c net = r.
Proof. intros Hc E. rewrite <- (run_from c net log Hc). now rewrite E. Qed.

Lemma from_run {A} (c : io A) net log r :
  log_free c -> run c net = r -> exists log', c net log = (r, log').
Proof. intros Hc E. rewrite (Hc net log), E. eauto. Qed.

Lemma run_for_append {A B} (body : A -> io (option B)) (l : list A) net :
  (forall x, log_free (body x)) ->
  run (for_append body l) net = gather (map (fun x => run (body x) net) l).
Proof.
  intros Hb. induction l as [|x t IH]; [reflexivity|].
  cbn [for_append map gather].
  rewrite run_bind; [|apply Hb|log_free_tac; apply Hb].
  unfold and_then at 1. destruct (run (body x) net) as [r|e]; [|reflexivity].
  rewrite run_bind; [|log_free_tac; apply Hb|log_free_tac].
  rewrite IH. unfold and_then.
  destruct (gather _) as [ys|e]; reflexivity.
Qed.

(** ** The price cascade *)

Section PriceCascade.
Context `{PyRuntime}.

Lemma is_valid_as_tested (q : PriceAPI.ExchangePrice) :
  negb (PriceAPI.is_error q) && Qlt_bool 0 (PriceAPI.price q) = PriceResolver.is_valid q.
Proof.
  unfold PriceAPI.is_error, PriceResolver.is_valid.
  now destruct (PriceAPI.error q).
Qed.

(** Away from the fiat unit the loop of the source and the cascade of
    the specification are the same search. *)
Lemma loop_is_cascade symbol :
  PriceResolver.is_local_fiat symbol = false ->
  forall l net log,
    PriceAPI.first_valid_loop l symbol net log
    = PriceResolver.cascade (map PriceResolver.as_source l) symbol net log.
Proof.
  intros Hfiat l; induction l as [|[get_price nm] rest IH]; intros net log.
  - reflexivity.
  - cbn [PriceAPI.first_valid_loop PriceResolver.cascade map PriceResolver.as_source fst snd
         PriceResolver.lookup PriceResolver.name].
    rewrite Hfiat. unfold bind.
    destruct (get_price symbol net log) as [[q|e] log']; [|reflexivity].
    rewrite is_valid_as_tested.
    destruct (PriceResolver.is_valid q); [reflexivity|apply IH].
Qed.

(** On the fiat unit the first lookup answers at once. *)
Lemma fiat_upbit symbol net log :
  PriceResolver.is_local_fiat symbol = true ->
  PriceAPI.get_upbit_price symbol net log
  = (Ok (PriceAPI.mkExchangePrice "Upbit" 1 None), log).
Proof.
  unfold PriceResolver.is_local_fiat, PriceAPI.get_upbit_price.
  now intros ->.
Qed.

(** The loop stops at the first valid quote: the sources after it are
    not run, so the log is the one the valid lookup left. *)
Lemma loop_stops_at_first_valid symbol net before get_price nm after log log1 log2 q :
  PriceResolver.asked_in_vain symbol net before log log1 ->
  get_price symbol net log1 = (Ok q, log2) ->
  PriceResolver.is_valid q = true ->
  PriceAPI.first_valid_loop (before ++ (get_price, nm) :: after)%list symbol net log
  = (Ok (PriceAPI.price q, nm), log2).
Proof.
  intros Hvain; induction Hvain as [log|g n rest log la lb q' Hg Hq' _ IH];
    intros Hget Hq.
  - cbn [app PriceAPI.first_valid_loop].
    rewrite (bind_ok _ _ _ _ _ _ Hget), is_valid_as_tested, Hq. reflexivity.
  - cbn [app PriceAPI.first_valid_loop].
    rewrite (bind_ok _ _ _ _ _ _ Hg), is_valid_as_tested, Hq'. now apply IH.
Qed.

(** With every quote invalid the loop ends on the sentinel. *)
Lemma loop_exhausted symbol net l log log' :
  PriceResolver.asked_in_vain symbol net l log log' ->
  PriceAPI.first_valid_loop l symbol net log = (Ok PriceResolver.sentinel, log').
Proof.
  induction 1 as [log|g n rest log la lb q Hg Hq _ IH].
  - reflexivity.
  - cbn [PriceAPI.first_valid_loop].
    now rewrite (bind_ok _ _ _ _ _ _ Hg), is_valid_as_tested, Hq.
Qed.

(** C1. For every symbol, every network and every request log,
    [PriceAPI.get_first_valid_price] does what the reference cascade
    [PriceResolver.resolve] does: same result, same requests issued.
    The cascade tries Upbit, Bithumb, Coinone, Coingecko in this order.
    On the fiat unit [krw] (in any case) the answer is [(1, "Upbit")],
    the source under evaluation, and nothing is asked of the network.
    Otherwise the answer is the price and the name of the first source
    whose quote has no error and a positive price, and the sources after
    it are not asked: the log is the one its lookup left. When every
    source gave a quote that is not valid the answer is
    [(0, "No valid price found")]. *)
Theorem get_first_valid_price_is_reference_cascade :
  forall (symbol : string) (net : network) (log : list request),
    PriceAPI.get_first_valid_price symbol net log
    = PriceResolver.resolve symbol net log
    /\ (PriceResolver.is_local_fiat symbol = true ->
        PriceAPI.get_first_valid_price symbol net log = (Ok (1, "Upbit"), log))
    /\ (forall before get_price nm after log1 log2 q,
          PriceAPI.exchanges = (before ++ (get_price, nm) :: after)%list ->
          PriceResolver.asked_in_vain symbol net before log log1 ->
          get_price symbol net log1 = (Ok q, log2) ->
          PriceResolver.is_valid q = true ->
          PriceAPI.get_first_valid_price symbol net log
          = (Ok (PriceAPI.price q, nm), log2))
    /\ (forall log',
          PriceResolver.asked_in_vain symbol net PriceAPI.exchanges log log' ->
          PriceAPI.get_first_valid_price symbol net log
          = (Ok (0, "No valid price found"), log')).
Proof.
  intros symbol net log.
  unfold PriceAPI.get_first_valid_price, PriceResolver.resolve.
  split; [|split; [|split]].
  - destruct (PriceResolver.is_local_fiat symbol) eqn:Hfiat.
    + unfold PriceAPI.exchanges, PriceResolver.sources.
      cbn [PriceAPI.first_valid_loop PriceResolver.cascade PriceResolver.name].
      rewrite Hfiat.
      rewrite (bind_ok _ _ _ _ _ _ (fiat_upbit symbol net log Hfiat)).
      reflexivity.
    + now rewrite loop_is_cascade.
  - intros Hfiat. unfold PriceAPI.exchanges.
    cbn [PriceAPI.first_valid_loop].
    now rewrite (bind_ok _ _ _ _ _ _ (fiat_upbit symbol net log Hfiat)).
  - intros before get_price nm after log1 log2 q -> V G Q.
    now apply (loop_stops_at_first_valid symbol net before get_price nm after log log1 log2 q).
  - intros log' V. now apply loop_exhausted.
Qed.

(** What the loop can return: a positive price under the name of one of
    its sources, or the sentinel. *)
Lemma loop_returns symbol net l :
  forall log p src log',
    PriceAPI.first_valid_loop l symbol net log = (Ok (p, src), log') ->
    (0 < p /\ In src (map snd l)) \/ (p, src) = PriceResolver.sentinel.
Proof.
  induction l as [|[get_price nm] rest IH]; intros log p src log' E.
  - cbn in E. right. now inversion E.
  - cbn [PriceAPI.first_valid_loop] in E. unfold bind in E.
    destruct (get_price symbol net log) as [[q|e] l1]; [|discriminate].
    destruct (negb (PriceAPI.is_error q) && Qlt_bool 0 (PriceAPI.price q)) eqn:V.
    + inversion E; subst. left. split.
      * apply andb_true_iff in V. now apply Qlt_bool_iff.
      * now left.
    + destruct (IH _ _ _ _ E) as [[Hp Hin]|Hs]; [left|now right].
      split; [exact Hp|now right].
Qed.

(** C10. Whenever [PriceAPI.get_first_valid_price] returns a pair
    [(price, source)]: the price is not negative; it is positive exactly
    when the source is one of the four exchange names; and it is zero
    exactly when the source is the text ["No valid price found"]. *)
Theorem get_first_valid_price_pair_invariant :
  forall (symbol : string) (net : network) (log log' : list request)
         (p : Q) (src : string),
    PriceAPI.get_first_valid_price symbol net log = (Ok (p, src), log') ->
    0 <= p
    /\ (0 < p <-> In src PriceResolver.exchange_names)
    /\ (p == 0 <-> src = "No valid price found").
Proof.
  intros symbol net log log' p src E.
  apply loop_returns in E. cbn [map snd PriceAPI.exchanges] in E.
  destruct E as [[Hp Hin]|Hs].
  - split; [now apply Qlt_le_weak|]. split.
    + split; [intros _; exact Hin|intros _; exact Hp].
    + split.
      * intros Z. rewrite Z in Hp. exfalso. now apply (Qlt_irrefl 0).
      * intros ->. exfalso.
        cbn in Hin. repeat (destruct Hin as [Hin|Hin]; [discriminate|]). exact Hin.
  - inversion Hs; subst. split; [apply Qle_refl|]. split.
    + split.
      * intros Hp. exfalso. now apply (Qlt_irrefl 0).
      * intros Hin. exfalso.
        cbn in Hin. repeat (destruct Hin as [Hin|Hin]; [discriminate|]). exact Hin.
    + split; [reflexivity|intros _; reflexivity].
Qed.

End PriceCascade.

(** The coin [argo] on a network where Upbit refuses it and Bithumb
    lists it: Upbit is asked in vain, Bithumb answers, the two others
    are not asked. *)
Lemma get_first_valid_price_is_reference_cascade_witness :
  @PriceAPI.get_first_valid_price Example.runtime "argo" Example.only_bithumb_lists_argo []
  = (Ok (250, "Bithumb"),
     [ mkRequest GET "https://api.upbit.com/v1/ticker?markets=KRW-ARGO";
       mkRequest GET "https://api.bithumb.com/public/ticker/argo_KRW" ]).
Proof.
  destruct (@get_first_valid_price_is_reference_cascade Example.runtime "argo"
              Example.only_bithumb_lists_argo [])
    as (_ & _ & stops & _).
  apply (stops [(@PriceAPI.get_upbit_price Example.runtime, "Upbit")]
               (@PriceAPI.get_bithumb_price Example.runtime) "Bithumb"
               [ (@PriceAPI.get_coinone_price Example.runtime, "Coinone");
                 (@PriceAPI.get_coingecko_price Example.runtime, "Coingecko") ]
               [mkRequest GET "https://api.upbit.com/v1/ticker?markets=KRW-ARGO"]
               [ mkRequest GET "https://api.upbit.com/v1/ticker?markets=KRW-ARGO";
                 mkRequest GET "https://api.bithumb.com/public/ticker/argo_KRW" ]
               (PriceAPI.mkExchangePrice "Bithumb" 250 None)).
  - reflexivity.
  - eapply PriceResolver.vain_cons; [vm_compute; reflexivity|reflexivity|constructor].
  - vm_compute; reflexivity.
  - reflexivity.
Defined.

(** The fiat unit, in any case, costs no request. *)
Example fiat_costs_no_request :
  @PriceAPI.get_first_valid_price Example.runtime "KrW" (Example.offline "down") []
  = (Ok (1, "Upbit"), []).
Proof. reflexivity. Qed.

(** With the network down the four sources are asked, in order, and the
    answer is the sentinel. *)
Example offline_gives_sentinel :
  @PriceAPI.get_first_valid_price Example.runtime "btc" (Example.offline "down") []
  = (Ok (0, "No valid price found"),
     [ mkRequest GET "https://api.upbit.com/v1/ticker?markets=KRW-BTC";
       mkRequest GET "https://api.bithumb.com/public/ticker/btc_KRW";
       mkRequest GET "https://api.coinone.co.kr/ticker/?currency=btc";
       mkRequest GET "https://api.coingecko.com/api/v3/simple/price?ids=bitcoin&vs_currencies=krw" ]).
Proof. reflexivity. Qed.

(** On a network where only Bithumb lists the coin, the price is the one
    of Bithumb and the invariant is met. *)
Lemma get_first_valid_price_pair_invariant_witness :
  @PriceAPI.get_first_valid_price Example.runtime "argo" Example.only_bithumb_lists_argo []
  = (Ok (250%Q, "Bithumb"),
     [ mkRequest GET "https://api.upbit.com/v1/ticker?markets=KRW-ARGO";
       mkRequest GET "https://api.bithumb.com/public/ticker/argo_KRW" ])
  /\ 0 <= 250
  /\ (0 < 250 <-> In "Bithumb" PriceResolver.exchange_names)
  /\ (250 == 0 <-> "Bithumb" = "No valid price found").
Proof.
  split; [vm_compute; reflexivity|].
  apply (@get_first_valid_price_pair_invariant Example.runtime "argo"
           Example.only_bithumb_lists_argo []
           [ mkRequest GET "https://api.upbit.com/v1/ticker?markets=KRW-ARGO";
             mkRequest GET "https://api.bithumb.com/public/ticker/argo_KRW" ]
           250%Q "Bithumb").
  vm_compute; reflexivity.
Defined.

(** ** The token cache of Korbit *)

Section TokenCache.
Context `{PyRuntime}.

(** Before the expiry the call returns at once: no request, no change. *)
Lemma token_cached (now now' : Q) (self : KorbitAPI.t) net log :
  now < KorbitAPI.token_expires_at self ->
  KorbitAPI._get_access_token now now' self net log = (Ok tt, self, log).
Proof.
  intros L. apply Qlt_bool_iff in L.
  unfold KorbitAPI._get_access_token, KorbitAPI.mbind, KorbitAPI.get_self.
  now rewrite L.
Qed.

Lemma headers_cached (now now' : Q) (self : KorbitAPI.t) net log :
  now < KorbitAPI.token_expires_at self ->
  KorbitAPI._get_headers now now' self net log
  = (Ok ("Bearer " ++ fmt (KorbitAPI.access_token self)), self, log).
Proof.
  intros L. unfold KorbitAPI._get_headers, KorbitAPI.mbind.
  now rewrite (token_cached now now' self net log L).
Qed.

(** From the expiry on the call sends the grant request, once, whatever
    comes of it. *)
Lemma token_asked_once (now now' : Q) (self : KorbitAPI.t) net log :
  KorbitAPI.token_expires_at self <= now ->
  exists r self',
    KorbitAPI._get_access_token now now' self net log
    = (r, self', (log ++ [KorbitAPI.grant_request])%list).
Proof.
  intros L. apply Qlt_bool_false_iff in L.
  unfold KorbitAPI._get_access_token, KorbitAPI.mbind, KorbitAPI.get_self.
  rewrite L.
  unfold KorbitAPI.of_io, KorbitAPI.of_result, KorbitAPI.of_io, requests_post, send, lift.
  fold KorbitAPI.grant_request.
  destruct (net KorbitAPI.grant_request) as [msg|r]; [eauto|].
  destruct (raise_for_status _ r) as [[]|e]; [|eauto].
  destruct (response_json r) as [token_data|e]; [|eauto].
  destruct (Py.getitem token_data "access_token") as [tok|e]; [|eauto].
  unfold KorbitAPI.set_access_token.
  destruct (Py.getitem token_data "expires_in") as [ei|e]; [|eauto].
  destruct (KorbitAPI.float_add now' ei) as [x|e]; [|eauto].
  unfold KorbitAPI.set_token_expires_at. eauto.
Qed.

(** A grant that succeeds stores the token and the expiry
    [now' + expires_in - 60]. *)
Lemma token_granted (now now' : Q) (self : KorbitAPI.t) net log tok expires_in :
  KorbitAPI.token_expires_at self <= now ->
  KorbitAPI.grants net tok expires_in ->
  KorbitAPI._get_access_token now now' self net log
  = (Ok tt,
     KorbitAPI.mk (KorbitAPI.client_id self) (KorbitAPI.client_secret self) tok
                  (now' + expires_in - 60),
     (log ++ [KorbitAPI.grant_request])%list).
Proof.
  intros L (r & token_data & Hnet & Hst & Hbody & Htok & Hexp).
  apply Qlt_bool_false_iff in L.
  unfold KorbitAPI._get_access_token, KorbitAPI.mbind, KorbitAPI.get_self.
  rewrite L.
  unfold KorbitAPI.of_io, KorbitAPI.of_result, KorbitAPI.of_io, requests_post, send, lift.
  fold KorbitAPI.grant_request. rewrite Hnet.
  change (KorbitAPI.BASE_URL ++ "/v1/oauth2/access_token") with (url KorbitAPI.grant_request).
  rewrite Hst. unfold response_json. rewrite Hbody, Htok.
  unfold KorbitAPI.set_access_token. rewrite Hexp. reflexivity.
Qed.

Lemma headers_asked_once (now now' : Q) (self : KorbitAPI.t) net log :
  KorbitAPI.token_expires_at self <= now ->
  exists r self',
    KorbitAPI._get_headers now now' self net log
    = (r, self', (log ++ [KorbitAPI.grant_request])%list).
Proof.
  intros L. destruct (token_asked_once now now' self net log L) as (r & self' & E).
  unfold KorbitAPI._get_headers, KorbitAPI.mbind. rewrite E.
  destruct r as [[]|e]; unfold KorbitAPI.get_self, KorbitAPI.mret; eauto.
Qed.

(** C7. For the Korbit client: a grant that succeeds with [expires_in]
    when the clock reads [t] leaves the session with the new token and
    [token_expires_at = t + expires_in - 60]; from then on every
    authenticated call made while the clock is strictly before
    [token_expires_at] uses the cached token, sends no request and leaves
    the session as it is (so this holds for every later call too); and a
    call made when the clock is at or after [token_expires_at] sends
    exactly one grant request. *)
Theorem korbit_token_cache :
  forall (self : KorbitAPI.t) (net : network) (log : list request)
         (now t : Q) (tok : json) (expires_in : Q),
    KorbitAPI.token_expires_at self <= now ->
    KorbitAPI.grants net tok expires_in ->
    exists self' : KorbitAPI.t,
      KorbitAPI._get_access_token now t self net log
      = (Ok tt, self', (log ++ [KorbitAPI.grant_request])%list)
      /\ KorbitAPI.access_token self' = tok
      /\ KorbitAPI.token_expires_at self' = t + expires_in - 60
      /\ (forall now1 t1 net1 log1,
            now1 < KorbitAPI.token_expires_at self' ->
            KorbitAPI._get_headers now1 t1 self' net1 log1
            = (Ok ("Bearer " ++ fmt tok), self', log1))
      /\ (forall now1 t1 net1 log1,
            KorbitAPI.token_expires_at self' <= now1 ->
            exists r self'',
              KorbitAPI._get_headers now1 t1 self' net1 log1
              = (r, self'', (log1 ++ [KorbitAPI.grant_request])%list)).
Proof.
  intros self net log now t tok expires_in L G.
  eexists. split; [apply (token_granted now t self net log tok expires_in L G)|].
  cbn [KorbitAPI.access_token KorbitAPI.token_expires_at].
  split; [reflexivity|]. split; [reflexivity|]. split.
  - intros now1 t1 net1 log1 L1.
    now rewrite headers_cached.
  - intros now1 t1 net1 log1 L1. now apply headers_asked_once.
Qed.

(** C9, as the code has it. For a Korbit session acquired with
    [expires_in = 120] when the clock reads [t0], the cached token is
    used up to [t0 + 60], not up to [t0 + 120]: a call strictly before
    [t0 + 60] (at [t0 + 59], say) sends no grant request, and a call at or
    after [t0 + 60], so any call in the last 60 seconds of the validity of
    the token and the call at [t0 + 61] among them, sends exactly one
    grant request. *)
Theorem korbit_refresh_margin_120 :
  forall (self : KorbitAPI.t) (net : network) (log : list request)
         (now t0 : Q) (tok : json),
    KorbitAPI.token_expires_at self <= now ->
    KorbitAPI.grants net tok 120 ->
    exists self' : KorbitAPI.t,
      KorbitAPI._get_access_token now t0 self net log
      = (Ok tt, self', (log ++ [KorbitAPI.grant_request])%list)
      /\ (forall now1 t1 net1 log1,
            now1 < t0 + 60 ->
            KorbitAPI._get_access_token now1 t1 self' net1 log1 = (Ok tt, self', log1))
      /\ (forall now1 t1 net1 log1,
            t0 + 60 <= now1 ->
            exists r self'',
              KorbitAPI._get_access_token now1 t1 self' net1 log1
              = (r, self'', (log1 ++ [KorbitAPI.grant_request])%list))
      /\ (forall t1 net1 log1,
            KorbitAPI._get_access_token (t0 + 59) t1 self' net1 log1 = (Ok tt, self', log1))
      /\ (forall t1 net1 log1,
            exists r self'',
              KorbitAPI._get_access_token (t0 + 61) t1 self' net1 log1
              = (r, self'', (log1 ++ [KorbitAPI.grant_request])%list)).
Proof.
  intros self net log now t0 tok L G.
  eexists. split; [apply (token_granted now t0 self net log tok 120 L G)|].
  assert (before : forall now1 t1 net1 log1, now1 < t0 + 60 ->
            KorbitAPI._get_access_token now1 t1
              (KorbitAPI.mk (KorbitAPI.client_id self) (KorbitAPI.client_secret self)
                            tok (t0 + 120 - 60)) net1 log1
            = (Ok tt,
               KorbitAPI.mk (KorbitAPI.client_id self) (KorbitAPI.client_secret self)
                            tok (t0 + 120 - 60), log1)).
  { intros now1 t1 net1 log1 L1. apply token_cached.
    cbn [KorbitAPI.token_expires_at]. lra. }
  assert (after : forall now1 t1 net1 log1, t0 + 60 <= now1 ->
            exists r self'',
              KorbitAPI._get_access_token now1 t1
                (KorbitAPI.mk (KorbitAPI.client_id self) (KorbitAPI.client_secret self)
                              tok (t0 + 120 - 60)) net1 log1
              = (r, self'', (log1 ++ [KorbitAPI.grant_request])%list)).
  { intros now1 t1 net1 log1 L1. apply token_asked_once.
    cbn [KorbitAPI.token_expires_at]. lra. }
  split; [exact before|]. split; [exact after|]. split.
  - intros t1 net1 log1. apply before. lra.
  - intros t1 net1 log1. apply after. lra.
Qed.

End TokenCache.

Lemma korbit_grants_example (expires_in : Q) :
  KorbitAPI.grants (Example.korbit_grants expires_in) (JStr "tok-1") expires_in.
Proof.
  unfold KorbitAPI.grants.
  exists (mkResponse 200 "OK"
            (inr (JDict [("access_token", JStr "tok-1"); ("expires_in", JNum expires_in)]))).
  eexists. repeat split.
Qed.

(** A client built at time 1000 with a token good for an hour. *)
Lemma korbit_token_cache_witness :
  exists self' : KorbitAPI.t,
    KorbitAPI._get_access_token 1000 1001 (KorbitAPI.fresh "id" "secret")
                                (Example.korbit_grants 3600) []
    = (Ok tt, self', [KorbitAPI.grant_request])
    /\ KorbitAPI.access_token self' = JStr "tok-1"
    /\ KorbitAPI.token_expires_at self' = 1001 + 3600 - 60
    /\ (forall now1 t1 net1 log1,
          now1 < KorbitAPI.token_expires_at self' ->
          @KorbitAPI._get_headers Example.runtime now1 t1 self' net1 log1
          = (Ok "Bearer tok-1", self', log1))
    /\ (forall now1 t1 net1 log1,
          KorbitAPI.token_expires_at self' <= now1 ->
          exists r self'',
            @KorbitAPI._get_headers Example.runtime now1 t1 self' net1 log1
            = (r, self'', (log1 ++ [KorbitAPI.grant_request])%list)).
Proof.
  apply (@korbit_token_cache Example.runtime (KorbitAPI.fresh "id" "secret")
           (Example.korbit_grants 3600) [] 1000 1001 (JStr "tok-1") 3600).
  - cbn. lra.
  - apply korbit_grants_example.
Defined.

(** The claim of a cache hit at [t0 + 61] fails: the client of the
    example holds a token acquired at [t0 = 1000] with
    [expires_in = 120], its expiry is [1000 + 120 - 60], and the call at
    [1000 + 61] sends a grant request. *)
Lemma korbit_call_at_61_refreshes :
  KorbitAPI.token_expires_at Example.korbit_client_120 == 1000 + 120 - 60
  /\ snd (KorbitAPI._get_access_token (1000 + 61) (1000 + 61) Example.korbit_client_120
                                      (Example.korbit_grants 120) [])
     = [KorbitAPI.grant_request]
  /\ snd (KorbitAPI._get_access_token (1000 + 61) (1000 + 61) Example.korbit_client_120
                                      (Example.korbit_grants 120) [])
     <> [].
Proof.
  split; [vm_compute; reflexivity|].
  split; [vm_compute; reflexivity|].
  vm_compute. discriminate.
Qed.

Lemma korbit_refresh_margin_120_witness :
  exists self' : KorbitAPI.t,
    KorbitAPI._get_access_token 1000 1000 (KorbitAPI.fresh "id" "secret")
                                (Example.korbit_grants 120) []
    = (Ok tt, self', [KorbitAPI.grant_request])
    /\ (forall now1 t1 net1 log1,
          now1 < 1000 + 60 ->
          KorbitAPI._get_access_token now1 t1 self' net1 log1 = (Ok tt, self', log1))
    /\ (forall now1 t1 net1 log1,
          1000 + 60 <= now1 ->
          exists r self'',
            KorbitAPI._get_access_token now1 t1 self' net1 log1
            = (r, self'', (log1 ++ [KorbitAPI.grant_request])%list))
    /\ (forall t1 net1 log1,
          KorbitAPI._get_access_token (1000 + 59) t1 self' net1 log1 = (Ok tt, self', log1))
    /\ (forall t1 net1 log1,
          exists r self'',
            KorbitAPI._get_access_token (1000 + 61) t1 self' net1 log1
            = (r, self'', (log1 ++ [KorbitAPI.grant_request])%list)).
Proof.
  apply (korbit_refresh_margin_120 (KorbitAPI.fresh "id" "secret")
           (Example.korbit_grants 120) [] 1000 1000 (JStr "tok-1")).
  - cbn. lra.
  - apply korbit_grants_example.
Defined.

(** ** Sorting by total *)

Lemma insert_desc_perm x l : Permutation (pd.insert_desc x l) (x :: l).
Proof.
  induction l as [|y t IH]; cbn [pd.insert_desc]; [reflexivity|].
  destruct (Qle_bool _ _); [reflexivity|].
  rewrite IH. apply perm_swap.
Qed.

Lemma sort_desc_perm l : Permutation (pd.sort_desc l) l.
Proof.
  induction l as [|x t IH]; cbn; [constructor|].
  fold (pd.sort_desc t). rewrite insert_desc_perm. now constructor.
Qed.

Lemma sort_desc_length l : List.length (pd.sort_desc l) = List.length l.
Proof. apply Permutation_length, sort_desc_perm. Qed.

Lemma insert_desc_sorted x l :
  Sorted pd.desc l -> Sorted pd.desc (pd.insert_desc x l).
Proof.
  induction 1 as [|y t St IH Hd]; cbn [pd.insert_desc].
  - repeat constructor.
  - destruct (Qle_bool (Report.total y) (Report.total x)) eqn:E.
    + constructor; [now constructor|]. constructor. now apply Qle_bool_iff.
    + assert (Hxy : pd.desc y x).
      { unfold pd.desc. apply Qlt_le_weak. apply Qnot_le_lt. intros L.
        apply Qle_bool_iff in L. congruence. }
      constructor; [exact IH|].
      destruct t as [|z t']; cbn [pd.insert_desc].
      * now constructor.
      * destruct (Qle_bool (Report.total z) (Report.total x));
          constructor; [exact Hxy|now inversion Hd].
Qed.

Lemma sort_desc_sorted l : Sorted pd.desc (pd.sort_desc l).
Proof.
  induction l as [|x t IH]; cbn; [constructor|].
  now apply insert_desc_sorted.
Qed.

Lemma desc_trans : Relations_1.Transitive pd.desc.
Proof. intros a b c Hab Hbc. unfold pd.desc in *. now apply Qle_trans with (Report.total b). Qed.

Lemma sort_desc_strongly_sorted l : StronglySorted pd.desc (pd.sort_desc l).
Proof. apply Sorted_StronglySorted; [exact desc_trans|apply sort_desc_sorted]. Qed.

(** ** The clients never read the log *)

Section ClientsLogFree.
Context `{PyRuntime}.

Lemma bithumb_request_log_free m e : log_free (BithumbAPI._request m e).
Proof. unfold BithumbAPI._request. log_free_tac. Qed.

Lemma bithumb_get_balances_log_free cs : log_free (BithumbAPI.get_balances cs).
Proof.
  unfold BithumbAPI.get_balances. log_free_tac; apply bithumb_request_log_free.
Qed.

Lemma bithumb_price_log_free c : log_free (BithumbAPI.get_price_by_currency c).
Proof.
  unfold BithumbAPI.get_price_by_currency.
  log_free_tac; apply bithumb_request_log_free.
Qed.

Lemma bithumb_report_line_log_free a : log_free (BithumbAPI.report_line a).
Proof.
  unfold BithumbAPI.report_line. log_free_tac; apply bithumb_price_log_free.
Qed.

Lemma coinone_post_log_free e : log_free (CoinoneAPI._post_request e).
Proof. unfold CoinoneAPI._post_request. log_free_tac. Qed.

Lemma coinone_get_balances_log_free cs : log_free (CoinoneAPI.get_balances cs).
Proof.
  unfold CoinoneAPI.get_balances. log_free_tac; apply coinone_post_log_free.
Qed.

Lemma coinone_make_request_log_free u : log_free (CoinoneAPI._make_request u).
Proof. unfold CoinoneAPI._make_request. log_free_tac. Qed.

Lemma coinone_price_log_free c : log_free (CoinoneAPI.get_price_by_currency c).
Proof.
  unfold CoinoneAPI.get_price_by_currency.
  log_free_tac; apply coinone_make_request_log_free.
Qed.

Lemma coinone_report_line_log_free b : log_free (CoinoneAPI.report_line b).
Proof.
  unfold CoinoneAPI.report_line. log_free_tac; apply coinone_price_log_free.
Qed.

End ClientsLogFree.

(** ** Reports of Coinone and Bithumb *)

Section Reports.
Context `{PyRuntime}.

Lemma coinone_report_line_run b net :
  run (CoinoneAPI.report_line b) net
  = match CoinoneAPI.price_at net (currency b) with
    | Ok (CoinoneAPI.Number p) =>
        Ok (Some (Report.mkLine (currency b) (balance b) p (p * balance b) None))
    | Ok (CoinoneAPI.Text s) =>
        if Str.contains "Error" s then Ok None else Raise TypeError
    | Raise e => Raise e
    end.
Proof.
  unfold CoinoneAPI.report_line, CoinoneAPI.price_at.
  rewrite run_bind; [|apply coinone_price_log_free|log_free_tac].
  destruct (run _ net) as [[p|s]|e]; try reflexivity.
  now destruct (Str.contains "Error" s).
Qed.

(** Every text the price lookup returns holds the word [Error]. *)
Lemma coinone_text_has_error c net s :
  CoinoneAPI.price_at net c = Ok (CoinoneAPI.Text s) -> Str.contains "Error" s = true.
Proof.
  unfold CoinoneAPI.price_at, run, CoinoneAPI.get_price_by_currency.
  unfold bind, try_except, lift, ret.
  repeat open_inner; cbn [fst]; intros E; try discriminate; inversion E; reflexivity.
Qed.

Lemma coinone_gather net balances :
  Forall (fun b => exists p, CoinoneAPI.price_at net (currency b) = Ok p) balances ->
  gather (map (fun b => run (CoinoneAPI.report_line b) net) balances)
  = Ok (flat_map (CoinoneAPI.lines_of net) balances).
Proof.
  induction 1 as [|b t (p & Hp) _ IH]; [reflexivity|].
  cbn [map gather flat_map]. rewrite IH, coinone_report_line_run.
  unfold CoinoneAPI.lines_of. rewrite Hp.
  destruct p as [p|s]; [reflexivity|].
  unfold and_then. now rewrite (coinone_text_has_error _ _ _ Hp).
Qed.

Lemma bithumb_report_line_run a net :
  run (BithumbAPI.report_line a) net
  = match BithumbAPI.unit_price net (currency a) with
    | Ok p => Ok (Some (Report.mkLine (currency a) (balance a) p (balance a * p) None))
    | Raise e => Raise e
    end.
Proof.
  unfold BithumbAPI.report_line, BithumbAPI.unit_price.
  destruct (Py.eq_str (currency a) "KRW"); [reflexivity|].
  rewrite run_bind; [|apply bithumb_price_log_free|log_free_tac].
  now destruct (run _ net).
Qed.

Lemma bithumb_gather net accounts :
  Forall (fun a => exists p, BithumbAPI.unit_price net (currency a) = Ok p) accounts ->
  exists lines,
    gather (map (fun a => run (BithumbAPI.report_line a) net) accounts) = Ok lines
    /\ Forall2 (BithumbAPI.line_for net) accounts lines.
Proof.
  induction 1 as [|a t (p & Hp) _ (lines & E & F)].
  - exists []. split; [reflexivity|constructor].
  - eexists. cbn [map gather]. rewrite E, bithumb_report_line_run, Hp. cbn [and_then].
    split; [reflexivity|]. constructor; [|exact F].
    repeat split; cbn; assumption.
Qed.

(** The lines of a Coinone report are the lines of the balances priced
    with a number. *)
Lemma in_lines_of net balances r :
  In r (flat_map (CoinoneAPI.lines_of net) balances)
  <-> exists b p,
        In b balances
        /\ CoinoneAPI.price_at net (currency b) = Ok (CoinoneAPI.Number p)
        /\ r = Report.mkLine (currency b) (balance b) p (p * balance b) None.
Proof.
  rewrite in_flat_map. unfold CoinoneAPI.lines_of. split.
  - intros (b & Hin & Hr).
    destruct (CoinoneAPI.price_at net (currency b)) as [[p|s]|e] eqn:E;
      try contradiction.
    destruct Hr as [<-|[]]. now exists b, p.
  - intros (b & p & Hin & Hp & ->). exists b. split; [exact Hin|].
    rewrite Hp. now left.
Qed.

(** The Coinone client leaves out a balance whose price lookup answers
    with an error text and keeps the others: when the balances are
    there and every lookup returns, [get_report] returns the lines of
    the balances priced with a number, largest total first, and nothing
    for the others (a report with no line at all is left aside). *)
Lemma coinone_report_lines net log cs balances l1 :
  CoinoneAPI.get_balances cs net log = (Ok balances, l1) ->
  Forall (fun b => exists p, CoinoneAPI.price_at net (currency b) = Ok p) balances ->
  Exists (fun b => exists p,
            CoinoneAPI.price_at net (currency b) = Ok (CoinoneAPI.Number p)) balances ->
  exists df log',
    CoinoneAPI.get_report cs net log = (Ok df, log')
    /\ Permutation (pd.rows df) (flat_map (CoinoneAPI.lines_of net) balances)
    /\ StronglySorted pd.desc (pd.rows df)
    /\ (forall r,
          In r (pd.rows df)
          <-> exists b p,
                In b balances
                /\ CoinoneAPI.price_at net (currency b) = Ok (CoinoneAPI.Number p)
                /\ r = Report.mkLine (currency b) (balance b) p (p * balance b) None).
Proof.
  intros Hb Hp Hne.
  assert (Hlines : flat_map (CoinoneAPI.lines_of net) balances <> []).
  { apply Exists_exists in Hne. destruct Hne as (b & Hin & p & Hb').
    intros E.
    assert (I : In (Report.mkLine (currency b) (balance b) p (p * balance b) None)
                   (flat_map (CoinoneAPI.lines_of net) balances))
      by (apply in_lines_of; now exists b, p).
    rewrite E in I. exact I. }
  pose proof (run_for_append CoinoneAPI.report_line balances net
                coinone_report_line_log_free) as R.
  rewrite (coinone_gather net balances Hp) in R.
  destruct (from_run _ net l1 _
              (log_free_for_append _ balances coinone_report_line_log_free) R)
    as (log' & E).
  exists (pd.mkDataFrame pd.report_columns
            (pd.sort_desc (flat_map (CoinoneAPI.lines_of net) balances))), log'.
  split; [|split; [apply sort_desc_perm|split; [apply sort_desc_strongly_sorted|]]].
  - unfold CoinoneAPI.get_report.
    rewrite (bind_ok _ _ _ _ _ _ Hb), (bind_ok _ _ _ _ _ _ E).
    unfold lift, pd.sort_values_total, pd.of_records.
    destruct (flat_map (CoinoneAPI.lines_of net) balances) as [|r rs];
      [congruence|reflexivity].
  - intros r. cbn [pd.rows]. rewrite <- in_lines_of. split; intros I.
    + now apply (Permutation_in _ (sort_desc_perm _)).
    + now apply (Permutation_in _ (Permutation_sym (sort_desc_perm _))).
Qed.

(** The Bithumb client has no such test: its price lookup answers [0]
    when it fails, and [get_report] returns one line for every balance,
    in the order of the balances. *)
Lemma bithumb_report_lines net log cs accounts l1 :
  BithumbAPI.get_balances cs net log = (Ok accounts, l1) ->
  Forall (fun a => exists p, BithumbAPI.unit_price net (currency a) = Ok p) accounts ->
  exists df log',
    BithumbAPI.get_report cs net log = (Ok df, log')
    /\ Forall2 (BithumbAPI.line_for net) accounts (pd.rows df).
Proof.
  intros Hb Hp.
  unfold BithumbAPI.get_report. rewrite (bind_ok _ _ _ _ _ _ Hb).
  destruct accounts as [|a t].
  - eexists. eexists. split; [reflexivity|constructor].
  - destruct (bithumb_gather net (a :: t) Hp) as (lines & G & F).
    pose proof (run_for_append BithumbAPI.report_line (a :: t) net
                  bithumb_report_line_log_free) as R.
    rewrite G in R.
    destruct (from_run _ net l1 _
                (log_free_for_append _ (a :: t) bithumb_report_line_log_free) R)
      as (log' & E).
    eexists. exists log'. rewrite (bind_ok _ _ _ _ _ _ E).
    split; [reflexivity|].
    unfold pd.of_records. destruct lines; [inversion F|exact F].
Qed.

End Reports.

(** C4, where the code departs from it. A balance whose price lookup
    fails still gets a line in the report of Bithumb: the lookup of
    Bithumb answers [0] when it fails and [BithumbAPI.get_report] tests
    nothing, so with the balances [BTC] and [UNKNOWNCOIN], of which only
    [BTC] has a price, the report has two lines, the second with price
    [0] and total [0], where the claim has exactly one.  On the same
    balances and tickers the report of Coinone, whose [get_report] skips
    a lookup that failed, has the line of [BTC] alone. *)
Theorem bithumb_report_keeps_unpriced_balance :
  fst (@BithumbAPI.get_report Example.runtime (Some ["BTC"; "UNKNOWNCOIN"])
         Example.btc_and_unknown [])
  = Ok (pd.mkDataFrame pd.report_columns
          [ Report.mkLine (JStr "BTC") 1 100 100 None;
            Report.mkLine (JStr "UNKNOWNCOIN") 5 0 0 None ])
  /\ @BithumbAPI.unit_price Example.runtime Example.btc_and_unknown (JStr "UNKNOWNCOIN")
     = Ok 0
  /\ List.length [ Report.mkLine (JStr "BTC") 1 100 100 None;
                   Report.mkLine (JStr "UNKNOWNCOIN") 5 0 0 None ] <> 1%nat
  /\ fst (@CoinoneAPI.get_report Example.runtime ["BTC"; "UNKNOWNCOIN"]
            Example.btc_and_unknown [])
     = Ok (pd.mkDataFrame pd.report_columns [Report.mkLine (JStr "BTC") 1 100 100 None])
  /\ @CoinoneAPI.price_at Example.runtime Example.btc_and_unknown (JStr "UNKNOWNCOIN")
     = Ok (CoinoneAPI.Text "Error: Invalid Coinone price data").
Proof.
  split; [vm_compute; reflexivity|].
  split; [vm_compute; reflexivity|].
  split; [cbn; discriminate|].
  split; vm_compute; reflexivity.
Qed.

(** ** Order of the report lines *)

(** The report of Coinone comes out sorted, largest total first. *)
Lemma coinone_report_sorted `{PyRuntime} cs net log df log' :
  CoinoneAPI.get_report cs net log = (Ok df, log') ->
  StronglySorted pd.desc (pd.rows df).
Proof.
  unfold CoinoneAPI.get_report, bind, lift, pd.sort_values_total.
  destruct (CoinoneAPI.get_balances cs net log) as [[balances|e] l1]; [|discriminate].
  destruct (for_append _ balances net l1) as [[lines|e] l2]; [|discriminate].
  destruct (Str.mem "total" _); [|discriminate].
  intros E. inversion E. cbn [pd.rows]. apply sort_desc_strongly_sorted.
Qed.

(** C5, where the code departs from it. [BithumbAPI.get_report] returns
    its lines in the order of the accounts and does not sort them: for an
    account with 50 won and one BTC worth 100, the line of total 50 comes
    before the line of total 100, so the lines are not in descending
    order of total. *)
Theorem bithumb_report_is_not_sorted :
  fst (@BithumbAPI.get_report Example.runtime None Example.krw_then_btc [])
  = Ok (pd.mkDataFrame pd.report_columns
          [ Report.mkLine (JStr "KRW") 50 1 50 None;
            Report.mkLine (JStr "BTC") 1 100 100 None ])
  /\ ~ Sorted pd.desc [ Report.mkLine (JStr "KRW") 50 1 50 None;
                        Report.mkLine (JStr "BTC") 1 100 100 None ].
Proof.
  split; [vm_compute; reflexivity|].
  intros S. inversion S as [|a l _ Hd]; subst.
  inversion Hd as [|b l' L]; subst.
  unfold pd.desc in L. cbn in L. revert L. apply Qlt_not_le. reflexivity.
Qed.

(** ** Failures of the transport *)

(** C8, where the code departs from it. With the network down, the
    price lookup of the Coinone client does not answer with an error
    value: its helper turns the failure into the text ["Error: ..."], and
    the lookup then calls [.get] on that text, which raises
    [AttributeError]. The balance retrieval of the same client has no
    handler at all and lets the [ConnectionError] through. The Bithumb
    client, on the same network, turns the failure into an empty list. *)
Theorem coinone_raises_when_network_is_down :
  forall (msg : string) (log : list request),
    @CoinoneAPI.get_price_by_currency Example.runtime (JStr "BTC") (Example.offline msg) log
    = (Raise AttributeError,
       (log ++ [mkRequest GET "https://api.coinone.co.kr/ticker/?currency=BTC"])%list)
    /\ @CoinoneAPI.get_balances Example.runtime ["BTC"] (Example.offline msg) log
       = (Raise (ConnectionError msg),
          (log ++ [mkRequest POST "https://api.coinone.co.kr//v2.1/account/balance"])%list)
    /\ BithumbAPI._request "GET" "/v1/accounts" (Example.offline msg) log
       = (Ok (JList []),
          (log ++ [mkRequest GET "https://api.bithumb.com/v1/accounts"])%list).
Proof.
  intros msg log. repeat split.
Qed.

(** ** The aggregator *)

Lemma collect_ok c name dfs net log df log1 :
  Aggregator.get_report_with_nonzero_balances c net log = (Ok df, log1) ->
  exists dfs', Aggregator.collect c name dfs net log = (Ok dfs', log1).
Proof.
  intros E. unfold Aggregator.collect. rewrite (bind_ok _ _ _ _ _ _ E).
  destruct (negb (pd.empty df)); eexists; reflexivity.
Qed.

Lemma collect_raise c name dfs net log e log1 :
  Aggregator.get_report_with_nonzero_balances c net log = (Raise e, log1) ->
  Aggregator.collect c name dfs net log = (Raise e, log1).
Proof. intros E. unfold Aggregator.collect. now rewrite (bind_raise _ _ _ _ _ _ E). Qed.

(** C2, as the code has it. One [try] surrounds the four reports: when
    the report of one exchange raises, [Aggregator.get_report] does not
    raise, but what it returns is the empty frame, without the lines of
    the exchanges whose report had succeeded; the exchanges after the
    failing one are not asked (the log is the one the failure left). *)
Theorem aggregator_failure_empties_report :
  forall (self : Aggregator.t) (net : network) (log log' : list request) (e : exn),
    Aggregator.first_failure net (Aggregator.clients self) log e log' ->
    Aggregator.get_report self net log = (Ok (pd.of_records []), log')
    /\ pd.rows (pd.of_records []) = [].
Proof.
  intros self net log log' e F. split; [|reflexivity].
  unfold Aggregator.get_report, try_except, Aggregator.clients in *.
  inversion F as [c r l0 e0 l' E1|c r l0 d1 l1 e0 l' E1 F1]; subst.
  { now rewrite (bind_raise _ _ _ _ _ _ (collect_raise _ "Bithumb" [] _ _ _ _ E1)). }
  destruct (collect_ok _ "Bithumb" [] _ _ _ _ E1) as (dfs1 & C1).
  rewrite (bind_ok _ _ _ _ _ _ C1).
  inversion F1 as [c r l0 e0 l' E2|c r l0 d2 l2 e0 l' E2 F2]; subst.
  { now rewrite (bind_raise _ _ _ _ _ _ (collect_raise _ "Coinone" dfs1 _ _ _ _ E2)). }
  destruct (collect_ok _ "Coinone" dfs1 _ _ _ _ E2) as (dfs2 & C2).
  rewrite (bind_ok _ _ _ _ _ _ C2).
  inversion F2 as [c r l0 e0 l' E3|c r l0 d3 l3 e0 l' E3 F3]; subst.
  { now rewrite (bind_raise _ _ _ _ _ _ (collect_raise _ "Korbit" dfs2 _ _ _ _ E3)). }
  destruct (collect_ok _ "Korbit" dfs2 _ _ _ _ E3) as (dfs3 & C3).
  rewrite (bind_ok _ _ _ _ _ _ C3).
  inversion F3 as [c r l0 e0 l' E4|c r l0 d4 l4 e0 l' E4 F4]; subst.
  { now rewrite (bind_raise _ _ _ _ _ _ (collect_raise _ "Upbit" dfs3 _ _ _ _ E4)). }
  inversion F4.
Qed.

(** The claim that the other exchanges still contribute fails: with a
    Bithumb account of 50 won and one BTC and Coinone out of reach, the
    report of Bithumb has two lines, the report of Coinone raises, and
    the aggregation has no line. *)
Lemma aggregator_drops_bithumb_when_coinone_fails :
  fst (@BithumbAPI.get_report_with_nonzero_balances Example.runtime Example.krw_then_btc [])
  = Ok (pd.mkDataFrame pd.report_columns
          [ Report.mkLine (JStr "KRW") 50 1 50 None;
            Report.mkLine (JStr "BTC") 1 100 100 None ])
  /\ fst (@CoinoneAPI.get_report_with_nonzero_balances Example.runtime Example.krw_then_btc [])
     = Raise (ConnectionError "no route to host")
  /\ fst (Aggregator.get_report Example.aggregator Example.krw_then_btc [])
     = Ok (pd.mkDataFrame [] [])
  /\ ~ In (Report.mkLine (JStr "KRW") 50 1 50 (Some "Bithumb"))
          (pd.rows (pd.mkDataFrame [] [])).
Proof.
  split; [vm_compute; reflexivity|].
  split; [vm_compute; reflexivity|].
  split; [vm_compute; reflexivity|].
  intros [].
Qed.

(** When no report raises, the lines of the reports that are not empty
    come back tagged and sorted across the exchanges. *)
Example aggregator_merges_reports :
  fst (Aggregator.get_report Example.aggregator Example.holdings [])
  = Ok (pd.mkDataFrame ["currency"; "balance"; "price"; "total"; "date"; "exchange"]
          [ Report.mkLine (JStr "BTC") 1 101 101 (Some "Coinone");
            Report.mkLine (JStr "BTC") 1 100 100 (Some "Bithumb") ]).
Proof. vm_compute; reflexivity. Qed.

Lemma aggregator_failure_empties_report_witness :
  Aggregator.get_report Example.aggregator Example.krw_then_btc []
  = (Ok (pd.of_records []),
     [ mkRequest GET "https://api.bithumb.com/v1/accounts";
       mkRequest GET "https://api.bithumb.com/v1/accounts";
       mkRequest GET "https://api.bithumb.com/public/ticker/BTC_KRW";
       mkRequest POST "https://api.coinone.co.kr//v2.1/account/balance/all" ])
  /\ pd.rows (pd.of_records []) = [].
Proof.
  apply (aggregator_failure_empties_report Example.aggregator Example.krw_then_btc [] _
           (ConnectionError "no route to host")).
  eapply Aggregator.fails_later; [vm_compute; reflexivity|].
  apply Aggregator.fails_here. vm_compute; reflexivity.
Defined.

(** ** Balances *)

Lemma eq_str_true v s : Py.eq_str v s = true <-> v = JStr s.
Proof.
  destruct v; cbn; try (split; [discriminate|intros E; discriminate E]).
  rewrite String.eqb_eq. split; [now intros ->|now intros [= ->]].
Qed.

Lemma filterM_pure {A} (p : A -> result bool) (q : A -> bool) l :
  Forall (fun x => p x = Ok (q x)) l -> filterM p l = Ok (filter q l).
Proof.
  induction 1 as [|x t Hx _ IH]; [reflexivity|].
  cbn [filterM filter]. rewrite Hx, IH. cbn. now destruct (q x).
Qed.


Lemma mapM_length {A B} (f : A -> result B) :
  forall l l', mapM f l = Ok l' -> List.length l' = List.length l.
Proof.
  intros l; induction l as [|x t IH]; intros l' E; cbn in E.
  - now inversion E.
  - destruct (f x) as [y|e]; [|discriminate]. cbn in E.
    destruct (mapM f t) as [ys|e]; [|discriminate]. cbn in E. inversion E.
    cbn. f_equal. now apply IH.
Qed.

Section Balances.
Context `{PyRuntime}.

Lemma bithumb_get_balances_requested net log cs accounts log' :
  BithumbAPI.get_balances None net log = (Ok accounts, log') ->
  BithumbAPI.get_balances (Some cs) net log
  = (Ok (map (fun c => match BithumbAPI.find_account accounts c with
                       | Some account => account
                       | None => mkBalance (JStr c) 0
                       end) cs), log').
Proof.
  unfold BithumbAPI.get_balances, bind, ret.
  destruct (BithumbAPI._request _ _ net log) as [[response|e] l1]; [|discriminate].
  destruct (lift _ net l1) as [[accts|e] l2]; [|discriminate].
  now intros [= -> ->].
Qed.

Lemma bithumb_entry_for accounts c :
  BithumbAPI.entry_for accounts c
    (match BithumbAPI.find_account accounts c with
     | Some account => account
     | None => mkBalance (JStr c) 0
     end).
Proof.
  unfold BithumbAPI.entry_for, BithumbAPI.find_account.
  destruct (find _ accounts) as [a|] eqn:F.
  - left. apply find_some in F. destruct F as [Hin E]. split; [exact Hin|].
    now apply eq_str_true.
  - right. split; [|reflexivity]. intros a Hin E.
    pose proof (find_none _ _ F a Hin) as N. cbn in N.
    apply eq_str_true in E. congruence.
Qed.




Lemma upbit_get_balances_requested net log c cs balances log' :
  UpbitAPI.get_balances None net log = (Ok balances, log') ->
  UpbitAPI.get_balances (Some (c :: cs)) net log
  = (filterM (UpbitAPI.requested (c :: cs)) balances, log').
Proof.
  unfold UpbitAPI.get_balances, bind, ret, lift.
  destruct (requests_get _ net log) as [[response|e] l1]; [|discriminate].
  destruct (negb _).
  - now intros [= <- <-].
  - destruct (response_json response) as [payload|e]; [|discriminate].
    destruct (PyMore.iter payload) as [items|e]; cbn; [|discriminate].
    destruct (mapM UpbitAPI.add_locked items) as [bs|e]; [|discriminate].
    now intros [= <- <-].
Qed.

Lemma upbit_requested_pure cs e v :
  Py.getitem e "currency" = Ok v ->
  UpbitAPI.requested cs e = Ok (UpbitAPI.is_requested cs e).
Proof.
  intros E. unfold UpbitAPI.requested, UpbitAPI.is_requested, UpbitAPI.currency_of.
  now rewrite E.
Qed.

(** C3, as the code has it. The Bithumb client answers a list of
    requested currencies with exactly one entry for each, in the order
    of the request: an account of the payload under that code, or a
    placeholder of balance zero when the payload has none; so the answer
    is as long as the request. The Upbit client, given a request that is
    not empty, answers with the entries of the payload whose currency is
    requested, in the order of the payload and without any placeholder. *)
Theorem get_balances_placeholders_on_bithumb_only :
  (forall net log cs accounts log',
      BithumbAPI.get_balances None net log = (Ok accounts, log') ->
      exists out,
        BithumbAPI.get_balances (Some cs) net log = (Ok out, log')
        /\ List.length out = List.length cs
        /\ Forall2 (BithumbAPI.entry_for accounts) cs out)
  /\ (forall net log c cs balances log',
        UpbitAPI.get_balances None net log = (Ok balances, log') ->
        Forall (fun e => exists v, Py.getitem e "currency" = Ok v) balances ->
        UpbitAPI.get_balances (Some (c :: cs)) net log
        = (Ok (filter (UpbitAPI.is_requested (c :: cs)) balances), log')).
Proof.
  split.
  - intros net log cs accounts log' E.
    eexists. split; [apply (bithumb_get_balances_requested _ _ _ _ _ E)|].
    split; [apply length_map|].
    induction cs as [|c t IH]; cbn [map]; constructor; [apply bithumb_entry_for|exact IH].
  - intros net log c cs balances log' E W.
    rewrite (upbit_get_balances_requested _ _ c cs _ _ E). f_equal.
    apply filterM_pure. eapply Forall_impl; [|exact W].
    intros e (v & Ev). now apply (upbit_requested_pure _ _ v).
Qed.





End Balances.

(** The claim of one entry for each requested currency fails on Upbit:
    asked for [BTC] and [ETH] on an account that holds no [ETH], the
    client answers with the entry of [BTC] alone. *)
Lemma upbit_get_balances_has_no_placeholder :
  fst (@UpbitAPI.get_balances Example.runtime (Some ["BTC"; "ETH"])
         Example.upbit_btc_ethw [])
  = Ok [Example.upbit_btc]
  /\ List.length [Example.upbit_btc] <> List.length ["BTC"; "ETH"].
Proof.
  split; [vm_compute; reflexivity|cbn; discriminate].
Qed.

(** Bithumb asked for [ETH] and [BTC] on an account without [ETH], and
    Upbit asked for [BTC] and [ETH]. *)
Lemma get_balances_placeholders_on_bithumb_only_witness :
  (exists out,
      @BithumbAPI.get_balances Example.runtime (Some ["ETH"; "BTC"])
        Example.btc_and_unknown []
      = (Ok out, [mkRequest GET "https://api.bithumb.com/v1/accounts"])
      /\ List.length out = List.length ["ETH"; "BTC"]
      /\ Forall2 (BithumbAPI.entry_for [Example.btc_balance; Example.unknown_balance])
                 ["ETH"; "BTC"] out)
  /\ @UpbitAPI.get_balances Example.runtime (Some ["BTC"; "ETH"]) Example.upbit_btc_ethw []
     = (Ok (filter (UpbitAPI.is_requested ["BTC"; "ETH"])
                   [Example.upbit_btc; Example.upbit_ethw]),
        [mkRequest GET "https://api.upbit.com/v1/accounts"]).
Proof.
  destruct (@get_balances_placeholders_on_bithumb_only Example.runtime) as [bithumb upbit].
  split.
  - apply (bithumb Example.btc_and_unknown [] ["ETH"; "BTC"]
             [Example.btc_balance; Example.unknown_balance]).
    vm_compute; reflexivity.
  - apply (upbit Example.upbit_btc_ethw [] "BTC" ["ETH"]
             [Example.upbit_btc; Example.upbit_ethw]).
    + vm_compute; reflexivity.
    + repeat constructor; eexists; reflexivity.
Defined.

(* ================================================================== *)
(** * Further properties of the code *)

(** ** Computations that send nothing *)

Lemma silent_ret {A} (a : A) : silent (ret a).
Proof. intros net log. reflexivity. Qed.

Lemma silent_lift {A} (r : result A) : silent (lift r).
Proof. intros net log. reflexivity. Qed.

Lemma silent_bind {A B} (c : io A) (k : A -> io B) :
  silent c -> (forall a, silent (k a)) -> silent (bind c k).
Proof.
  intros Hc Hk net log. unfold bind.
  pose proof (Hc net log) as E.
  destruct (c net log) as [[a|e] l1]; cbn [snd] in E; subst l1; [apply Hk|reflexivity].
Qed.

Lemma silent_try_except {A} (c : io A) catches (h : exn -> io A) :
  silent c -> (forall e, silent (h e)) -> silent (try_except c catches h).
Proof.
  intros Hc Hh net log. unfold try_except.
  pose proof (Hc net log) as E.
  destruct (c net log) as [[a|e] l1]; cbn [snd] in E; subst l1; [reflexivity|].
  destruct (catches e); [apply Hh|reflexivity].
Qed.

Ltac silent_step :=
  match goal with
  | |- forall _, _ => intro
  | |- silent (ret _) => apply silent_ret
  | |- silent (lift _) => apply silent_lift
  | |- silent (raise _) => apply silent_lift
  | |- silent (bind _ _) => apply silent_bind
  | |- silent (try_except _ _ _) => apply silent_try_except
  | |- silent (if ?b then _ else _) => destruct b
  | |- silent (match ?x with _ => _ end) => destruct x
  end.

Ltac silent_tac := repeat silent_step.

(** A request followed by steps that send nothing leaves one request
    in the log. *)
Lemma one_request_then_silent {A B} (c : io A) (k : A -> io B) rq net log :
  (forall net log, exists r, c net log = (r, (log ++ [rq])%list)) ->
  (forall a, silent (k a)) ->
  snd (bind c k net log) = (log ++ [rq])%list.
Proof.
  intros Hc Hk. unfold bind. destruct (Hc net log) as (r & ->).
  destruct r as [a|e]; [apply Hk|reflexivity].
Qed.

(** ** The price sources one by one *)

Lemma status_cases u r :
  (((400 <=? status_code r)%nat && (status_code r <? 600)%nat = true)
   /\ exists m, raise_for_status u r = Raise (HTTPError m))
  \/ (((400 <=? status_code r)%nat && (status_code r <? 600)%nat = false)
      /\ raise_for_status u r = Ok tt).
Proof.
  unfold raise_for_status.
  destruct (Nat.leb_spec 400 (status_code r)) as [A|A];
    destruct (Nat.ltb_spec (status_code r) 500) as [B|B];
    destruct (Nat.leb_spec 500 (status_code r)) as [C|C];
    destruct (Nat.ltb_spec (status_code r) 600) as [D|D];
    cbn; try lia; eauto.
Qed.

(** What one request through [requests] and the two checks on its
    answer come to. *)
Lemma checked_request m u net log :
  (fails (net (mkRequest m u)) = true
   /\ exists e,
        is_RequestException e = true
        /\ bind (send m u)
                (fun response =>
                   bind (lift (raise_for_status u response))
                        (fun _ => lift (response_json response))) net log
           = (Raise e, (log ++ [mkRequest m u])%list))
  \/ (fails (net (mkRequest m u)) = false
      /\ exists r j,
           net (mkRequest m u) = Answered r /\ body r = inr j
           /\ bind (send m u)
                   (fun response =>
                      bind (lift (raise_for_status u response))
                           (fun _ => lift (response_json response))) net log
              = (Ok j, (log ++ [mkRequest m u])%list)).
Proof.
  unfold bind, send, lift, response_json, fails.
  destruct (net (mkRequest m u)) as [msg|r].
  - left. split; [reflexivity|]. eexists. split; [|reflexivity]. reflexivity.
  - destruct (status_cases u r) as [(S & msg & E)|(S & E)]; rewrite S, E; cbn.
    + left. split; [reflexivity|]. eexists. split; [|reflexivity]. reflexivity.
    + destruct (body r) as [msg|j] eqn:B.
      * left. split; [reflexivity|]. eexists. split; [|reflexivity]. reflexivity.
      * right. split; [reflexivity|]. exists r, j. repeat split. exact B.
Qed.

Lemma make_request_result (u : string) (net : network) (log : list request) :
  exists j : json,
    PriceAPI._make_request u net log = (Ok j, (log ++ [mkRequest GET u])%list)
    /\ (fails (net (mkRequest GET u)) = true ->
        exists msg, j = JStr ("Error: " ++ msg))
    /\ (fails (net (mkRequest GET u)) = false ->
        exists r, net (mkRequest GET u) = Answered r /\ body r = inr j).
Proof.
  unfold PriceAPI._make_request, try_except, requests_get.
  destruct (checked_request GET u net log) as [(F & e & He & E)|(F & r & j & N & B & E)];
    rewrite E, F.
  - rewrite He. eexists. split; [reflexivity|]. split; [eauto|discriminate].
  - exists j. split; [reflexivity|]. split; [discriminate|]. intros _. now exists r.
Qed.

(** X1. [PriceAPI._make_request] sends exactly one request, a GET to
    the address it is given, and turns the failures of [requests] into
    a value: when no connection is made, when the status is an error
    status or when the body is not JSON, it returns a text that starts
    with ["Error: "]; when the answer has a status that is no error and
    a body that decodes, it returns what the body decodes to. *)
Theorem make_request_catches_request_failures :
  forall (u : string) (net : network) (log : list request),
    snd (PriceAPI._make_request u net log) = (log ++ [mkRequest GET u])%list
    /\ (fails (net (mkRequest GET u)) = true ->
        exists msg,
          fst (PriceAPI._make_request u net log) = Ok (JStr ("Error: " ++ msg)))
    /\ (forall r j,
          net (mkRequest GET u) = Answered r ->
          fails (Answered r) = false ->
          body r = inr j ->
          fst (PriceAPI._make_request u net log) = Ok j).
Proof.
  intros u net log.
  destruct (make_request_result u net log) as (j & E & Hf & Hok). rewrite E. cbn [fst snd].
  split; [reflexivity|]. split.
  - intros F. destruct (Hf F) as (msg & ->). now exists msg.
  - intros r j' N F B. rewrite N in Hok. destruct (Hok F) as (r' & [= <-] & B').
    rewrite B in B'. now injection B' as <-.
Qed.

Section PriceSources.
Context `{PyRuntime}.

Ltac quote_shape coin net log :=
  destruct (String.eqb (Str.lower coin) "krw");
  [ intros [= <- _]; cbn; split; [reflexivity|intros N; now contradiction N]
  | unfold bind at 1;
    destruct (PriceAPI._make_request _ net log) as [[data|e] l1]; [|discriminate];
    unfold bind, try_except, lift, ret;
    repeat open_inner; intros E; try discriminate; inversion E; cbn;
    (split; [reflexivity|intros N; try reflexivity; now contradiction N]) ].

Lemma upbit_quote_shape :
  forall coin net log q log',
    PriceAPI.get_upbit_price coin net log = (Ok q, log') ->
    PriceAPI.exchange q = "Upbit"
    /\ (PriceAPI.error q <> None -> PriceAPI.price q = 0).
Proof.
  intros coin net log q log'. unfold PriceAPI.get_upbit_price.
  quote_shape coin net log.
Qed.

Lemma bithumb_quote_shape :
  forall coin net log q log',
    PriceAPI.get_bithumb_price coin net log = (Ok q, log') ->
    PriceAPI.exchange q = "Bithumb"
    /\ (PriceAPI.error q <> None -> PriceAPI.price q = 0).
Proof.
  intros coin net log q log'. unfold PriceAPI.get_bithumb_price.
  quote_shape coin net log.
Qed.

Lemma coinone_quote_shape :
  forall coin net log q log',
    PriceAPI.get_coinone_price coin net log = (Ok q, log') ->
    PriceAPI.exchange q = "Coinone"
    /\ (PriceAPI.error q <> None -> PriceAPI.price q = 0).
Proof.
  intros coin net log q log'. unfold PriceAPI.get_coinone_price.
  quote_shape coin net log.
Qed.

Lemma coingecko_quote_shape :
  forall coin net log q log',
    PriceAPI.get_coingecko_price coin net log = (Ok q, log') ->
    PriceAPI.exchange q = "Coingecko"
    /\ (PriceAPI.error q <> None -> PriceAPI.price q = 0).
Proof.
  intros coin net log q log'. unfold PriceAPI.get_coingecko_price.
  quote_shape coin net log.
Qed.

(** X2. Every quote a price source returns is filed under the name the
    cascade attributes it to, and a quote that carries an error has the
    price [0]: no source reports an error together with a number. *)
Theorem quotes_are_named_and_errors_are_zero :
  forall get_price name,
    In (get_price, name) PriceAPI.exchanges ->
    forall coin net log q log',
      get_price coin net log = (Ok q, log') ->
      PriceAPI.exchange q = name
      /\ (PriceAPI.error q <> None -> PriceAPI.price q = 0).
Proof.
  intros get_price name Hin coin net log q log' E.
  cbn in Hin.
  destruct Hin as [[= <- <-]|[[= <- <-]|[[= <- <-]|[[= <- <-]|[]]]]].
  - now apply (upbit_quote_shape coin net log q log').
  - now apply (bithumb_quote_shape coin net log q log').
  - now apply (coinone_quote_shape coin net log q log').
  - now apply (coingecko_quote_shape coin net log q log').
Qed.

Lemma make_request_sends_one u net log :
  exists r, PriceAPI._make_request u net log = (r, (log ++ [mkRequest GET u])%list).
Proof.
  destruct (make_request_result u net log) as (j & E & _). eauto.
Qed.

Ltac one_request :=
  apply one_request_then_silent;
  [intros; apply make_request_sends_one|silent_tac].

Lemma upbit_sends_one coin net log :
  PriceResolver.is_local_fiat coin = false ->
  snd (PriceAPI.get_upbit_price coin net log)
  = (log ++ [nth 0 (PriceResolver.ticker_requests coin) (mkRequest GET "")])%list.
Proof.
  unfold PriceResolver.is_local_fiat, PriceAPI.get_upbit_price. intros ->.
  cbn [nth PriceResolver.ticker_requests]. one_request.
Qed.

Lemma bithumb_sends_one coin net log :
  PriceResolver.is_local_fiat coin = false ->
  snd (PriceAPI.get_bithumb_price coin net log)
  = (log ++ [nth 1 (PriceResolver.ticker_requests coin) (mkRequest GET "")])%list.
Proof.
  unfold PriceResolver.is_local_fiat, PriceAPI.get_bithumb_price. intros ->.
  cbn [nth PriceResolver.ticker_requests]. one_request.
Qed.

Lemma coinone_sends_one coin net log :
  PriceResolver.is_local_fiat coin = false ->
  snd (PriceAPI.get_coinone_price coin net log)
  = (log ++ [nth 2 (PriceResolver.ticker_requests coin) (mkRequest GET "")])%list.
Proof.
  unfold PriceResolver.is_local_fiat, PriceAPI.get_coinone_price. intros ->.
  cbn [nth PriceResolver.ticker_requests]. one_request.
Qed.

Lemma coingecko_sends_one coin net log :
  PriceResolver.is_local_fiat coin = false ->
  snd (PriceAPI.get_coingecko_price coin net log)
  = (log ++ [nth 3 (PriceResolver.ticker_requests coin) (mkRequest GET "")])%list.
Proof.
  unfold PriceResolver.is_local_fiat, PriceAPI.get_coingecko_price. intros ->.
  cbn [nth PriceResolver.ticker_requests]. cbv zeta. one_request.
Qed.

(** The loop sends the requests of its sources in order and stops
    somewhere, after the first source at the earliest. *)
Lemma loop_requests_prefix symbol net l reqs :
  Forall2 (fun p rq => forall log, snd (fst p symbol net log) = (log ++ [rq])%list) l reqs ->
  forall log,
    exists n, (n <= List.length reqs)%nat
              /\ (l <> [] -> (1 <= n)%nat)
              /\ snd (PriceAPI.first_valid_loop l symbol net log)
                 = (log ++ firstn n reqs)%list.
Proof.
  induction 1 as [|[get_price nm] rq l reqs Hp _ IH]; intros log.
  - exists 0%nat. split; [apply Nat.le_refl|]. split; [congruence|].
    cbn. now rewrite app_nil_r.
  - cbn [PriceAPI.first_valid_loop]. unfold bind.
    specialize (Hp log). cbn [fst] in Hp.
    destruct (get_price symbol net log) as [[q|e] l1]; cbn [snd] in Hp; subst l1.
    + destruct (negb (PriceAPI.is_error q) && Qlt_bool 0 (PriceAPI.price q)).
      * exists 1%nat. split; [cbn; lia|]. split; [lia|reflexivity].
      * destruct (IH (log ++ [rq])%list) as (n & Hn & _ & E).
        exists (S n). split; [cbn; lia|]. split; [lia|]. rewrite E. cbn [firstn].
        now rewrite <- app_assoc.
    + exists 1%nat. split; [cbn; lia|]. split; [lia|reflexivity].
Qed.

(** X3. Away from the fiat unit, whatever the network answers and
    whatever the outcome, [get_first_valid_price] sends between one and
    four requests: the ticker requests of Upbit, Bithumb, Coinone and
    Coingecko for the symbol, each at most once, in this order, without
    a gap. *)
Theorem cascade_requests_are_a_prefix :
  forall (symbol : string) (net : network) (log : list request),
    PriceResolver.is_local_fiat symbol = false ->
    exists n,
      (1 <= n <= 4)%nat
      /\ snd (PriceAPI.get_first_valid_price symbol net log)
         = (log ++ firstn n (PriceResolver.ticker_requests symbol))%list.
Proof.
  intros symbol net log F.
  assert (P : Forall2 (fun p rq => forall log,
                         snd (fst p symbol net log) = (log ++ [rq])%list)
                      PriceAPI.exchanges (PriceResolver.ticker_requests symbol)).
  { repeat constructor; intros l; cbn [fst].
    - now apply upbit_sends_one.
    - now apply bithumb_sends_one.
    - now apply coinone_sends_one.
    - now apply coingecko_sends_one. }
  destruct (loop_requests_prefix symbol net _ _ P log) as (n & Hn & H1 & E).
  exists n. split; [|exact E]. split; [|exact Hn].
  apply H1. discriminate.
Qed.

Ltac failing_source coin net log F :=
  intros Hfiat F; unfold PriceResolver.is_local_fiat in Hfiat;
  cbn [nth PriceResolver.ticker_requests] in F |- *; cbv zeta;
  rewrite Hfiat; unfold bind;
  match goal with
  | |- context [PriceAPI._make_request ?u net log] =>
      destruct (make_request_result u net log) as (j & E & Hf & _);
      rewrite E; destruct (Hf F) as (msg & ->); exists msg; reflexivity
  end.

Lemma upbit_fails coin net log :
  PriceResolver.is_local_fiat coin = false ->
  fails (net (nth 0 (PriceResolver.ticker_requests coin) (mkRequest GET ""))) = true ->
  exists msg,
    PriceAPI.get_upbit_price coin net log
    = (Ok (PriceAPI.mkExchangePrice "Upbit" 0 (Some ("Error: " ++ msg))),
       (log ++ [nth 0 (PriceResolver.ticker_requests coin) (mkRequest GET "")])%list).
Proof. unfold PriceAPI.get_upbit_price. failing_source coin net log F. Qed.

Lemma bithumb_fails coin net log :
  PriceResolver.is_local_fiat coin = false ->
  fails (net (nth 1 (PriceResolver.ticker_requests coin) (mkRequest GET ""))) = true ->
  exists msg,
    PriceAPI.get_bithumb_price coin net log
    = (Ok (PriceAPI.mkExchangePrice "Bithumb" 0 (Some ("Error: " ++ msg))),
       (log ++ [nth 1 (PriceResolver.ticker_requests coin) (mkRequest GET "")])%list).
Proof. unfold PriceAPI.get_bithumb_price. failing_source coin net log F. Qed.

Lemma coinone_fails coin net log :
  PriceResolver.is_local_fiat coin = false ->
  fails (net (nth 2 (PriceResolver.ticker_requests coin) (mkRequest GET ""))) = true ->
  exists msg,
    PriceAPI.get_coinone_price coin net log
    = (Ok (PriceAPI.mkExchangePrice "Coinone" 0 (Some ("Error: " ++ msg))),
       (log ++ [nth 2 (PriceResolver.ticker_requests coin) (mkRequest GET "")])%list).
Proof. unfold PriceAPI.get_coinone_price. failing_source coin net log F. Qed.

Lemma coingecko_fails coin net log :
  PriceResolver.is_local_fiat coin = false ->
  fails (net (nth 3 (PriceResolver.ticker_requests coin) (mkRequest GET ""))) = true ->
  exists msg,
    PriceAPI.get_coingecko_price coin net log
    = (Ok (PriceAPI.mkExchangePrice "Coingecko" 0 (Some ("Error: " ++ msg))),
       (log ++ [nth 3 (PriceResolver.ticker_requests coin) (mkRequest GET "")])%list).
Proof. unfold PriceAPI.get_coingecko_price. failing_source coin net log F. Qed.

(** X4. When the four ticker requests of a symbol all fail (no
    connection, an error status or a body that is not JSON, in any mix),
    [get_first_valid_price] does not raise: it asks the four sources and
    answers [(0, "No valid price found")]. *)
Theorem cascade_degrades_to_sentinel :
  forall (symbol : string) (net : network) (log : list request),
    PriceResolver.is_local_fiat symbol = false ->
    Forall (fun rq => fails (net rq) = true) (PriceResolver.ticker_requests symbol) ->
    PriceAPI.get_first_valid_price symbol net log
    = (Ok (0, "No valid price found"),
       (log ++ PriceResolver.ticker_requests symbol)%list).
Proof.
  intros symbol net log Hfiat F.
  rewrite Forall_forall in F.
  assert (Fn : forall n, (n < 4)%nat ->
                 fails (net (nth n (PriceResolver.ticker_requests symbol)
                                 (mkRequest GET ""))) = true).
  { intros n L. apply F. apply nth_In. exact L. }
  pose proof (Fn 0%nat ltac:(lia)) as F0. pose proof (Fn 1%nat ltac:(lia)) as F1.
  pose proof (Fn 2%nat ltac:(lia)) as F2. pose proof (Fn 3%nat ltac:(lia)) as F3.
  set (rq := fun n => nth n (PriceResolver.ticker_requests symbol) (mkRequest GET "")) in *.
  destruct (upbit_fails symbol net log Hfiat F0) as (m0 & U).
  destruct (bithumb_fails symbol net (log ++ [rq 0%nat])%list Hfiat F1) as (m1 & B).
  destruct (coinone_fails symbol net ((log ++ [rq 0%nat]) ++ [rq 1%nat])%list Hfiat F2)
    as (m2 & C).
  destruct (coingecko_fails symbol net
              (((log ++ [rq 0%nat]) ++ [rq 1%nat]) ++ [rq 2%nat])%list Hfiat F3)
    as (m3 & G).
  unfold PriceAPI.get_first_valid_price.
  replace (log ++ PriceResolver.ticker_requests symbol)%list
    with ((((log ++ [rq 0%nat]) ++ [rq 1%nat]) ++ [rq 2%nat]) ++ [rq 3%nat])%list
    by (rewrite <- !app_assoc; reflexivity).
  apply loop_exhausted.
  eapply PriceResolver.vain_cons; [exact U|reflexivity|].
  eapply PriceResolver.vain_cons; [exact B|reflexivity|].
  eapply PriceResolver.vain_cons; [exact C|reflexivity|].
  eapply PriceResolver.vain_cons; [exact G|reflexivity|].
  constructor.
Qed.

(** X5. A payload of an unexpected shape is not skipped over. When
    Upbit answers the ticker request with a JSON object that is not
    empty, under a status that is no error, the lookup of Upbit raises
    [KeyError] (at [data[0]]), [get_first_valid_price] raises it too,
    and no other source is asked. *)
Theorem cascade_raises_on_object_payload :
  forall (symbol : string) (net : network) (log : list request)
         (r : Response) (kv : string * json) (kvs : list (string * json)),
    PriceResolver.is_local_fiat symbol = false ->
    net (mkRequest GET ("https://api.upbit.com/v1/ticker?markets=KRW-" ++ Str.upper symbol))
    = Answered r ->
    fails (Answered r) = false ->
    body r = inr (JDict (kv :: kvs)) ->
    PriceAPI.get_first_valid_price symbol net log
    = (Raise KeyError,
       (log ++ [mkRequest GET ("https://api.upbit.com/v1/ticker?markets=KRW-"
                               ++ Str.upper symbol)])%list).
Proof.
  intros symbol net log r kv kvs Hfiat N F B.
  unfold PriceAPI.get_first_valid_price, PriceAPI.exchanges.
  cbn [PriceAPI.first_valid_loop].
  apply bind_raise.
  unfold PriceAPI.get_upbit_price. unfold PriceResolver.is_local_fiat in Hfiat.
  rewrite Hfiat. unfold bind at 1.
  destruct (make_request_result
              ("https://api.upbit.com/v1/ticker?markets=KRW-" ++ Str.upper symbol) net log)
    as (j & E & _ & Hok).
  rewrite E. rewrite N in Hok. destruct (Hok F) as (r' & [= <-] & B').
  rewrite B in B'. injection B' as <-.
  reflexivity.
Qed.

End PriceSources.

(** ** The Bithumb client *)

Section Bithumb.
Context `{PyRuntime}.

Lemma bithumb_request_result (m : http_method) (method endpoint : string)
      (net : network) (log : list request) :
  m = (if String.eqb (Str.upper method) "GET" then GET else POST) ->
  exists j : json,
    BithumbAPI._request method endpoint net log
    = (Ok j, (log ++ [mkRequest m (BithumbAPI.BASE_URL ++ endpoint)])%list)
    /\ (fails (net (mkRequest m (BithumbAPI.BASE_URL ++ endpoint))) = true -> j = JList [])
    /\ (fails (net (mkRequest m (BithumbAPI.BASE_URL ++ endpoint))) = false ->
        exists r, net (mkRequest m (BithumbAPI.BASE_URL ++ endpoint)) = Answered r
                  /\ body r = inr j).
Proof.
  intros ->.
  unfold BithumbAPI._request, try_except, requests_get, requests_post. cbv zeta.
  destruct (String.eqb (Str.upper method) "GET").
  - destruct (checked_request GET (BithumbAPI.BASE_URL ++ endpoint) net log)
      as [(F & e & He & E)|(F & r & j & N & B & E)]; rewrite E, F.
    + rewrite He. eexists. split; [reflexivity|]. split; [reflexivity|discriminate].
    + exists j. split; [reflexivity|]. split; [discriminate|]. intros _. now exists r.
  - destruct (checked_request POST (BithumbAPI.BASE_URL ++ endpoint) net log)
      as [(F & e & He & E)|(F & r & j & N & B & E)]; rewrite E, F.
    + rewrite He. eexists. split; [reflexivity|]. split; [reflexivity|discriminate].
    + exists j. split; [reflexivity|]. split; [discriminate|]. intros _. now exists r.
Qed.

(** X6. [BithumbAPI._request] sends exactly one request, a GET when
    the method is [GET] in any case and a POST otherwise, and turns the
    failures of [requests] into the empty list: that is what it returns
    when no connection is made, when the status is an error status or
    when the body is not JSON; when the answer has a status that is no
    error and a body that decodes, it returns what the body decodes
    to. *)
Theorem bithumb_request_catches_request_failures :
  forall (method endpoint : string) (net : network) (log : list request),
    let rq := mkRequest (if String.eqb (Str.upper method) "GET" then GET else POST)
                        (BithumbAPI.BASE_URL ++ endpoint) in
    snd (BithumbAPI._request method endpoint net log) = (log ++ [rq])%list
    /\ (fails (net rq) = true ->
        fst (BithumbAPI._request method endpoint net log) = Ok (JList []))
    /\ (forall r j,
          net rq = Answered r ->
          fails (Answered r) = false ->
          body r = inr j ->
          fst (BithumbAPI._request method endpoint net log) = Ok j).
Proof.
  intros method endpoint net log rq. subst rq.
  destruct (bithumb_request_result _ method endpoint net log eq_refl) as (j & E & Hf & Hok).
  rewrite E. cbn [fst snd].
  split; [reflexivity|]. split.
  - intros F. now rewrite (Hf F).
  - intros r j' N F B. rewrite N in Hok. destruct (Hok F) as (r' & [= <-] & B').
    rewrite B in B'. now injection B' as <-.
Qed.

Lemma bithumb_accounts_fail net log :
  fails (net BithumbAPI.accounts_request) = true ->
  BithumbAPI.get_balances None net log
  = (Ok [], (log ++ [BithumbAPI.accounts_request])%list).
Proof.
  intros F. unfold BithumbAPI.get_balances, bind.
  destruct (bithumb_request_result GET "GET" "/v1/accounts" net log eq_refl)
    as (j & E & Hf & _).
  fold BithumbAPI.accounts_request in E, Hf.
  rewrite E, (Hf F). reflexivity.
Qed.

(** X7. When the account request of Bithumb fails (no connection, an
    error status, a body that is not JSON) nothing raises: a list of
    requested currencies is answered with a zero placeholder for each,
    no balance counts as held, and the report of the held balances is
    an empty frame with the report columns, after two account requests
    and no ticker request. *)
Theorem bithumb_degrades_when_accounts_fail :
  forall (net : network) (log : list request) (cs : list string),
    fails (net BithumbAPI.accounts_request) = true ->
    BithumbAPI.get_balances (Some cs) net log
    = (Ok (map (fun c => mkBalance (JStr c) 0) cs),
       (log ++ [BithumbAPI.accounts_request])%list)
    /\ BithumbAPI.get_nonzero_balances net log
       = (Ok [], (log ++ [BithumbAPI.accounts_request])%list)
    /\ BithumbAPI.get_report_with_nonzero_balances net log
       = (Ok (pd.of_columns pd.report_columns),
          (log ++ [BithumbAPI.accounts_request; BithumbAPI.accounts_request])%list).
Proof.
  intros net log cs F.
  assert (N : BithumbAPI.get_nonzero_balances net log
              = (Ok [], (log ++ [BithumbAPI.accounts_request])%list)).
  { unfold BithumbAPI.get_nonzero_balances.
    now rewrite (bind_ok _ _ _ _ _ _ (bithumb_accounts_fail net log F)). }
  split; [|split; [exact N|]].
  - now rewrite (bithumb_get_balances_requested _ _ cs _ _ (bithumb_accounts_fail net log F)).
  - unfold BithumbAPI.get_report_with_nonzero_balances.
    rewrite (bind_ok _ _ _ _ _ _ N). cbn [BithumbAPI.currencies_of flat_map].
    unfold BithumbAPI.get_report.
    rewrite (bind_ok _ _ _ _ _ _
               (bithumb_get_balances_requested _ _ [] _ _
                  (bithumb_accounts_fail net _ F))).
    cbn [map]. unfold ret. now rewrite <- app_assoc.
Qed.

(** X8. [BithumbAPI.get_price_by_currency] sends exactly one request,
    the ticker request of the coin.  When the request fails (no
    connection, an error status, a body that is not JSON) it returns
    [0].  When the answer is a JSON object with an object under [data]:
    a [closing_price] that is a text gives the number [float] reads in
    it, and [0] when [float] refuses the text (the [ValueError] is
    caught); an absent [closing_price] gives [0] (the [KeyError] is
    caught); and [closing_price: null] raises [TypeError], which the
    handler of the lookup, written for [ValueError] and [KeyError],
    does not catch. *)
Theorem bithumb_price_outcomes :
  forall (coin : json) (net : network) (log : list request),
    snd (BithumbAPI.get_price_by_currency coin net log)
    = (log ++ [BithumbAPI.ticker_request coin])%list
    /\ (fails (net (BithumbAPI.ticker_request coin)) = true ->
        fst (BithumbAPI.get_price_by_currency coin net log) = Ok 0)
    /\ (forall a kv d,
          net (BithumbAPI.ticker_request coin) = Answered a ->
          fails (Answered a) = false ->
          body a = inr (JDict kv) ->
          Py.assoc "data" kv = Some (JDict d) ->
          (forall s, Py.assoc "closing_price" d = Some (JStr s) ->
                     fst (BithumbAPI.get_price_by_currency coin net log)
                     = Ok (match float_of_str s with Some q => q | None => 0 end))
          /\ (Py.assoc "closing_price" d = None ->
              fst (BithumbAPI.get_price_by_currency coin net log) = Ok 0)
          /\ (Py.assoc "closing_price" d = Some JNull ->
              fst (BithumbAPI.get_price_by_currency coin net log) = Raise TypeError)).
Proof.
  intros coin net log.
  destruct (bithumb_request_result GET "GET" ("/public/ticker/" ++ fmt coin ++ "_KRW")
              net log eq_refl) as (j & E & Hf & Hok).
  fold (BithumbAPI.ticker_request coin) in E, Hf, Hok.
  set (rest := fun response : json =>
                 bind (if Py.is_dict response
                       then bind (lift (Py.get response "data" JNull))
                                 (fun d => ret (Py.truthy d))
                       else ret false)
                      (fun has_data : bool =>
                         if has_data
                         then bind (lift (Py.getitem response "data"))
                                   (fun d => bind (lift (Py.getitem d "closing_price"))
                                                  (fun v => lift (py_float v)))
                         else ret 0)).
  assert (S : silent (rest j)) by (unfold rest; silent_tac).
  set (l1 := (log ++ [BithumbAPI.ticker_request coin])%list) in *.
  pose proof (S net l1) as Sn.
  destruct (rest j net l1) as [r l2] eqn:R. cbn [snd] in Sn. subst l2.
  assert (W : BithumbAPI.get_price_by_currency coin net log
              = match r with
                | Ok q => (Ok q, l1)
                | Raise e => if is_ValueError_or_KeyError e then (Ok 0, l1) else (Raise e, l1)
                end).
  { unfold BithumbAPI.get_price_by_currency, try_except. unfold bind at 1.
    rewrite E. fold (rest j). rewrite R. now destruct r. }
  rewrite W. clear W.
  split; [|split].
  - destruct r as [q|e]; [reflexivity|]. now destruct (is_ValueError_or_KeyError e).
  - intros F. rewrite (Hf F) in R. cbn in R. now injection R as <-.
  - intros a kv d N F B D. rewrite N in Hok.
    destruct (Hok F) as (a' & [= <-] & Ba). rewrite B in Ba. injection Ba as <-.
    unfold rest, bind, lift, ret in R. cbn in R. rewrite D in R. cbn in R.
    split; [|split].
    + intros s P. rewrite P in R. destruct d as [|kv0 d]; [discriminate P|].
      cbn in R. destruct (float_of_str s); now injection R as <-.
    + intros P. rewrite P in R. destruct d as [|kv0 d]; cbn in R; now injection R as <-.
    + intros P. rewrite P in R. destruct d as [|kv0 d]; [discriminate P|].
      cbn in R. now injection R as <-.
Qed.

Lemma filterM_kept {A} (p : A -> result bool) :
  forall l out, filterM p l = Ok out -> Forall (fun x => In x l /\ p x = Ok true) out.
Proof.
  induction l as [|x t IH]; intros out E; cbn in E.
  - injection E as <-. constructor.
  - destruct (p x) as [keep|e] eqn:Px; [|discriminate]. cbn in E.
    destruct (filterM p t) as [rest|e]; [|discriminate]. cbn in E.
    specialize (IH rest eq_refl).
    assert (IH' : Forall (fun y => In y (x :: t) /\ p y = Ok true) rest).
    { eapply Forall_impl; [|exact IH]. intros y [Hin Hy]. split; [now right|exact Hy]. }
    destruct keep; injection E as <-; [|exact IH'].
    constructor; [|exact IH']. split; [now left|exact Px].
Qed.

Lemma Forall2_compose {A B C} (R1 : A -> B -> Prop) (R2 : B -> C -> Prop) l1 l2 :
  Forall2 R1 l1 l2 ->
  forall l3, Forall2 R2 l2 l3 ->
             Forall2 (fun x z => exists y, R1 x y /\ R2 y z) l1 l3.
Proof.
  induction 1 as [|x y l1 l2 Hxy _ IH]; intros l3 F; inversion F; subst; constructor.
  - eauto.
  - now apply IH.
Qed.

(** An account kept by [get_nonzero_balances] went through [.upper()]:
    its currency is a string. *)
Lemma bithumb_nonzero_is_str a :
  BithumbAPI.is_nonzero a = Ok true -> exists s, currency a = JStr s.
Proof.
  unfold BithumbAPI.is_nonzero.
  destruct (Qlt_bool 0 (balance a)); [|discriminate].
  destruct (currency a); cbn; try discriminate. eauto.
Qed.

Lemma bithumb_nonzero_from_balances net log nz l1 :
  BithumbAPI.get_nonzero_balances net log = (Ok nz, l1) ->
  exists accounts,
    BithumbAPI.get_balances None net log = (Ok accounts, l1)
    /\ filterM BithumbAPI.is_nonzero accounts = Ok nz.
Proof.
  unfold BithumbAPI.get_nonzero_balances, bind, lift.
  destruct (BithumbAPI.get_balances None net log) as [[accounts|e] l2]; [|discriminate].
  intros [= E <-]. now exists accounts.
Qed.

(** The account [get_balances] answers with for the currency of an
    account of the payload is an account under that currency. *)
Lemma bithumb_pick_present accounts a s :
  In a accounts -> currency a = JStr s ->
  exists a', BithumbAPI.find_account accounts s = Some a' /\ currency a' = JStr s.
Proof.
  intros Hin Hc. unfold BithumbAPI.find_account.
  destruct (find _ accounts) as [a'|] eqn:F.
  - exists a'. split; [reflexivity|]. apply find_some in F. now apply eq_str_true.
  - pose proof (find_none _ _ F a Hin) as N. cbn in N.
    rewrite Hc in N. cbn in N. now rewrite String.eqb_refl in N.
Qed.

(** X9. The report of the held balances of Bithumb has one line for
    each account [get_nonzero_balances] keeps, in their order and under
    their currency, priced by the ticker ([1] for [KRW]) with
    [total = balance * price], whenever the account payload decodes and
    the price lookups return. *)
Theorem bithumb_report_follows_nonzero_balances :
  forall (net : network) (log l1 : list request) (nz : list Balance),
    BithumbAPI.get_nonzero_balances net log = (Ok nz, l1) ->
    Forall (fun a => exists p, BithumbAPI.unit_price net (currency a) = Ok p) nz ->
    exists df log',
      BithumbAPI.get_report_with_nonzero_balances net log = (Ok df, log')
      /\ Forall2 (fun a r =>
                    Report.currency r = currency a
                    /\ BithumbAPI.unit_price net (currency a) = Ok (Report.price r)
                    /\ Report.total r = Report.balance r * Report.price r)
                 nz (pd.rows df).
Proof.
  intros net log l1 nz N P.
  destruct (bithumb_nonzero_from_balances net log nz l1 N) as (accounts & B & K).
  pose proof (filterM_kept _ _ _ K) as Kept.
  set (pick := fun c => match BithumbAPI.find_account accounts c with
                        | Some account => account
                        | None => mkBalance (JStr c) 0
                        end).
  assert (Picked : Forall2 (fun a a' => currency a' = currency a) nz
                           (map pick (BithumbAPI.currencies_of nz))).
  { clear N P K. induction Kept as [|a t [Hin Ha] _ IH]; [constructor|].
    destruct (bithumb_nonzero_is_str a Ha) as (s & Hs).
    unfold BithumbAPI.currencies_of in *. cbn [flat_map]. rewrite Hs.
    cbn [app map]. constructor; [|exact IH].
    destruct (bithumb_pick_present accounts a s Hin Hs) as (a' & F & Hc).
    unfold pick. now rewrite F, Hc. }
  assert (Priced : Forall (fun a' => exists p, BithumbAPI.unit_price net (currency a') = Ok p)
                          (map pick (BithumbAPI.currencies_of nz))).
  { clear - P Picked. revert P.
    induction Picked as [|a a' l l' Hc _ IH]; intros P; [constructor|].
    inversion P as [|? ? Pa Pt]; subst. constructor; [now rewrite Hc|now apply IH]. }
  pose proof (returns_from _ net log _ l1 (bithumb_get_balances_log_free None) B) as Run.
  destruct (from_run _ net l1 _ (bithumb_get_balances_log_free None) Run) as (l2 & B').
  pose proof (bithumb_get_balances_requested net l1 (BithumbAPI.currencies_of nz)
                accounts l2 B') as G.
  fold pick in G.
  unfold BithumbAPI.get_report_with_nonzero_balances.
  rewrite (bind_ok _ _ _ _ _ _ N). unfold BithumbAPI.get_report.
  rewrite (bind_ok _ _ _ _ _ _ G).
  destruct (bithumb_gather net _ Priced) as (lines & Gl & Fl).
  pose proof (Forall2_compose _ _ _ _ Picked _ Fl) as Comp.
  assert (Final : Forall2 (fun a r =>
                    Report.currency r = currency a
                    /\ BithumbAPI.unit_price net (currency a) = Ok (Report.price r)
                    /\ Report.total r = Report.balance r * Report.price r) nz lines).
  { eapply Forall2_impl; [|exact Comp]. cbn beta.
    intros a r (a' & Hc & Hr1 & Hr2 & Hr3 & Hr4).
    split; [congruence|]. split; [now rewrite <- Hc|]. now rewrite Hr4, Hr2. }
  destruct (map pick (BithumbAPI.currencies_of nz)) as [|x xs] eqn:M.
  - inversion Fl; subst. eexists. eexists. split; [reflexivity|exact Final].
  - pose proof (run_for_append BithumbAPI.report_line (x :: xs) net
                  bithumb_report_line_log_free) as R.
    rewrite Gl in R.
    destruct (from_run _ net l2 _
                (log_free_for_append _ (x :: xs) bithumb_report_line_log_free) R)
      as (log' & E).
    eexists. exists log'. rewrite (bind_ok _ _ _ _ _ _ E).
    split; [reflexivity|].
    unfold pd.of_records. destruct lines; [inversion Fl|exact Final].
Qed.

(** X10. When the account payload decodes,
    [BithumbAPI.get_balance_by_currency] always answers with an entry
    under the requested currency: the first account of the payload under
    that currency when its balance is positive, and otherwise an entry
    whose balance is the text ['0'] (not the number zero). *)
Theorem bithumb_balance_by_currency :
  forall (c : string) (net : network) (log log' : list request) (accounts : list Balance),
    BithumbAPI.get_balances None net log = (Ok accounts, log') ->
    exists d : json,
      BithumbAPI.get_balance_by_currency c net log = (Ok d, log')
      /\ Py.getitem d "currency" = Ok (JStr c)
      /\ ((exists a, BithumbAPI.find_account accounts c = Some a
                     /\ 0 < balance a /\ d = BithumbAPI.to_dict a)
          \/ ((forall a, BithumbAPI.find_account accounts c = Some a -> balance a <= 0)
              /\ Py.getitem d "balance" = Ok (JStr "0"))).
Proof.
  intros c net log log' accounts B.
  unfold BithumbAPI.get_balance_by_currency.
  rewrite (bind_ok _ _ _ _ _ _ (bithumb_get_balances_requested net log [c] accounts log' B)).
  cbn [map].
  destruct (BithumbAPI.find_account accounts c) as [a|] eqn:F.
  - destruct (Qlt_bool 0 (balance a)) eqn:L.
    + exists (BithumbAPI.to_dict a). split; [reflexivity|]. split.
      * unfold BithumbAPI.find_account in F. apply find_some in F.
        destruct F as [_ F]. apply eq_str_true in F. cbn. now rewrite F.
      * left. exists a. split; [reflexivity|]. split; [now apply Qlt_bool_iff|reflexivity].
    + exists (BithumbAPI.no_balance c). split; [reflexivity|]. split; [reflexivity|].
      right. split; [|reflexivity]. intros a' [= <-]. now apply Qlt_bool_false_iff.
  - cbn [balance]. exists (BithumbAPI.no_balance c). split; [reflexivity|].
    split; [reflexivity|]. right. split; [discriminate|reflexivity].
Qed.

End Bithumb.

(** ** The Upbit client *)

Section Upbit.
Context `{PyRuntime}.


Lemma upbit_not_200 cs net log r :
  net UpbitAPI.accounts_request = Answered r ->
  status_code r <> 200%nat ->
  UpbitAPI.get_balances cs net log = (Ok [], (log ++ [UpbitAPI.accounts_request])%list).
Proof.
  intros N S. unfold UpbitAPI.get_balances, bind, requests_get, send.
  fold UpbitAPI.accounts_request. rewrite N.
  apply Nat.eqb_neq in S. now rewrite S.
Qed.

Lemma upbit_unreachable cs net log msg :
  net UpbitAPI.accounts_request = Unreachable msg ->
  UpbitAPI.get_balances cs net log
  = (Raise (ConnectionError msg), (log ++ [UpbitAPI.accounts_request])%list).
Proof.
  intros N. unfold UpbitAPI.get_balances, bind, requests_get, send.
  fold UpbitAPI.accounts_request. now rewrite N.
Qed.

(** X12. The Upbit client looks at the status of the account answer
    and at nothing else: under any status other than 200 (an error
    status, but also 201 or 204) the body is not read and
    [get_balances], [get_balance_by_currency] and [get_nonzero_balances]
    answer with nothing; when the request cannot be sent at all, the
    three of them raise the [ConnectionError]. *)
Theorem upbit_status_and_transport :
  forall (net : network) (log : list request) (cs : option (list string)) (c : string),
    (forall r,
        net UpbitAPI.accounts_request = Answered r ->
        status_code r <> 200%nat ->
        UpbitAPI.get_balances cs net log
        = (Ok [], (log ++ [UpbitAPI.accounts_request])%list)
        /\ UpbitAPI.get_balance_by_currency c net log
           = (Ok None, (log ++ [UpbitAPI.accounts_request])%list)
        /\ UpbitAPI.get_nonzero_balances net log
           = (Ok [], (log ++ [UpbitAPI.accounts_request])%list))
    /\ (forall msg,
          net UpbitAPI.accounts_request = Unreachable msg ->
          UpbitAPI.get_balances cs net log
          = (Raise (ConnectionError msg), (log ++ [UpbitAPI.accounts_request])%list)
          /\ UpbitAPI.get_balance_by_currency c net log
             = (Raise (ConnectionError msg), (log ++ [UpbitAPI.accounts_request])%list)
          /\ UpbitAPI.get_nonzero_balances net log
             = (Raise (ConnectionError msg), (log ++ [UpbitAPI.accounts_request])%list)).
Proof.
  intros net log cs c. split.
  - intros r N S. split; [now apply (upbit_not_200 cs net log r)|]. split.
    + unfold UpbitAPI.get_balance_by_currency.
      now rewrite (bind_ok _ _ _ _ _ _ (upbit_not_200 (Some [c]) net log r N S)).
    + unfold UpbitAPI.get_nonzero_balances.
      now rewrite (bind_ok _ _ _ _ _ _ (upbit_not_200 None net log r N S)).
  - intros msg N. split; [now apply upbit_unreachable|]. split.
    + unfold UpbitAPI.get_balance_by_currency.
      now rewrite (bind_raise _ _ _ _ _ _ (upbit_unreachable (Some [c]) net log msg N)).
    + unfold UpbitAPI.get_nonzero_balances.
      now rewrite (bind_raise _ _ _ _ _ _ (upbit_unreachable None net log msg N)).
Qed.

Lemma find_eq_on {A} (f g : A -> bool) l :
  (forall x, f x = g x) -> find f l = find g l.
Proof.
  intros E. induction l as [|x t IH]; [reflexivity|]. cbn. now rewrite E, IH.
Qed.

Lemma head_filter_is_find {A} (f : A -> bool) l :
  match filter f l with x :: _ => Some x | [] => None end = find f l.
Proof.
  induction l as [|x t IH]; [reflexivity|]. cbn. now destruct (f x).
Qed.

(** X13. [UpbitAPI.get_balance_by_currency] answers with the first
    entry of the payload under the requested currency, with its balance
    already summed with the locked amount, and with [None] when no entry
    has that currency. *)
Theorem upbit_balance_by_currency_is_first_match :
  forall (c : string) (net : network) (log log' : list request) (balances : list json),
    UpbitAPI.get_balances None net log = (Ok balances, log') ->
    Forall (fun e => exists v, Py.getitem e "currency" = Ok v) balances ->
    UpbitAPI.get_balance_by_currency c net log
    = (Ok (find (fun e => Py.eq_str (UpbitAPI.currency_of e) c) balances), log').
Proof.
  intros c net log log' balances E W.
  unfold UpbitAPI.get_balance_by_currency, bind.
  rewrite (upbit_get_balances_requested _ _ c [] _ _ E).
  rewrite (filterM_pure (UpbitAPI.requested [c]) (UpbitAPI.is_requested [c]) balances).
  - unfold ret. rewrite head_filter_is_find. do 2 f_equal.
    apply find_eq_on. intros e. unfold UpbitAPI.is_requested, PyMore.in_strs, Py.eq_str.
    destruct (UpbitAPI.currency_of e); try reflexivity.
    cbn. now rewrite orb_false_r.
  - eapply Forall_impl; [|exact W]. intros e (v & Ev).
    now apply (upbit_requested_pure _ _ v).
Qed.

End Upbit.

(** ** The Coinone client *)

Section Coinone.
Context `{PyRuntime}.

Lemma coinone_normalize_currency x b :
  CoinoneAPI.normalize x = Ok b ->
  Py.getitem x "currency" = Ok (currency b) /\ Py.truthy x = true.
Proof.
  unfold CoinoneAPI.normalize, and_then.
  destruct (Py.getitem x "currency") as [c|] eqn:Ec; [|discriminate].
  destruct (Py.getitem x "available") as [a|]; [|discriminate].
  destruct (py_float a) as [a'|]; [|discriminate].
  destruct (Py.getitem x "limit") as [l|]; [|discriminate].
  destruct (py_float l) as [l'|]; [|discriminate].
  intros [= <-]. split; [reflexivity|].
  destruct x as [| | | | |kv]; cbn in Ec; try discriminate.
  destruct kv; [discriminate|reflexivity].
Qed.

Lemma coinone_first_under c items :
  forall all,
    mapM CoinoneAPI.normalize items = Ok all ->
    (let! balance_data := CoinoneAPI.first_under c items in
     match balance_data with
     | Some x =>
         if Py.truthy x then let! b := CoinoneAPI.normalize x in Ok (Some b) else Ok None
     | None => Ok None
     end)
    = Ok (find (fun b => Py.eq_str (currency b) c) all).
Proof.
  induction items as [|x t IH]; intros all E; cbn in E.
  - now injection E as <-.
  - destruct (CoinoneAPI.normalize x) as [b|e] eqn:N; [|discriminate]. cbn in E.
    destruct (mapM CoinoneAPI.normalize t) as [bs|e]; [|discriminate]. cbn in E.
    injection E as <-. cbn [CoinoneAPI.first_under find].
    destruct (coinone_normalize_currency x b N) as [Ec Tx]. rewrite Ec. cbn [and_then].
    destruct (Py.eq_str (currency b) c).
    + cbn [and_then]. now rewrite Tx, N.
    + now apply IH.
Qed.

(** X14. [CoinoneAPI.get_balance_by_currency] agrees with
    [get_balances] asked for that one currency: whenever
    [get_balances([currency])] returns, the lookup returns the first of
    those balances under the currency, and [None] when there is none (an
    answer that is no success included). *)
Theorem coinone_balance_by_currency_is_first_match :
  forall (c : string) (net : network) (log log' : list request)
         (balances : list Balance),
    CoinoneAPI.get_balances [c] net log = (Ok balances, log') ->
    CoinoneAPI.get_balance_by_currency c net log
    = (Ok (find (fun b => Py.eq_str (currency b) c) balances), log').
Proof.
  intros c net log log' balances.
  unfold CoinoneAPI.get_balances, CoinoneAPI.get_balance_by_currency, bind, lift, ret.
  destruct (CoinoneAPI._post_request _ net log) as [[response|e] l1]; [|discriminate].
  destruct (Py.get response "result" JNull) as [r|e]; [|discriminate].
  destruct (negb (Py.eq_str r "success")).
  - now intros [= <- <-].
  - destruct (Py.get response "balances" (JList [])) as [bs|e]; [|discriminate].
    destruct (PyMore.iter bs) as [items|e]; cbn [and_then]; [|discriminate].
    destruct (mapM CoinoneAPI.normalize items) as [all|e] eqn:M; [|discriminate].
    intros [= <- <-]. now rewrite (coinone_first_under c items all M).
Qed.

(** X15. A Coinone report cannot be empty: when the balances are there,
    every price lookup returns and no balance is priced with a number
    (in particular when there is no balance at all), [get_report] raises
    [KeyError], from sorting a frame that has no [total] column; and
    [get_report_with_nonzero_balances] raises it when no balance is
    held. *)
Theorem coinone_empty_report_raises :
  (forall net log cs balances l1,
      CoinoneAPI.get_balances cs net log = (Ok balances, l1) ->
      Forall (fun b => exists s,
                CoinoneAPI.price_at net (currency b) = Ok (CoinoneAPI.Text s)) balances ->
      exists log', CoinoneAPI.get_report cs net log = (Raise KeyError, log'))
  /\ (forall net log l1,
        CoinoneAPI.get_nonzero_balances net log = (Ok [], l1) ->
        CoinoneAPI.get_report_with_nonzero_balances net log = (Raise KeyError, l1)).
Proof.
  split.
  - intros net log cs balances l1 B T.
    assert (P : Forall (fun b => exists p, CoinoneAPI.price_at net (currency b) = Ok p)
                       balances).
    { eapply Forall_impl; [|exact T]. intros b (s & E). eauto. }
    assert (L : flat_map (CoinoneAPI.lines_of net) balances = []).
    { clear - T. induction T as [|b t (s & E) _ IH]; [reflexivity|].
      cbn [flat_map]. unfold CoinoneAPI.lines_of at 1. now rewrite E, IH. }
    pose proof (run_for_append CoinoneAPI.report_line balances net
                  coinone_report_line_log_free) as R.
    rewrite (coinone_gather net balances P), L in R.
    destruct (from_run _ net l1 _
                (log_free_for_append _ balances coinone_report_line_log_free) R)
      as (log' & E).
    exists log'. unfold CoinoneAPI.get_report.
    now rewrite (bind_ok _ _ _ _ _ _ B), (bind_ok _ _ _ _ _ _ E).
  - intros net log l1 N. unfold CoinoneAPI.get_report_with_nonzero_balances.
    now rewrite (bind_ok _ _ _ _ _ _ N).
Qed.

(** X16. An exchange with nothing to report empties the aggregation:
    when the report of Bithumb returns and the Coinone account holds no
    balance, [Aggregator.get_report] returns the empty frame, whatever
    Bithumb reported, and the Korbit and Upbit clients are not asked. *)
Theorem aggregator_empty_when_coinone_holds_nothing :
  forall (bithumb korbit upbit : Aggregator.Client) (net : network)
         (log l1 l2 : list request) (df : pd.DataFrame),
    Aggregator.get_report_with_nonzero_balances bithumb net log = (Ok df, l1) ->
    CoinoneAPI.get_nonzero_balances net l1 = (Ok [], l2) ->
    Aggregator.get_report
      (Aggregator.mk bithumb
         (Aggregator.mkClient CoinoneAPI.get_report_with_nonzero_balances)
         korbit upbit) net log
    = (Ok (pd.of_records []), l2).
Proof.
  intros bithumb korbit upbit net log l1 l2 df B N.
  unfold Aggregator.get_report, try_except.
  cbn [Aggregator.bithumb Aggregator.coinone Aggregator.korbit Aggregator.upbit].
  destruct (collect_ok bithumb "Bithumb" [] net log df l1 B) as (dfs & C).
  rewrite (bind_ok _ _ _ _ _ _ C).
  assert (R : CoinoneAPI.get_report_with_nonzero_balances net l1 = (Raise KeyError, l2)).
  { unfold CoinoneAPI.get_report_with_nonzero_balances.
    now rewrite (bind_ok _ _ _ _ _ _ N). }
  now rewrite (bind_raise _ _ _ _ _ _
                 (collect_raise (Aggregator.mkClient _) "Coinone" dfs net l1 _ l2 R)).
Qed.

Lemma coinone_make_request_result (u : string) (net : network) (log : list request) :
  exists j : json,
    CoinoneAPI._make_request u net log = (Ok j, (log ++ [mkRequest GET u])%list)
    /\ (fails (net (mkRequest GET u)) = true ->
        exists msg, j = JStr ("Error: " ++ msg))
    /\ (fails (net (mkRequest GET u)) = false ->
        exists r, net (mkRequest GET u) = Answered r /\ body r = inr j).
Proof. exact (make_request_result u net log). Qed.

(** X17. What [CoinoneAPI.get_price_by_currency] does.  A coin that is
    no string raises [AttributeError], and [krw], in any case, is worth
    [1], both without a request.  For any other coin the ticker request
    is sent, once.  When it fails (no connection, an error status, a
    body that is not JSON) the lookup raises [AttributeError]: the
    helper has turned the failure into a text, and a text has no
    [.get].  When the answer is a JSON object: an [errorCode] other than
    ['0'] gives the text ['Error: Invalid Coinone price data']; under
    [errorCode '0'], a [last] that is a text gives the number [float]
    reads in it, or the text ['Error: Invalid Coinone price data..']
    when [float] refuses it, [last: null] gives that text too, and an
    absent [last] gives the number [0]. *)
Theorem coinone_price_outcomes :
  forall (coin : json) (net : network) (log : list request),
    match coin with
    | JStr s =>
        if String.eqb (Str.lower s) "krw"
        then CoinoneAPI.get_price_by_currency coin net log
             = (Ok (CoinoneAPI.Number 1), log)
        else
          snd (CoinoneAPI.get_price_by_currency coin net log)
          = (log ++ [CoinoneAPI.ticker_request s])%list
          /\ (fails (net (CoinoneAPI.ticker_request s)) = true ->
              fst (CoinoneAPI.get_price_by_currency coin net log) = Raise AttributeError)
          /\ (forall a kv,
                net (CoinoneAPI.ticker_request s) = Answered a ->
                fails (Answered a) = false ->
                body a = inr (JDict kv) ->
                (Py.assoc "errorCode" kv <> Some (JStr "0") ->
                 fst (CoinoneAPI.get_price_by_currency coin net log)
                 = Ok (CoinoneAPI.Text "Error: Invalid Coinone price data"))
                /\ (Py.assoc "errorCode" kv = Some (JStr "0") ->
                    (forall t, Py.assoc "last" kv = Some (JStr t) ->
                               fst (CoinoneAPI.get_price_by_currency coin net log)
                               = Ok (match float_of_str t with
                                     | Some q => CoinoneAPI.Number q
                                     | None => CoinoneAPI.Text
                                                 "Error: Invalid Coinone price data.."
                                     end))
                    /\ (Py.assoc "last" kv = Some JNull ->
                        fst (CoinoneAPI.get_price_by_currency coin net log)
                        = Ok (CoinoneAPI.Text "Error: Invalid Coinone price data.."))
                    /\ (Py.assoc "last" kv = None ->
                        fst (CoinoneAPI.get_price_by_currency coin net log)
                        = Ok (CoinoneAPI.Number 0))))
    | _ => CoinoneAPI.get_price_by_currency coin net log = (Raise AttributeError, log)
    end.
Proof.
  intros coin net log.
  destruct coin as [| | |s| |]; try reflexivity.
  destruct (String.eqb (Str.lower s) "krw") eqn:K.
  { unfold CoinoneAPI.get_price_by_currency, bind, lift, PyMore.lower. now rewrite K. }
  destruct (coinone_make_request_result ("https://api.coinone.co.kr/ticker/?currency=" ++ s)
              net log) as (j & E & Hf & Hok).
  fold (CoinoneAPI.ticker_request s) in E, Hf, Hok.
  set (l1 := (log ++ [CoinoneAPI.ticker_request s])%list) in *.
  set (rest := fun data : json =>
                 bind (lift (Py.get data "errorCode" JNull))
                      (fun code =>
                         if Py.eq_str code "0"
                         then try_except
                                (bind (lift (Py.get data "last" (JNum 0)))
                                      (fun v => bind (lift (py_float v))
                                                     (fun p => ret (CoinoneAPI.Number p))))
                                is_ValueError_or_TypeError
                                (fun _ => ret (CoinoneAPI.Text
                                                 "Error: Invalid Coinone price data.."))
                         else ret (CoinoneAPI.Text "Error: Invalid Coinone price data"))).
  assert (W : CoinoneAPI.get_price_by_currency (JStr s) net log = rest j net l1).
  { unfold CoinoneAPI.get_price_by_currency. unfold bind at 1.
    unfold PyMore.lower, fmt. unfold lift at 1. cbv beta iota. rewrite K.
    unfold bind at 1. unfold CoinoneAPI.ticker_request in E. rewrite E. reflexivity. }
  rewrite W. clear W.
  assert (S : silent (rest j)) by (unfold rest; silent_tac).
  split; [apply S|]. split.
  - intros F. destruct (Hf F) as (msg & ->). reflexivity.
  - intros a kv N F B. rewrite N in Hok. destruct (Hok F) as (a' & [= <-] & B').
    rewrite B in B'. injection B' as <-.
    unfold rest, bind, lift, Py.get. cbv beta iota.
    destruct (Py.assoc "errorCode" kv) as [code|] eqn:C.
    + split.
      * intros NE.
        destruct (Py.eq_str code "0") eqn:Q; [|reflexivity].
        apply eq_str_true in Q. congruence.
      * intros [= ->]. cbn [Py.eq_str String.eqb Ascii.eqb Bool.eqb].
        unfold try_except, ret. split; [|split].
        -- intros t L. rewrite L. cbn [py_float]. now destruct (float_of_str t).
        -- intros L. rewrite L. reflexivity.
        -- intros L. rewrite L. reflexivity.
    + split; [reflexivity|discriminate].
Qed.

End Coinone.

(** ** The Korbit client *)

Section Korbit.
Context `{PyRuntime}.

(** X18. A grant that fails never moves the expiry. When
    [_get_access_token] raises, the call was not a cache hit, exactly
    one grant request went out, the expiry and the credentials of the
    session are the ones from before, and so every call at that time or
    later asks for a grant again. *)
Theorem korbit_failed_grant_keeps_expiry :
  forall (now now' : Q) (self self' : KorbitAPI.t) (net : network)
         (log log' : list request) (e : exn),
    KorbitAPI._get_access_token now now' self net log = (Raise e, self', log') ->
    KorbitAPI.token_expires_at self' = KorbitAPI.token_expires_at self
    /\ KorbitAPI.client_id self' = KorbitAPI.client_id self
    /\ KorbitAPI.client_secret self' = KorbitAPI.client_secret self
    /\ KorbitAPI.token_expires_at self <= now
    /\ log' = (log ++ [KorbitAPI.grant_request])%list
    /\ (forall now2 t2 net2 log2,
          now <= now2 ->
          exists r s,
            KorbitAPI._get_access_token now2 t2 self' net2 log2
            = (r, s, (log2 ++ [KorbitAPI.grant_request])%list)).
Proof.
  intros now now' self self' net log log' e.
  unfold KorbitAPI._get_access_token, KorbitAPI.mbind, KorbitAPI.get_self.
  destruct (Qlt_bool now (KorbitAPI.token_expires_at self)) eqn:L;
    [unfold KorbitAPI.mret; discriminate|].
  apply Qlt_bool_false_iff in L.
  unfold KorbitAPI.of_io, KorbitAPI.of_result, KorbitAPI.of_io, requests_post, send, lift.
  fold KorbitAPI.grant_request.
  assert (Final : forall (s : KorbitAPI.t) (e1 : exn),
             KorbitAPI.token_expires_at s = KorbitAPI.token_expires_at self ->
             KorbitAPI.client_id s = KorbitAPI.client_id self ->
             KorbitAPI.client_secret s = KorbitAPI.client_secret self ->
             (@Raise unit e1, s, (log ++ [KorbitAPI.grant_request])%list)
             = (Raise e, self', log') ->
             KorbitAPI.token_expires_at self' = KorbitAPI.token_expires_at self
             /\ KorbitAPI.client_id self' = KorbitAPI.client_id self
             /\ KorbitAPI.client_secret self' = KorbitAPI.client_secret self
             /\ KorbitAPI.token_expires_at self <= now
             /\ log' = (log ++ [KorbitAPI.grant_request])%list
             /\ (forall now2 t2 net2 log2,
                   now <= now2 ->
                   exists r s0,
                     KorbitAPI._get_access_token now2 t2 self' net2 log2
                     = (r, s0, (log2 ++ [KorbitAPI.grant_request])%list))).
  { intros s e1 He Hi Hs [= _ <- <-]. repeat (split; [assumption || reflexivity|]).
    intros now2 t2 net2 log2 L2. apply token_asked_once.
    rewrite He. now apply Qle_trans with now. }
  destruct (net KorbitAPI.grant_request) as [msg|r].
  { intros E. now apply (Final self _ eq_refl eq_refl eq_refl E). }
  destruct (raise_for_status _ r) as [[]|e1].
  2:{ intros E. now apply (Final self _ eq_refl eq_refl eq_refl E). }
  destruct (response_json r) as [token_data|e1].
  2:{ intros E. now apply (Final self _ eq_refl eq_refl eq_refl E). }
  destruct (Py.getitem token_data "access_token") as [tok|e1].
  2:{ intros E. now apply (Final self _ eq_refl eq_refl eq_refl E). }
  unfold KorbitAPI.set_access_token.
  destruct (Py.getitem token_data "expires_in") as [ei|e1].
  2:{ intros E.
      now apply (Final (KorbitAPI.mk (KorbitAPI.client_id self) (KorbitAPI.client_secret self)
                                     tok (KorbitAPI.token_expires_at self))
                       _ eq_refl eq_refl eq_refl E). }
  destruct (KorbitAPI.float_add now' ei) as [x|e1].
  2:{ intros E.
      now apply (Final (KorbitAPI.mk (KorbitAPI.client_id self) (KorbitAPI.client_secret self)
                                     tok (KorbitAPI.token_expires_at self))
                       _ eq_refl eq_refl eq_refl E). }
  unfold KorbitAPI.set_token_expires_at. discriminate.
Qed.

Lemma korbit_grant_fails now now' self net log :
  KorbitAPI.token_expires_at self <= now ->
  fails (net KorbitAPI.grant_request) = true ->
  exists e,
    is_RequestException e = true
    /\ KorbitAPI._get_access_token now now' self net log
       = (Raise e, self, (log ++ [KorbitAPI.grant_request])%list).
Proof.
  intros L F. apply Qlt_bool_false_iff in L.
  unfold KorbitAPI._get_access_token, KorbitAPI.mbind, KorbitAPI.get_self. rewrite L.
  unfold KorbitAPI.of_io, KorbitAPI.of_result, KorbitAPI.of_io, requests_post, send, lift.
  fold KorbitAPI.grant_request. unfold fails in F.
  destruct (net KorbitAPI.grant_request) as [msg|r]; [eexists; split; [|reflexivity]; reflexivity|].
  destruct (status_cases (KorbitAPI.BASE_URL ++ "/v1/oauth2/access_token") r)
    as [(S & m & E)|(S & E)]; rewrite E.
  - eexists; split; [|reflexivity]; reflexivity.
  - rewrite S in F. cbn in F. unfold response_json.
    destruct (body r) as [m|j]; [|discriminate].
    eexists; split; [|reflexivity]; reflexivity.
Qed.

Lemma korbit_grant_without_token now now' self net log a kv :
  KorbitAPI.token_expires_at self <= now ->
  net KorbitAPI.grant_request = Answered a ->
  fails (Answered a) = false ->
  body a = inr (JDict kv) ->
  Py.assoc "access_token" kv = None ->
  KorbitAPI._get_access_token now now' self net log
  = (Raise KeyError, self, (log ++ [KorbitAPI.grant_request])%list).
Proof.
  intros L N F B A. apply Qlt_bool_false_iff in L.
  unfold KorbitAPI._get_access_token, KorbitAPI.mbind, KorbitAPI.get_self. rewrite L.
  unfold KorbitAPI.of_io, KorbitAPI.of_result, KorbitAPI.of_io, requests_post, send, lift.
  fold KorbitAPI.grant_request. rewrite N. unfold fails in F.
  destruct (status_cases (KorbitAPI.BASE_URL ++ "/v1/oauth2/access_token") a)
    as [(S & m & E)|(S & E)]; rewrite E.
  - rewrite S in F. discriminate.
  - unfold response_json. rewrite B. cbn. now rewrite A.
Qed.

(** X19. What [KorbitAPI.get_balances] makes of a failed token
    refresh, for a session whose token has expired. A grant request that
    fails (no connection, an error status, a body that is not JSON) is
    swallowed: the answer is the empty dict, the balances are not asked
    for and the session is as before. A grant answer that is a JSON
    object without [access_token] is not: the [KeyError] leaves
    [get_balances]. *)
Theorem korbit_get_balances_on_failed_grant :
  forall (now now' : Q) (cs : option (list string)) (self : KorbitAPI.t)
         (net : network) (log : list request),
    KorbitAPI.token_expires_at self <= now ->
    (fails (net KorbitAPI.grant_request) = true ->
     KorbitAPI.get_balances now now' cs self net log
     = (Ok [], self, (log ++ [KorbitAPI.grant_request])%list))
    /\ (forall a kv,
          net KorbitAPI.grant_request = Answered a ->
          fails (Answered a) = false ->
          body a = inr (JDict kv) ->
          Py.assoc "access_token" kv = None ->
          KorbitAPI.get_balances now now' cs self net log
          = (Raise KeyError, self, (log ++ [KorbitAPI.grant_request])%list)).
Proof.
  intros now now' cs self net log L. split.
  - intros F. destruct (korbit_grant_fails now now' self net log L F) as (e & He & E).
    unfold KorbitAPI.get_balances, KorbitAPI.mtry_except, KorbitAPI.mbind,
      KorbitAPI._get_headers, KorbitAPI.mbind.
    rewrite E, He. reflexivity.
  - intros a kv N F B A.
    pose proof (korbit_grant_without_token now now' self net log a kv L N F B A) as E.
    unfold KorbitAPI.get_balances, KorbitAPI.mtry_except, KorbitAPI.mbind,
      KorbitAPI._get_headers, KorbitAPI.mbind.
    rewrite E. reflexivity.
Qed.

(** X20. With a token that has not expired, [KorbitAPI.get_balances]
    sends one request, the one for the balances, and no grant request;
    the session is left as it is; and a balances request that fails (no
    connection, an error status, a body that is not JSON) gives the
    empty dict. *)
Theorem korbit_get_balances_with_cached_token :
  forall (now now' : Q) (cs : option (list string)) (self : KorbitAPI.t)
         (net : network) (log : list request),
    now < KorbitAPI.token_expires_at self ->
    exists r,
      KorbitAPI.get_balances now now' cs self net log
      = (r, self, (log ++ [KorbitAPI.balances_request])%list)
      /\ (fails (net KorbitAPI.balances_request) = true -> r = Ok []).
Proof.
  intros now now' cs self net log L.
  unfold KorbitAPI.get_balances, KorbitAPI.mtry_except. unfold KorbitAPI.mbind at 1.
  rewrite (headers_cached now now' self net log L).
  unfold KorbitAPI.mbind, KorbitAPI.of_io, KorbitAPI.of_result, KorbitAPI.of_io,
    requests_get, send, lift, KorbitAPI.mret.
  fold KorbitAPI.balances_request. unfold fails.
  destruct (net KorbitAPI.balances_request) as [msg|r].
  { cbn. eexists. split; reflexivity. }
  destruct (status_cases (KorbitAPI.BASE_URL ++ "/v1/user/balances") r)
    as [(S & m & E)|(S & E)]; rewrite E, S.
  { cbn. eexists. split; reflexivity. }
  unfold response_json. destruct (body r) as [m|data].
  { cbn. eexists. split; reflexivity. }
  cbn [orb]. destruct (negb (Py.truthy data)).
  { eexists. split; [reflexivity|discriminate]. }
  destruct (KorbitAPI.items data) as [kvs|e]; cbn.
  - destruct (KorbitAPI.build_entries cs kvs []) as [bs|e].
    + eexists. split; [reflexivity|discriminate].
    + destruct (is_RequestException e); eexists; (split; [reflexivity|discriminate]).
  - destruct (is_RequestException e); eexists; (split; [reflexivity|discriminate]).
Qed.

Lemma dict_set_keys {V} k (v : V) d k' :
  In k' (map fst (KorbitAPI.dict_set k v d)) -> k' = k \/ In k' (map fst d).
Proof.
  induction d as [|[k0 v0] t IH]; cbn.
  - intros [<-|[]]. now left.
  - destruct (String.eqb k k0) eqn:E; cbn.
    + apply String.eqb_eq in E. subst k0. intros [<-|Hin]; [now left|right; now right].
    + intros [<-|Hin]; [right; now left|].
      destruct (IH Hin) as [->|Hin']; [now left|right; now right].
Qed.

Lemma dict_set_nodup {V} k (v : V) d :
  NoDup (map fst d) -> NoDup (map fst (KorbitAPI.dict_set k v d)).
Proof.
  induction d as [|[k0 v0] t IH]; cbn; intros N.
  - constructor; [intros []|constructor].
  - inversion N as [|? ? Hnin Nt]; subst.
    destruct (String.eqb k k0) eqn:E; cbn.
    + apply String.eqb_eq in E. subst k0. now constructor.
    + constructor; [|now apply IH].
      intros Hin. destruct (dict_set_keys _ _ _ _ Hin) as [->|Hin'].
      * now rewrite String.eqb_refl in E.
      * contradiction.
Qed.

Lemma dict_set_forall {V} (P : string * V -> Prop) k v d :
  P (k, v) -> Forall P d -> Forall P (KorbitAPI.dict_set k v d).
Proof.
  intros Pk. induction 1 as [|[k0 v0] t Px Pt IH]; cbn.
  - now constructor.
  - destruct (String.eqb k k0); constructor; assumption.
Qed.

Lemma mem_In x l : Str.mem x l = true -> In x l.
Proof.
  unfold Str.mem. intros E. apply existsb_exists in E.
  destruct E as (y & Hin & Ey). apply String.eqb_eq in Ey. now subst.
Qed.

Lemma build_entries_well_formed cs items :
  forall acc out,
    KorbitAPI.well_formed_entries cs acc ->
    KorbitAPI.build_entries cs items acc = Ok out ->
    KorbitAPI.well_formed_entries cs out.
Proof.
  induction items as [|[c b] t IH]; intros acc out W E;
    cbn [KorbitAPI.build_entries] in E.
  - now injection E as <-.
  - destruct (KorbitAPI.build_entry cs (c, b) acc) as [acc'|e] eqn:B; [|discriminate].
    cbn [and_then] in E. apply (IH acc' out); [|exact E].
    revert B. unfold KorbitAPI.build_entry. cbv beta iota zeta.
    destruct (match cs with Some (x :: xs) => negb (Str.mem c (x :: xs)) | _ => false end)
      eqn:Skip; [now intros [= <-]|].
    unfold and_then.
    destruct (Py.get b "available" (JNum 0)) as [a|]; [|discriminate].
    destruct (py_float a) as [a'|]; [|discriminate].
    destruct (Py.get b "trade_in_use" (JNum 0)) as [u|]; [|discriminate].
    destruct (py_float u) as [u'|]; [|discriminate].
    intros [= <-]. destruct W as (Nd & Fa & In').
    split; [now apply dict_set_nodup|]. split.
    + apply dict_set_forall; [now split|exact Fa].
    + intros x xs ->. apply dict_set_forall; [|now apply (In' x xs)].
      cbn [fst]. apply negb_false_iff in Skip. now apply mem_In.
Qed.

Lemma py_float_exn v e : py_float v = Raise e -> is_RequestException e = false.
Proof.
  unfold py_float. destruct v as [|b|q|s|l|kv]; try discriminate; try (now intros [= <-]).
  destruct (float_of_str s); [discriminate|now intros [= <-]].
Qed.

Lemma py_get_exn v k d e : Py.get v k d = Raise e -> is_RequestException e = false.
Proof. destruct v; cbn; try discriminate; now intros [= <-]. Qed.

Lemma build_entry_exn cs kv acc e :
  KorbitAPI.build_entry cs kv acc = Raise e -> is_RequestException e = false.
Proof.
  destruct kv as [c b]. unfold KorbitAPI.build_entry. cbv beta iota zeta.
  destruct (match cs with Some (x :: xs) => negb (Str.mem c (x :: xs)) | _ => false end);
    [discriminate|].
  unfold and_then.
  destruct (Py.get b "available" (JNum 0)) as [a|e1] eqn:G1;
    [|intros [= <-]; now apply (py_get_exn _ _ _ _ G1)].
  destruct (py_float a) as [a'|e1] eqn:F1;
    [|intros [= <-]; now apply (py_float_exn _ _ F1)].
  destruct (Py.get b "trade_in_use" (JNum 0)) as [u|e1] eqn:G2;
    [|intros [= <-]; now apply (py_get_exn _ _ _ _ G2)].
  destruct (py_float u) as [u'|e1] eqn:F2;
    [|intros [= <-]; now apply (py_float_exn _ _ F2)].
  discriminate.
Qed.

Lemma build_entries_exn cs items :
  forall acc e,
    KorbitAPI.build_entries cs items acc = Raise e -> is_RequestException e = false.
Proof.
  induction items as [|kv t IH]; intros acc e E; cbn [KorbitAPI.build_entries] in E.
  - discriminate.
  - destruct (KorbitAPI.build_entry cs kv acc) as [acc'|e1] eqn:B; cbn [and_then] in E.
    + now apply (IH acc').
    + injection E as <-. now apply (build_entry_exn _ _ _ _ B).
Qed.

(** A run of [get_balances] either reaches the loop over the items of
    the payload, and then returns what the loop returns, or ends before
    it, with the empty dict or an exception, whatever was requested. *)
Lemma korbit_get_balances_cases now now' self net log :
  (exists kvs s l,
      forall cs,
        KorbitAPI.get_balances now now' cs self net log
        = (KorbitAPI.build_entries cs kvs [], s, l))
  \/ (exists r s l,
        (r = Ok [] \/ exists e, r = Raise e)
        /\ forall cs, KorbitAPI.get_balances now now' cs self net log = (r, s, l)).
Proof.
  pose (u := KorbitAPI.BASE_URL ++ "/v1/user/balances").
  assert (Run : forall cs,
             KorbitAPI.get_balances now now' cs self net log
             = match KorbitAPI._get_headers now now' self net log with
               | (Raise e, s1, l1) =>
                   if is_RequestException e then (Ok [], s1, l1) else (Raise e, s1, l1)
               | (Ok _, s1, l1) =>
                   match net (mkRequest GET u) with
                   | Unreachable msg => (Ok [], s1, (l1 ++ [mkRequest GET u])%list)
                   | Answered r =>
                       match raise_for_status u r with
                       | Raise e =>
                           if is_RequestException e
                           then (Ok [], s1, (l1 ++ [mkRequest GET u])%list)
                           else (Raise e, s1, (l1 ++ [mkRequest GET u])%list)
                       | Ok _ =>
                           match response_json r with
                           | Raise e =>
                               if is_RequestException e
                               then (Ok [], s1, (l1 ++ [mkRequest GET u])%list)
                               else (Raise e, s1, (l1 ++ [mkRequest GET u])%list)
                           | Ok data =>
                               if negb (Py.truthy data)
                               then (Ok [], s1, (l1 ++ [mkRequest GET u])%list)
                               else
                                 match KorbitAPI.items data with
                                 | Raise e =>
                                     if is_RequestException e
                                     then (Ok [], s1, (l1 ++ [mkRequest GET u])%list)
                                     else (Raise e, s1, (l1 ++ [mkRequest GET u])%list)
                                 | Ok kvs =>
                                     match KorbitAPI.build_entries cs kvs [] with
                                     | Ok bs => (Ok bs, s1, (l1 ++ [mkRequest GET u])%list)
                                     | Raise e =>
                                         if is_RequestException e
                                         then (Ok [], s1, (l1 ++ [mkRequest GET u])%list)
                                         else (Raise e, s1, (l1 ++ [mkRequest GET u])%list)
                                     end
                                 end
                           end
                       end
                   end
               end).
  { intros cs. unfold KorbitAPI.get_balances, KorbitAPI.mtry_except.
    unfold KorbitAPI.mbind at 1.
    destruct (KorbitAPI._get_headers now now' self net log) as [[[h|e] s1] l1];
      [|reflexivity].
    unfold KorbitAPI.mbind, KorbitAPI.of_io, KorbitAPI.of_result, KorbitAPI.of_io,
      requests_get, send, lift, KorbitAPI.mret. fold u.
    destruct (net (mkRequest GET u)) as [msg|r]; [reflexivity|].
    destruct (raise_for_status u r) as [[]|e]; [|reflexivity].
    destruct (response_json r) as [data|e]; [|reflexivity].
    destruct (negb (Py.truthy data)); [reflexivity|].
    destruct (KorbitAPI.items data) as [kvs|e]; [|reflexivity].
    destruct (KorbitAPI.build_entries cs kvs []); reflexivity. }
  destruct (KorbitAPI._get_headers now now' self net log) as [[[h|e] s1] l1].
  2:{ right. destruct (is_RequestException e); do 3 eexists;
        (split; [|exact Run]); eauto. }
  destruct (net (mkRequest GET u)) as [msg|r].
  { right. do 3 eexists. split; [|exact Run]. eauto. }
  destruct (raise_for_status u r) as [[]|e].
  2:{ right. destruct (is_RequestException e); do 3 eexists;
        (split; [|exact Run]); eauto. }
  destruct (response_json r) as [data|e].
  2:{ right. destruct (is_RequestException e); do 3 eexists;
        (split; [|exact Run]); eauto. }
  destruct (negb (Py.truthy data)).
  { right. do 3 eexists. split; [|exact Run]. eauto. }
  destruct (KorbitAPI.items data) as [kvs|e].
  2:{ right. destruct (is_RequestException e); do 3 eexists;
        (split; [|exact Run]); eauto. }
  left. exists kvs. do 2 eexists. intros cs. rewrite Run.
  destruct (KorbitAPI.build_entries cs kvs []) as [bs|e] eqn:B; [reflexivity|].
  now rewrite (build_entries_exn _ _ _ _ B).
Qed.

(** X21. The dict [KorbitAPI.get_balances] returns holds no currency
    twice; every entry is filed under its own currency and its
    [balance] is its [available] plus its [locked]; and when a list of
    currencies that is not empty was requested, every key is one of
    them. *)
Theorem korbit_balances_are_well_formed :
  forall (now now' : Q) (cs : option (list string)) (self self' : KorbitAPI.t)
         (net : network) (log log' : list request)
         (balances : list (string * KorbitAPI.entry)),
    KorbitAPI.get_balances now now' cs self net log = (Ok balances, self', log') ->
    NoDup (map fst balances)
    /\ Forall (fun kv =>
                 KorbitAPI.e_currency (snd kv) = fst kv
                 /\ KorbitAPI.e_balance (snd kv)
                    = KorbitAPI.e_available (snd kv) + KorbitAPI.e_locked (snd kv))
              balances
    /\ (forall x xs, cs = Some (x :: xs) ->
                     Forall (fun kv => In (fst kv) (x :: xs)) balances).
Proof.
  intros now now' cs self self' net log log' balances E.
  assert (W0 : KorbitAPI.well_formed_entries cs []).
  { split; [constructor|]. split; [constructor|]. intros; constructor. }
  destruct (korbit_get_balances_cases now now' self net log)
    as [(kvs & s & l & C)|(r & s & l & [->|(e & ->)] & C)]; rewrite C in E.
  - injection E as B _ _. now apply (build_entries_well_formed cs kvs [] balances W0).
  - injection E as <- _ _. exact W0.
  - discriminate.
Qed.

Lemma dict_lookup_set {V} k (v : V) d : KorbitAPI.dict_lookup k (KorbitAPI.dict_set k v d) = Some v.
Proof.
  induction d as [|[k0 v0] t IH]; cbn.
  - now rewrite String.eqb_refl.
  - destruct (String.eqb k k0) eqn:E; cbn; [now rewrite String.eqb_refl|now rewrite E].
Qed.

Lemma dict_lookup_set_other {V} k k' (v : V) d :
  String.eqb k' k = false ->
  KorbitAPI.dict_lookup k' (KorbitAPI.dict_set k v d) = KorbitAPI.dict_lookup k' d.
Proof.
  intros N. induction d as [|[k0 v0] t IH]; cbn.
  - now rewrite N.
  - destruct (String.eqb k k0) eqn:E; cbn.
    + apply String.eqb_eq in E. subst k0. now rewrite N.
    + now rewrite IH.
Qed.

(** Asking the loop for one currency gives, under that currency, what
    the loop without a request gives. *)
Lemma build_entries_one c items :
  forall acc1 acc2 all,
    KorbitAPI.dict_lookup c acc1 = KorbitAPI.dict_lookup c acc2 ->
    KorbitAPI.build_entries None items acc2 = Ok all ->
    exists one,
      KorbitAPI.build_entries (Some [c]) items acc1 = Ok one
      /\ KorbitAPI.dict_lookup c one = KorbitAPI.dict_lookup c all.
Proof.
  induction items as [|[k b] t IH]; intros acc1 acc2 all L E;
    cbn [KorbitAPI.build_entries] in *.
  - injection E as <-. now exists acc1.
  - destruct (KorbitAPI.build_entry None (k, b) acc2) as [acc2'|e] eqn:B; [|discriminate].
    cbn [and_then] in E. revert B.
    unfold KorbitAPI.build_entry. cbv beta iota zeta. unfold Str.mem. cbn [existsb].
    rewrite orb_false_r. unfold and_then.
    destruct (Py.get b "available" (JNum 0)) as [a|]; [|discriminate].
    destruct (py_float a) as [a'|]; [|discriminate].
    destruct (Py.get b "trade_in_use" (JNum 0)) as [u|]; [|discriminate].
    destruct (py_float u) as [u'|]; [|discriminate].
    intros [= <-].
    destruct (String.eqb k c) eqn:K; cbn [negb and_then].
    + apply String.eqb_eq in K. subst k.
      eapply IH; [|exact E]. now rewrite !dict_lookup_set.
    + eapply IH; [|exact E].
      rewrite dict_lookup_set_other; [exact L|].
      rewrite String.eqb_sym. exact K.
Qed.

(** X22. [KorbitAPI.get_balance_by_currency] agrees with
    [get_balances]: whenever the balances without a request are
    returned, the lookup of one currency returns the entry they hold
    under that currency ([None] when they hold none), with the same
    requests sent and the session left in the same state. *)
Theorem korbit_balance_by_currency_is_lookup :
  forall (now now' : Q) (c : string) (self self' : KorbitAPI.t)
         (net : network) (log log' : list request)
         (balances : list (string * KorbitAPI.entry)),
    KorbitAPI.get_balances now now' None self net log = (Ok balances, self', log') ->
    KorbitAPI.get_balance_by_currency now now' c self net log
    = (Ok (KorbitAPI.dict_lookup c balances), self', log').
Proof.
  intros now now' c self self' net log log' balances E.
  unfold KorbitAPI.get_balance_by_currency, KorbitAPI.mbind.
  destruct (korbit_get_balances_cases now now' self net log)
    as [(kvs & s & l & C)|(r & s & l & [->|(e & ->)] & C)];
    rewrite C in E; rewrite C.
  - injection E as B <- <-.
    destruct (build_entries_one c kvs [] [] balances eq_refl B) as (one & O & L).
    rewrite O. unfold KorbitAPI.mret. now rewrite L.
  - now injection E as <- <- <-.
  - discriminate.
Qed.

End Korbit.

(** ** Held balances, from the account payloads *)




Section HeldBalances.
Context `{PyRuntime}.










End HeldBalances.



(** ** The portfolio of real_folio.py *)

Lemma split_on_not_nil sep s : PortfolioManager.split_on sep s <> [].
Proof.
  destruct s as [|c t]; cbn [PortfolioManager.split_on]; [discriminate|].
  destruct (Ascii.eqb c sep); [discriminate|].
  destruct (PortfolioManager.split_on sep t); discriminate.
Qed.

Lemma crypto_prefix key :
  String.prefix "CRYPTO_" key = true -> exists rest, key = ("CRYPTO_" ++ rest)%string.
Proof.
  intros P.
  do 7 (destruct key as [|? key]; [discriminate|];
        cbn [String.prefix] in P;
        match type of P with
        | (if ?d then _ else _) = true => destruct d as [<-|]; [|discriminate]
        end).
  now exists key.
Qed.

Lemma crypto_prefix_true rest : String.prefix "CRYPTO_" ("CRYPTO_" ++ rest) = true.
Proof.
  cbn [String.append String.prefix].
  repeat match goal with
         | |- (if ?d then _ else _) = true => destruct d as [_|N]; [|now elim N]
         end.
  now destruct rest.
Qed.

(** The piece a key gives the symbol: what stands between the first
    underscore and the next. *)
Lemma item1_of_crypto_key rest :
  PortfolioManager.item1 (PortfolioManager.split_on "_" ("CRYPTO_" ++ rest))
  = Ok (hd ""%string (PortfolioManager.split_on "_" rest)).
Proof.
  pose proof (split_on_not_nil "_" rest) as N.
  cbn [String.append PortfolioManager.split_on Ascii.eqb Bool.eqb].
  destruct (PortfolioManager.split_on "_" rest) as [|p ps]; [now elim N|].
  reflexivity.
Qed.

Lemma row_insert_desc_perm x l : Permutation (PortfolioManager.insert_desc x l) (x :: l).
Proof.
  induction l as [|y t IH]; cbn [PortfolioManager.insert_desc]; [reflexivity|].
  destruct (Qle_bool _ _); [reflexivity|].
  rewrite IH. apply perm_swap.
Qed.

Lemma row_sort_desc_perm l : Permutation (PortfolioManager.sort_desc l) l.
Proof.
  induction l as [|x t IH]; cbn; [constructor|].
  fold (PortfolioManager.sort_desc t). rewrite row_insert_desc_perm. now constructor.
Qed.

Lemma row_insert_desc_sorted x l :
  Sorted PortfolioManager.desc l -> Sorted PortfolioManager.desc (PortfolioManager.insert_desc x l).
Proof.
  induction 1 as [|y t St IH Hd]; cbn [PortfolioManager.insert_desc].
  - repeat constructor.
  - destruct (Qle_bool (PortfolioManager.Row.total_krw y) (PortfolioManager.Row.total_krw x)) eqn:E.
    + constructor; [now constructor|]. constructor. now apply Qle_bool_iff.
    + assert (Hxy : PortfolioManager.desc y x).
      { unfold PortfolioManager.desc. apply Qlt_le_weak. apply Qnot_le_lt. intros L.
        apply Qle_bool_iff in L. congruence. }
      constructor; [exact IH|].
      destruct t as [|z t']; cbn [PortfolioManager.insert_desc].
      * now constructor.
      * destruct (Qle_bool (PortfolioManager.Row.total_krw z) (PortfolioManager.Row.total_krw x));
          constructor; [exact Hxy|now inversion Hd].
Qed.

Lemma row_sort_desc_strongly_sorted l :
  StronglySorted PortfolioManager.desc (PortfolioManager.sort_desc l).
Proof.
  apply Sorted_StronglySorted.
  - intros a b c Hab Hbc. unfold PortfolioManager.desc in *.
    now apply Qle_trans with (PortfolioManager.Row.total_krw b).
  - induction l as [|x t IH]; cbn; [constructor|].
    now apply row_insert_desc_sorted.
Qed.

Lemma sum_totals_perm l l' :
  Permutation l l' -> PortfolioManager.sum_totals l == PortfolioManager.sum_totals l'.
Proof.
  induction 1 as [|x l l' P IH|x y l|l l' l'' P1 IH1 P2 IH2];
    cbn [PortfolioManager.sum_totals fold_right].
  - reflexivity.
  - fold (PortfolioManager.sum_totals l). fold (PortfolioManager.sum_totals l').
    now rewrite IH.
  - ring.
  - now rewrite IH1.
Qed.

Section Portfolio.
Context `{PyRuntime}.

(** X23. [PortfolioManager.load_holdings] never raises, whatever the
    environment holds: a key that starts with [CRYPTO_] always has a
    second piece.  The holdings it loads are those of the entries
    [CRYPTO_<rest>] whose value [float] accepts, and no others; the
    symbol of such a holding is the lower case of [rest] up to its first
    underscore, so a name with an underscore in it is cut there. *)
Theorem load_holdings_reads_crypto_entries :
  forall environ : list (string * string),
  exists holdings : list PortfolioManager.CryptoHolding,
    PortfolioManager.load_holdings environ = Ok holdings
    /\ (List.length holdings <= List.length environ)%nat
    /\ (forall h, In h holdings ->
          exists rest value,
            In (("CRYPTO_" ++ rest)%string, value) environ
            /\ PortfolioManager.symbol h
               = Str.lower (hd ""%string (PortfolioManager.split_on "_" rest))
            /\ float_of_str value = Some (PortfolioManager.amount h))
    /\ (forall rest value amount,
          In (("CRYPTO_" ++ rest)%string, value) environ ->
          float_of_str value = Some amount ->
          In (PortfolioManager.mkHolding
                (Str.lower (hd ""%string (PortfolioManager.split_on "_" rest))) amount)
             holdings).
Proof.
  induction environ as [|[key value] rest IH].
  - exists []. cbn. repeat split; try lia; intros; contradiction.
  - destruct IH as (hs & L & Len & Sound & Complete).
    cbn [PortfolioManager.load_holdings].
    destruct (String.prefix "CRYPTO_" key) eqn:P.
    + destruct (crypto_prefix key P) as (r & ->).
      rewrite item1_of_crypto_key. cbn [and_then].
      destruct (float_of_str value) as [q|] eqn:F.
      * rewrite L. cbn [and_then]. eexists. split; [reflexivity|].
        split; [cbn [List.length]; lia|]. split.
        -- intros h [<-|Hin].
           ++ exists r, value. cbn. auto.
           ++ destruct (Sound h Hin) as (r' & v' & I & S & A).
              exists r', v'. split; [now right|auto].
        -- intros r' v' a [E|Hin] Fa.
           ++ injection E as <- <-.
              rewrite F in Fa. injection Fa as <-. now left.
           ++ right. eapply Complete; eauto.
      * exists hs. split; [exact L|]. split; [cbn [List.length]; lia|]. split.
        -- intros h Hin. destruct (Sound h Hin) as (r' & v' & I & S & A).
           exists r', v'. split; [now right|auto].
        -- intros r' v' a [E|Hin] Fa.
           ++ injection E as E1 <-. congruence.
           ++ eapply Complete; eauto.
    + exists hs. split; [exact L|]. split; [cbn [List.length]; lia|]. split.
      * intros h Hin. destruct (Sound h Hin) as (r' & v' & I & S & A).
        exists r', v'. split; [now right|auto].
      * intros r' v' a [E|Hin] Fa.
        -- apply (f_equal fst) in E. cbn [fst] in E. subst key.
           rewrite crypto_prefix_true in P. discriminate.
        -- eapply Complete; eauto.
Qed.

Lemma price_make_request_log_free u : log_free (PriceAPI._make_request u).
Proof. unfold PriceAPI._make_request. log_free_tac. Qed.

Lemma get_first_valid_price_log_free symbol :
  log_free (PriceAPI.get_first_valid_price symbol).
Proof.
  unfold PriceAPI.get_first_valid_price, PriceAPI.exchanges.
  cbn [PriceAPI.first_valid_loop].
  unfold PriceAPI.get_upbit_price, PriceAPI.get_bithumb_price,
    PriceAPI.get_coinone_price, PriceAPI.get_coingecko_price.
  log_free_tac; apply price_make_request_log_free.
Qed.

Lemma holdings_loop_log_free holdings :
  forall total_value, log_free (PortfolioManager.holdings_loop holdings total_value).
Proof.
  induction holdings as [|h t IH]; intros v; cbn [PortfolioManager.holdings_loop].
  - apply log_free_ret.
  - apply log_free_bind; [apply get_first_valid_price_log_free|]. intros pe.
    cbv zeta. apply log_free_bind; [apply IH|]. intros rt. apply log_free_ret.
Qed.

(** The loop over the holdings, when every price lookup returns: a row
    for each holding, in their order, and the sum of their totals. *)
Lemma holdings_loop_returns (quote : PortfolioManager.CryptoHolding -> Q * string) net holdings :
  (forall h, In h holdings ->
     run (PriceAPI.get_first_valid_price (PortfolioManager.symbol h)) net = Ok (quote h)) ->
  forall total_value log,
  exists v log',
    PortfolioManager.holdings_loop holdings total_value net log
    = (Ok (map (fun h => PortfolioManager.row_of h (fst (quote h)) (snd (quote h))) holdings, v),
       log')
    /\ v == total_value
            + PortfolioManager.sum_totals
                (map (fun h => PortfolioManager.row_of h (fst (quote h)) (snd (quote h)))
                     holdings).
Proof.
  induction holdings as [|h t IH]; intros Hq v log; cbn [PortfolioManager.holdings_loop map].
  - exists v, log. split; [reflexivity|].
    cbn [map PortfolioManager.sum_totals fold_right]. ring.
  - destruct (from_run _ net log _ (get_first_valid_price_log_free _) (Hq h (or_introl eq_refl)))
      as (l1 & E1).
    rewrite (bind_ok _ _ _ _ _ _ E1). cbv zeta.
    destruct (IH (fun h' I => Hq h' (or_intror I))
                 (v + fst (quote h) * PortfolioManager.amount h) l1)
      as (v' & l2 & E2 & S).
    rewrite (bind_ok _ _ _ _ _ _ E2). cbn [fst snd].
    exists v', l2. split; [reflexivity|].
    rewrite S. unfold PortfolioManager.sum_totals.
    cbn [map fold_right PortfolioManager.row_of PortfolioManager.Row.total_krw].
    ring.
Qed.

(** X24. Without a holding to price, [calculate_portfolio] raises:
    when no [CRYPTO_] entry of the environment has an amount that
    [float] accepts, [load_holdings] loads nothing, and the frame built
    from no row has no column [total_krw] to sort by, so [KeyError]
    leaves the method before any request is sent. *)
Theorem portfolio_without_holdings_raises :
  forall (environ : list (string * string)) (net : network) (log : list request),
    (forall key value, In (key, value) environ ->
       String.prefix "CRYPTO_" key = true -> float_of_str value = None) ->
    PortfolioManager.load_holdings environ = Ok []
    /\ PortfolioManager.calculate_portfolio [] net log = (Raise KeyError, log).
Proof.
  intros environ net log Hno. split; [|reflexivity].
  induction environ as [|[key value] rest IH]; [reflexivity|].
  cbn [PortfolioManager.load_holdings].
  assert (R : PortfolioManager.load_holdings rest = Ok []).
  { apply IH. intros k v I. apply Hno. now right. }
  destruct (String.prefix "CRYPTO_" key) eqn:P; [|exact R].
  destruct (crypto_prefix key P) as (r & ->).
  rewrite item1_of_crypto_key. cbn [and_then].
  rewrite (Hno _ value (or_introl eq_refl) P). exact R.
Qed.

(** X25. With at least one holding, and every price lookup returning,
    [calculate_portfolio] returns one row for each holding and the row
    [TOTAL] after them.  The rows of the holdings are those the lookups
    give (symbol in upper case, amount, price, source, price times
    amount), ordered by that product, largest first; the amount of the
    row [TOTAL] is the sum of theirs.  A holding for which no source had
    a price keeps its row, with price and total zero. *)
Theorem portfolio_rows_and_total :
  forall (quote : PortfolioManager.CryptoHolding -> Q * string)
         (holdings : list PortfolioManager.CryptoHolding)
         (net : network) (log : list request),
    holdings <> [] ->
    (forall h, In h holdings ->
       run (PriceAPI.get_first_valid_price (PortfolioManager.symbol h)) net = Ok (quote h)) ->
    exists (data : list PortfolioManager.Row.t) (total_value : Q) (log' : list request),
      PortfolioManager.calculate_portfolio holdings net log
      = (Ok (data ++ [PortfolioManager.total_row total_value])%list, log')
      /\ Permutation data
           (map (fun h => PortfolioManager.row_of h (fst (quote h)) (snd (quote h))) holdings)
      /\ StronglySorted PortfolioManager.desc data
      /\ total_value == PortfolioManager.sum_totals data
      /\ (forall h, In h holdings -> quote h = PriceResolver.sentinel ->
            exists r, In r data
              /\ PortfolioManager.Row.symbol r = Str.upper (PortfolioManager.symbol h)
              /\ PortfolioManager.Row.exchange r = Some "No valid price found"%string
              /\ PortfolioManager.Row.total_krw r == 0).
Proof.
  intros quote holdings net log NE Hq.
  destruct (holdings_loop_returns quote net holdings Hq 0 log) as (v & l1 & E & S).
  set (rows := map (fun h => PortfolioManager.row_of h (fst (quote h)) (snd (quote h))) holdings)
    in *.
  exists (PortfolioManager.sort_desc rows), v, l1.
  assert (P : Permutation (PortfolioManager.sort_desc rows) rows)
    by apply row_sort_desc_perm.
  split.
  - unfold PortfolioManager.calculate_portfolio.
    rewrite (bind_ok _ _ _ _ _ _ E). cbn [fst snd].
    unfold PortfolioManager.sort_values_total_krw.
    destruct rows as [|r rs] eqn:R.
    + destruct holdings; [now elim NE|discriminate].
    + reflexivity.
  - split; [exact P|]. split; [apply row_sort_desc_strongly_sorted|]. split.
    + rewrite S, (sum_totals_perm _ _ P). ring.
    + intros h I Z.
      exists (PortfolioManager.row_of h (fst (quote h)) (snd (quote h))). split.
      * apply (Permutation_in _ (Permutation_sym P)). unfold rows.
        apply (in_map (fun h => PortfolioManager.row_of h (fst (quote h)) (snd (quote h)))).
        exact I.
      * rewrite Z. cbn. split; [reflexivity|]. split; [reflexivity|]. ring.
Qed.

End Portfolio.

(** ** The aggregation when every report returns *)

Lemma mem_app_l c a b : Str.mem c a = true -> Str.mem c (a ++ b)%list = true.
Proof. unfold Str.mem. rewrite existsb_app. now intros ->. Qed.

Lemma mem_union_l c b : forall a, Str.mem c a = true -> Str.mem c (pd.union_columns a b) = true.
Proof.
  induction b as [|x t IH]; intros a M; cbn [pd.union_columns]; [exact M|].
  apply IH. destruct (Str.mem x a); [exact M|now apply mem_app_l].
Qed.

Lemma mem_union_r c b : forall a, Str.mem c b = true -> Str.mem c (pd.union_columns a b) = true.
Proof.
  induction b as [|x t IH]; intros a M; cbn [pd.union_columns]; [discriminate|].
  unfold Str.mem in M. cbn [existsb] in M. apply orb_true_iff in M as [E|M].
  - apply mem_union_l. apply String.eqb_eq in E. subst x.
    destruct (Str.mem c a) eqn:A; [exact A|].
    unfold Str.mem. rewrite existsb_app. cbn [existsb].
    now rewrite String.eqb_refl, orb_true_r.
  - now apply IH.
Qed.

Lemma set_exchange_keeps_total name df :
  Str.mem "total" (pd.columns df) = true ->
  Str.mem "total" (pd.columns (pd.set_exchange name df)) = true.
Proof.
  intros M. unfold pd.set_exchange. cbn [pd.columns].
  destruct (Str.mem "exchange" (pd.columns df)); [exact M|now apply mem_app_l].
Qed.

Lemma collect_returns c name dfs net log df log1 :
  Aggregator.get_report_with_nonzero_balances c net log = (Ok df, log1) ->
  Aggregator.collect c name dfs net log
  = (Ok (dfs ++ (if pd.empty df then [] else [pd.set_exchange name df]))%list, log1).
Proof.
  intros E. unfold Aggregator.collect. rewrite (bind_ok _ _ _ _ _ _ E).
  destruct (pd.empty df); cbn [negb]; [now rewrite app_nil_r|reflexivity].
Qed.

Lemma tagged_rows name df :
  Aggregator.tagged name df
  = List.concat (map pd.rows (if pd.empty df then [] else [pd.set_exchange name df])).
Proof.
  unfold Aggregator.tagged. destruct (pd.empty df); cbn [map List.concat]; [reflexivity|].
  now rewrite app_nil_r.
Qed.

Lemma tagged_exchange name df r :
  In r (Aggregator.tagged name df) -> Report.exchange r = Some name.
Proof.
  unfold Aggregator.tagged, pd.set_exchange. destruct (pd.empty df); [intros []|].
  cbn [pd.rows]. intros I. apply in_map_iff in I as (r0 & <- & _). reflexivity.
Qed.

(** A list of frames with the column [total] in each has it in their
    union, unless it is empty. *)
Lemma concat_has_total dfs :
  dfs <> [] ->
  Forall (fun d => Str.mem "total" (pd.columns d) = true) dfs ->
  Str.mem "total" (pd.columns (pd.concat dfs)) = true.
Proof.
  intros NE F. unfold pd.concat. cbn [pd.columns].
  destruct dfs as [|d t]; [now elim NE|].
  cbn [map fold_left]. inversion F as [|? ? Hd Ht]; subst. clear F NE.
  assert (G : forall t acc, Str.mem "total" acc = true ->
                Str.mem "total" (fold_left pd.union_columns (map pd.columns t) acc) = true).
  { clear. induction t as [|d t IH]; intros acc M; cbn [map fold_left]; [exact M|].
    apply IH. now apply mem_union_l. }
  apply G. now apply mem_union_r.
Qed.

(** X26. When the four reports return, and each one that is not empty
    has the column [total], [Aggregator.get_report] returns a frame
    whose rows are those of the reports that are not empty, each under
    the name of its exchange, ordered by [total], largest first, across
    the exchanges; the requests are those of the four reports.  An
    empty report brings nothing, and with four empty reports the frame
    has no column. *)
Theorem aggregator_merges_and_sorts :
  forall (self : Aggregator.t) (net : network)
         (log l1 l2 l3 l4 : list request) (d1 d2 d3 d4 : pd.DataFrame),
    Aggregator.get_report_with_nonzero_balances (Aggregator.bithumb self) net log = (Ok d1, l1) ->
    Aggregator.get_report_with_nonzero_balances (Aggregator.coinone self) net l1 = (Ok d2, l2) ->
    Aggregator.get_report_with_nonzero_balances (Aggregator.korbit self) net l2 = (Ok d3, l3) ->
    Aggregator.get_report_with_nonzero_balances (Aggregator.upbit self) net l3 = (Ok d4, l4) ->
    (forall d, In d [d1; d2; d3; d4] ->
       pd.empty d = false -> Str.mem "total" (pd.columns d) = true) ->
    exists df : pd.DataFrame,
      Aggregator.get_report self net log = (Ok df, l4)
      /\ Permutation (pd.rows df)
           (Aggregator.tagged "Bithumb" d1 ++ Aggregator.tagged "Coinone" d2
            ++ Aggregator.tagged "Korbit" d3 ++ Aggregator.tagged "Upbit" d4)%list
      /\ StronglySorted pd.desc (pd.rows df)
      /\ (forall r, In r (pd.rows df) ->
            exists name, In name ["Bithumb"; "Coinone"; "Korbit"; "Upbit"]%string
                         /\ Report.exchange r = Some name)
      /\ (pd.rows df = [] -> pd.columns df = []).
Proof.
  intros self net log l1 l2 l3 l4 d1 d2 d3 d4 E1 E2 E3 E4 T.
  set (part := fun (name : string) (d : pd.DataFrame) =>
                 if pd.empty d then [] else [pd.set_exchange name d]).
  set (dfs := (part "Bithumb"%string d1 ++ part "Coinone"%string d2
               ++ part "Korbit"%string d3 ++ part "Upbit"%string d4)%list).
  assert (Rows : List.concat (map pd.rows dfs)
                 = (Aggregator.tagged "Bithumb" d1 ++ Aggregator.tagged "Coinone" d2
                    ++ Aggregator.tagged "Korbit" d3 ++ Aggregator.tagged "Upbit" d4)%list).
  { unfold dfs. rewrite !map_app, !concat_app, !tagged_rows. reflexivity. }
  assert (Tags : forall r, In r (List.concat (map pd.rows dfs)) ->
            exists name, In name ["Bithumb"; "Coinone"; "Korbit"; "Upbit"]%string
                         /\ Report.exchange r = Some name).
  { intros r I. rewrite Rows in I.
    repeat (apply in_app_or in I as [I|I]);
      apply tagged_exchange in I; eexists; (split; [|exact I]); cbn; auto. }
  assert (Tot : Forall (fun d => Str.mem "total" (pd.columns d) = true) dfs).
  { unfold dfs, part.
    apply Forall_app; split; [|apply Forall_app; split; [|apply Forall_app; split]];
      match goal with
      | |- Forall _ (if pd.empty ?d then _ else _) =>
          destruct (pd.empty d) eqn:Em; constructor; [|constructor];
          apply set_exchange_keeps_total, T; [cbn; auto|exact Em]
      end. }
  assert (Run : forall catches h,
            try_except
              (dfs <- Aggregator.collect (Aggregator.bithumb self) "Bithumb" [] ;;
               dfs <- Aggregator.collect (Aggregator.coinone self) "Coinone" dfs ;;
               dfs <- Aggregator.collect (Aggregator.korbit self) "Korbit" dfs ;;
               dfs <- Aggregator.collect (Aggregator.upbit self) "Upbit" dfs ;;
               match dfs with
               | [] => ret (pd.of_records [])
               | _ => lift (pd.sort_values_total (pd.concat dfs))
               end)%io catches h net log
            = (match dfs with
               | [] => Ok (pd.of_records [])
               | _ => Ok (pd.mkDataFrame (pd.columns (pd.concat dfs))
                            (pd.sort_desc (pd.rows (pd.concat dfs))))
               end, l4)).
  { intros catches h. unfold try_except.
    rewrite (bind_ok _ _ _ _ _ _ (collect_returns _ "Bithumb" [] _ _ _ _ E1)).
    rewrite (bind_ok _ _ _ _ _ _ (collect_returns _ "Coinone" _ _ _ _ _ E2)).
    rewrite (bind_ok _ _ _ _ _ _ (collect_returns _ "Korbit" _ _ _ _ _ E3)).
    rewrite (bind_ok _ _ _ _ _ _ (collect_returns _ "Upbit" _ _ _ _ _ E4)).
    cbn [app]. rewrite <- !app_assoc. fold (part "Bithumb"%string d1).
    fold (part "Coinone"%string d2). fold (part "Korbit"%string d3).
    fold (part "Upbit"%string d4). fold dfs.
    destruct dfs as [|d t] eqn:D; [reflexivity|].
    unfold lift, pd.sort_values_total.
    rewrite (concat_has_total (d :: t)); [reflexivity|discriminate|exact Tot]. }
  unfold Aggregator.get_report. rewrite Run.
  destruct dfs as [|d t] eqn:D.
  - exists (pd.of_records []). split; [reflexivity|].
    cbn [pd.of_records pd.rows pd.columns]. rewrite <- Rows. cbn [map List.concat].
    repeat split; try constructor. intros r [].
  - eexists. split; [reflexivity|]. cbn [pd.rows pd.columns].
    unfold pd.concat. cbn [pd.rows pd.columns]. rewrite <- Rows.
    split; [apply sort_desc_perm|]. split; [apply sort_desc_strongly_sorted|]. split.
    + intros r I. apply Tags. apply (Permutation_in _ (sort_desc_perm _)). exact I.
    + intros Z. exfalso.
      assert (L : List.length (pd.sort_desc (List.concat (map pd.rows (d :: t)))) = 0%nat)
        by now rewrite Z.
      rewrite sort_desc_length in L.
      assert (NEr : pd.rows d <> []).
      { assert (I : In d dfs) by (rewrite D; now left).
        unfold dfs, part in I.
        repeat (apply in_app_or in I as [I|I]);
          match type of I with
          | In _ (if pd.empty ?x then _ else _) =>
              destruct (pd.empty x) eqn:Em; [destruct I|];
              destruct I as [<-|[]]; unfold pd.set_exchange; cbn [pd.rows];
              unfold pd.empty in Em; destruct (pd.rows x); [discriminate|discriminate]
          end. }
      cbn [map List.concat] in L. rewrite length_app in L.
      destruct (pd.rows d); [now elim NEr|cbn in L; lia].
Qed.


(* ================================================================== *)
(** * The further properties on the example networks *)

(** An address that cannot be reached gives a text, not an exception. *)
Lemma make_request_catches_request_failures_witness :
  exists msg,
    fst (PriceAPI._make_request "https://api.upbit.com/v1/ticker?markets=KRW-BTC"
                                (Example.offline "down") [])
    = Ok (JStr ("Error: " ++ msg)).
Proof.
  apply (proj1 (proj2 (make_request_catches_request_failures
                         "https://api.upbit.com/v1/ticker?markets=KRW-BTC"
                         (Example.offline "down") []))).
  reflexivity.
Defined.

(** The quote of Bithumb for the coin only Bithumb lists. *)
Lemma quotes_are_named_and_errors_are_zero_witness :
  PriceAPI.exchange (PriceAPI.mkExchangePrice "Bithumb" 250 None) = "Bithumb"
  /\ (PriceAPI.error (PriceAPI.mkExchangePrice "Bithumb" 250 None) <> None ->
      PriceAPI.price (PriceAPI.mkExchangePrice "Bithumb" 250 None) = 0).
Proof.
  apply (@quotes_are_named_and_errors_are_zero Example.runtime
           (@PriceAPI.get_bithumb_price Example.runtime) "Bithumb"
           (or_intror (or_introl eq_refl))
           "argo" Example.only_bithumb_lists_argo []
           (PriceAPI.mkExchangePrice "Bithumb" 250 None)
           [mkRequest GET "https://api.bithumb.com/public/ticker/argo_KRW"]).
  vm_compute; reflexivity.
Defined.

(** Where only Bithumb lists the coin, two of the four ticker requests
    go out. *)
Lemma cascade_requests_are_a_prefix_witness :
  exists n,
    (1 <= n <= 4)%nat
    /\ snd (@PriceAPI.get_first_valid_price Example.runtime "argo"
              Example.only_bithumb_lists_argo [])
       = ([] ++ firstn n (PriceResolver.ticker_requests "argo"))%list.
Proof.
  apply (@cascade_requests_are_a_prefix Example.runtime "argo"
           Example.only_bithumb_lists_argo []).
  reflexivity.
Defined.

Lemma cascade_degrades_to_sentinel_witness :
  @PriceAPI.get_first_valid_price Example.runtime "btc" (Example.offline "down") []
  = (Ok (0, "No valid price found"), ([] ++ PriceResolver.ticker_requests "btc")%list).
Proof.
  apply (@cascade_degrades_to_sentinel Example.runtime "btc" (Example.offline "down") []).
  - reflexivity.
  - repeat constructor.
Defined.

Lemma cascade_raises_on_object_payload_witness :
  @PriceAPI.get_first_valid_price Example.runtime "btc" Example.upbit_object []
  = (Raise KeyError,
     ([] ++ [mkRequest GET ("https://api.upbit.com/v1/ticker?markets=KRW-"
                            ++ Str.upper "btc")])%list).
Proof.
  apply (@cascade_raises_on_object_payload Example.runtime "btc" Example.upbit_object []
           (mkResponse 200 "OK"
              (inr (JDict [("error", JDict [("name", JStr "too_many_requests")])])))
           ("error", JDict [("name", JStr "too_many_requests")]) []);
    reflexivity.
Defined.

(** The method [get], in lower case, is sent as a GET; the account of
    the example decodes. *)
Lemma bithumb_request_catches_request_failures_witness :
  fst (BithumbAPI._request "get" "/v1/accounts" (Example.offline "down") []) = Ok (JList [])
  /\ fst (BithumbAPI._request "get" "/v1/accounts" Example.krw_then_btc [])
     = Ok (JList [ JDict [("currency", JStr "KRW"); ("balance", JStr "50"); ("locked", JStr "0")];
                   JDict [("currency", JStr "BTC"); ("balance", JStr "1"); ("locked", JStr "0")] ]).
Proof.
  split.
  - apply (proj1 (proj2 (bithumb_request_catches_request_failures
                           "get" "/v1/accounts" (Example.offline "down") []))).
    reflexivity.
  - apply (proj2 (proj2 (bithumb_request_catches_request_failures
                           "get" "/v1/accounts" Example.krw_then_btc []))
                 (mkResponse 200 "OK"
                    (inr (JList [ JDict [("currency", JStr "KRW"); ("balance", JStr "50"); ("locked", JStr "0")];
                                  JDict [("currency", JStr "BTC"); ("balance", JStr "1"); ("locked", JStr "0")] ]))));
      reflexivity.
Defined.

Lemma bithumb_degrades_when_accounts_fail_witness :
  @BithumbAPI.get_balances Example.runtime (Some ["BTC"; "ETH"]) (Example.offline "down") []
  = (Ok (map (fun c => mkBalance (JStr c) 0) ["BTC"; "ETH"]),
     ([] ++ [BithumbAPI.accounts_request])%list)
  /\ @BithumbAPI.get_nonzero_balances Example.runtime (Example.offline "down") []
     = (Ok [], ([] ++ [BithumbAPI.accounts_request])%list)
  /\ @BithumbAPI.get_report_with_nonzero_balances Example.runtime (Example.offline "down") []
     = (Ok (pd.of_columns pd.report_columns),
        ([] ++ [BithumbAPI.accounts_request; BithumbAPI.accounts_request])%list).
Proof.
  apply (@bithumb_degrades_when_accounts_fail Example.runtime (Example.offline "down") []
           ["BTC"; "ETH"]).
  reflexivity.
Defined.

(** A ticker that knows the coin and has no closing price. *)
Lemma bithumb_price_outcomes_witness :
  fst (@BithumbAPI.get_price_by_currency Example.runtime (JStr "BTC")
         Example.bithumb_null_price [])
  = Raise TypeError.
Proof.
  apply (proj2 (proj2 (@bithumb_price_outcomes Example.runtime (JStr "BTC")
                         Example.bithumb_null_price []))
               (mkResponse 200 "OK"
                  (inr (JDict [("status", JStr "0000");
                               ("data", JDict [("closing_price", JNull)])])))
               [("status", JStr "0000"); ("data", JDict [("closing_price", JNull)])]
               [("closing_price", JNull)]);
    reflexivity.
Defined.

Lemma bithumb_report_follows_nonzero_balances_witness :
  exists df log',
    @BithumbAPI.get_report_with_nonzero_balances Example.runtime Example.krw_then_btc []
    = (Ok df, log')
    /\ Forall2 (fun a r =>
                  Report.currency r = currency a
                  /\ @BithumbAPI.unit_price Example.runtime Example.krw_then_btc (currency a)
                     = Ok (Report.price r)
                  /\ Report.total r = Report.balance r * Report.price r)
               [mkBalance (JStr "KRW") 50; Example.btc_balance] (pd.rows df).
Proof.
  apply (@bithumb_report_follows_nonzero_balances Example.runtime Example.krw_then_btc []
           [mkRequest GET "https://api.bithumb.com/v1/accounts"]).
  - vm_compute; reflexivity.
  - repeat constructor; eexists; vm_compute; reflexivity.
Defined.

Lemma bithumb_balance_by_currency_witness :
  exists d : json,
    @BithumbAPI.get_balance_by_currency Example.runtime "BTC" Example.krw_then_btc []
    = (Ok d, [mkRequest GET "https://api.bithumb.com/v1/accounts"])
    /\ Py.getitem d "currency" = Ok (JStr "BTC")
    /\ ((exists a,
           BithumbAPI.find_account [mkBalance (JStr "KRW") 50; Example.btc_balance] "BTC"
           = Some a
           /\ 0 < balance a /\ d = BithumbAPI.to_dict a)
        \/ ((forall a,
               BithumbAPI.find_account [mkBalance (JStr "KRW") 50; Example.btc_balance] "BTC"
               = Some a -> balance a <= 0)
            /\ Py.getitem d "balance" = Ok (JStr "0"))).
Proof.
  apply (@bithumb_balance_by_currency Example.runtime "BTC" Example.krw_then_btc []).
  vm_compute; reflexivity.
Defined.

(** An answer under the status 204 is not read. *)
Lemma upbit_status_and_transport_witness :
  @UpbitAPI.get_balances Example.runtime None
     (Example.always (Answered (mkResponse 204 "No Content" (inr (JList [Example.upbit_btc])))))
     []
  = (Ok [], ([] ++ [UpbitAPI.accounts_request])%list)
  /\ @UpbitAPI.get_balance_by_currency Example.runtime "BTC"
       (Example.always (Answered (mkResponse 204 "No Content" (inr (JList [Example.upbit_btc])))))
       []
     = (Ok None, ([] ++ [UpbitAPI.accounts_request])%list)
  /\ @UpbitAPI.get_nonzero_balances Example.runtime
       (Example.always (Answered (mkResponse 204 "No Content" (inr (JList [Example.upbit_btc])))))
       []
     = (Ok [], ([] ++ [UpbitAPI.accounts_request])%list).
Proof.
  apply (proj1 (@upbit_status_and_transport Example.runtime
                  (Example.always
                     (Answered (mkResponse 204 "No Content" (inr (JList [Example.upbit_btc])))))
                  [] None "BTC")
               (mkResponse 204 "No Content" (inr (JList [Example.upbit_btc])))).
  - reflexivity.
  - cbn. lia.
Defined.

Lemma upbit_balance_by_currency_is_first_match_witness :
  @UpbitAPI.get_balance_by_currency Example.runtime "ETHW" Example.upbit_btc_ethw []
  = (Ok (find (fun e => Py.eq_str (UpbitAPI.currency_of e) "ETHW")
              [Example.upbit_btc; Example.upbit_ethw]),
     [mkRequest GET "https://api.upbit.com/v1/accounts"]).
Proof.
  apply (@upbit_balance_by_currency_is_first_match Example.runtime "ETHW"
           Example.upbit_btc_ethw []).
  - vm_compute; reflexivity.
  - repeat constructor; eexists; reflexivity.
Defined.

Lemma coinone_balance_by_currency_is_first_match_witness :
  @CoinoneAPI.get_balance_by_currency Example.runtime "UNKNOWNCOIN" Example.btc_and_unknown []
  = (Ok (find (fun b => Py.eq_str (currency b) "UNKNOWNCOIN")
              [Example.btc_balance; Example.unknown_balance]),
     [mkRequest POST "https://api.coinone.co.kr//v2.1/account/balance"]).
Proof.
  apply (@coinone_balance_by_currency_is_first_match Example.runtime "UNKNOWNCOIN"
           Example.btc_and_unknown []).
  vm_compute; reflexivity.
Defined.

(** An account whose only coin has no price, and an account that holds
    nothing. *)
Lemma coinone_empty_report_raises_witness :
  (exists log',
      @CoinoneAPI.get_report Example.runtime [] Example.coinone_unlisted []
      = (Raise KeyError, log'))
  /\ @CoinoneAPI.get_report_with_nonzero_balances Example.runtime
       Example.coinone_holds_nothing []
     = (Raise KeyError,
        [mkRequest POST "https://api.coinone.co.kr//v2.1/account/balance/all"]).
Proof.
  destruct (@coinone_empty_report_raises Example.runtime) as (priced & held).
  split.
  - apply (priced Example.coinone_unlisted [] [] [Example.unknown_balance]
             [mkRequest POST "https://api.coinone.co.kr//v2.1/account/balance"]).
    + vm_compute; reflexivity.
    + repeat constructor. eexists. vm_compute; reflexivity.
  - apply (held Example.coinone_holds_nothing []).
    vm_compute; reflexivity.
Defined.

(** Bithumb reports one BTC; Coinone holds nothing; the aggregation is
    empty. *)
Lemma aggregator_empty_when_coinone_holds_nothing_witness :
  Aggregator.get_report
    (Aggregator.mk
       (Aggregator.mkClient (@BithumbAPI.get_report_with_nonzero_balances Example.runtime))
       (Aggregator.mkClient (@CoinoneAPI.get_report_with_nonzero_balances Example.runtime))
       Example.nothing_to_report Example.nothing_to_report)
    Example.coinone_holds_nothing []
  = (Ok (pd.of_records []),
     [ mkRequest GET "https://api.bithumb.com/v1/accounts";
       mkRequest GET "https://api.bithumb.com/v1/accounts";
       mkRequest GET "https://api.bithumb.com/public/ticker/BTC_KRW";
       mkRequest POST "https://api.coinone.co.kr//v2.1/account/balance/all" ]).
Proof.
  apply (@aggregator_empty_when_coinone_holds_nothing Example.runtime
           (Aggregator.mkClient (@BithumbAPI.get_report_with_nonzero_balances Example.runtime))
           Example.nothing_to_report Example.nothing_to_report
           Example.coinone_holds_nothing []
           [ mkRequest GET "https://api.bithumb.com/v1/accounts";
             mkRequest GET "https://api.bithumb.com/v1/accounts";
             mkRequest GET "https://api.bithumb.com/public/ticker/BTC_KRW" ]
           _
           (pd.mkDataFrame pd.report_columns [Report.mkLine (JStr "BTC") 1 100 100 None])).
  - vm_compute; reflexivity.
  - vm_compute; reflexivity.
Defined.

(** The ticker refuses the coin: the lookup returns a text. *)
Lemma coinone_price_outcomes_witness :
  fst (@CoinoneAPI.get_price_by_currency Example.runtime (JStr "UNKNOWNCOIN")
         Example.coinone_unlisted [])
  = Ok (CoinoneAPI.Text "Error: Invalid Coinone price data").
Proof.
  apply (proj1 (proj2 (proj2 (@coinone_price_outcomes Example.runtime (JStr "UNKNOWNCOIN")
                                Example.coinone_unlisted []))
                      (mkResponse 200 "OK"
                         (inr (JDict [("errorCode", JStr "108"); ("result", JStr "error")])))
                      [("errorCode", JStr "108"); ("result", JStr "error")]
                      eq_refl eq_refl eq_refl)).
  discriminate.
Defined.

Lemma korbit_failed_grant_keeps_expiry_witness :
  KorbitAPI.token_expires_at (KorbitAPI.fresh "id" "secret")
  = KorbitAPI.token_expires_at (KorbitAPI.fresh "id" "secret")
  /\ KorbitAPI.client_id (KorbitAPI.fresh "id" "secret")
     = KorbitAPI.client_id (KorbitAPI.fresh "id" "secret")
  /\ KorbitAPI.client_secret (KorbitAPI.fresh "id" "secret")
     = KorbitAPI.client_secret (KorbitAPI.fresh "id" "secret")
  /\ KorbitAPI.token_expires_at (KorbitAPI.fresh "id" "secret") <= 1000
  /\ [KorbitAPI.grant_request] = ([] ++ [KorbitAPI.grant_request])%list
  /\ (forall now2 t2 net2 log2,
        1000 <= now2 ->
        exists r s,
          KorbitAPI._get_access_token now2 t2 (KorbitAPI.fresh "id" "secret") net2 log2
          = (r, s, (log2 ++ [KorbitAPI.grant_request])%list)).
Proof.
  apply (korbit_failed_grant_keeps_expiry 1000 1000 (KorbitAPI.fresh "id" "secret")
           (KorbitAPI.fresh "id" "secret") (Example.offline "down") []
           [KorbitAPI.grant_request] (ConnectionError "down")).
  vm_compute; reflexivity.
Defined.

(** A grant that cannot be sent is swallowed; a grant answered without
    a token is not. *)
Lemma korbit_get_balances_on_failed_grant_witness :
  @KorbitAPI.get_balances Example.runtime 1000 1000 None (KorbitAPI.fresh "id" "secret")
     (Example.offline "down") []
  = (Ok [], KorbitAPI.fresh "id" "secret", ([] ++ [KorbitAPI.grant_request])%list)
  /\ @KorbitAPI.get_balances Example.runtime 1000 1000 None (KorbitAPI.fresh "id" "secret")
       Example.korbit_refuses []
     = (Raise KeyError, KorbitAPI.fresh "id" "secret",
        ([] ++ [KorbitAPI.grant_request])%list).
Proof.
  split.
  - apply (proj1 (@korbit_get_balances_on_failed_grant Example.runtime 1000 1000 None
                    (KorbitAPI.fresh "id" "secret") (Example.offline "down") []
                    ltac:(cbn; lra))).
    reflexivity.
  - apply (proj2 (@korbit_get_balances_on_failed_grant Example.runtime 1000 1000 None
                    (KorbitAPI.fresh "id" "secret") Example.korbit_refuses []
                    ltac:(cbn; lra))
                 (mkResponse 200 "OK" (inr (JDict [("error", JStr "invalid_client")])))
                 [("error", JStr "invalid_client")]);
      reflexivity.
Defined.

(** Ten seconds after the token was granted, fifty before it expires. *)
Lemma korbit_get_balances_with_cached_token_witness :
  exists r,
    @KorbitAPI.get_balances Example.runtime 1010 1010 None Example.korbit_client_120
       (Example.korbit_grants 120) []
    = (r, Example.korbit_client_120, ([] ++ [KorbitAPI.balances_request])%list)
    /\ (fails (Example.korbit_grants 120 KorbitAPI.balances_request) = true -> r = Ok []).
Proof.
  apply (@korbit_get_balances_with_cached_token Example.runtime 1010 1010 None
           Example.korbit_client_120 (Example.korbit_grants 120) []).
  vm_compute; reflexivity.
Defined.

Lemma korbit_balances_are_well_formed_witness :
  NoDup (map fst Example.korbit_holdings)
  /\ Forall (fun kv =>
               KorbitAPI.e_currency (snd kv) = fst kv
               /\ KorbitAPI.e_balance (snd kv)
                  = KorbitAPI.e_available (snd kv) + KorbitAPI.e_locked (snd kv))
            Example.korbit_holdings
  /\ (forall x xs, @None (list string) = Some (x :: xs) ->
                   Forall (fun kv => In (fst kv) (x :: xs)) Example.korbit_holdings).
Proof.
  apply (@korbit_balances_are_well_formed Example.runtime 1000 1000 None
           (KorbitAPI.fresh "id" "secret")
           (KorbitAPI.mk "id" "secret" (JStr "tok-1") (1000 + 3600 - 60))
           Example.holdings []
           [ KorbitAPI.grant_request;
             mkRequest GET "https://api.korbit.co.kr/v1/user/balances" ]).
  vm_compute; reflexivity.
Defined.

Lemma korbit_balance_by_currency_is_lookup_witness :
  @KorbitAPI.get_balance_by_currency Example.runtime 1000 1000 "btc"
     (KorbitAPI.fresh "id" "secret") Example.holdings []
  = (Ok (KorbitAPI.dict_lookup "btc" Example.korbit_holdings),
     KorbitAPI.mk "id" "secret" (JStr "tok-1") (1000 + 3600 - 60),
     [ KorbitAPI.grant_request;
       mkRequest GET "https://api.korbit.co.kr/v1/user/balances" ]).
Proof.
  apply (@korbit_balance_by_currency_is_lookup Example.runtime 1000 1000 "btc").
  vm_compute; reflexivity.
Defined.

(** The environment of the example: the two entries with a number are
    loaded, the one without is not. *)
Lemma load_holdings_reads_crypto_entries_witness :
  exists holdings : list PortfolioManager.CryptoHolding,
    @PortfolioManager.load_holdings Example.runtime Example.environ = Ok holdings
    /\ (List.length holdings <= List.length Example.environ)%nat
    /\ In (PortfolioManager.mkHolding
             (Str.lower (hd ""%string (PortfolioManager.split_on "_" "BTC"))) 1)
          holdings.
Proof.
  destruct (@load_holdings_reads_crypto_entries Example.runtime Example.environ)
    as (hs & L & Len & _ & Complete).
  exists hs. split; [exact L|]. split; [exact Len|].
  apply (Complete "BTC"%string "1"%string 1).
  - cbn. auto.
  - reflexivity.
Defined.

Lemma portfolio_without_holdings_raises_witness :
  @PortfolioManager.load_holdings Example.runtime [("HOME", "/root"); ("CRYPTO_ETH", "many")]
  = Ok []
  /\ @PortfolioManager.calculate_portfolio Example.runtime [] (Example.offline "down") []
     = (Raise KeyError, []).
Proof.
  apply (@portfolio_without_holdings_raises Example.runtime
           [("HOME", "/root"); ("CRYPTO_ETH", "many")] (Example.offline "down") []).
  intros key value [E|[E|[]]] P; injection E as <- <-; [discriminate P|reflexivity].
Defined.

(** Two ARGO at 250 and one BTC that no source prices. *)
Lemma portfolio_rows_and_total_witness :
  exists (data : list PortfolioManager.Row.t) (total_value : Q) (log' : list request),
    @PortfolioManager.calculate_portfolio Example.runtime Example.portfolio
       Example.only_bithumb_lists_argo []
    = (Ok (data ++ [PortfolioManager.total_row total_value])%list, log')
    /\ Permutation data
         (map (fun h => PortfolioManager.row_of h (fst (Example.quote h)) (snd (Example.quote h)))
              Example.portfolio)
    /\ StronglySorted PortfolioManager.desc data
    /\ total_value == PortfolioManager.sum_totals data
    /\ (forall h, In h Example.portfolio -> Example.quote h = PriceResolver.sentinel ->
          exists r, In r data
            /\ PortfolioManager.Row.symbol r = Str.upper (PortfolioManager.symbol h)
            /\ PortfolioManager.Row.exchange r = Some "No valid price found"%string
            /\ PortfolioManager.Row.total_krw r == 0).
Proof.
  apply (@portfolio_rows_and_total Example.runtime Example.quote Example.portfolio
           Example.only_bithumb_lists_argo []).
  - discriminate.
  - intros h [<-|[<-|[]]]; vm_compute; reflexivity.
Defined.

(** The four clients of the example on the network of the holdings:
    Bithumb and Coinone report one BTC each. *)
Lemma aggregator_merges_and_sorts_witness :
  exists df : pd.DataFrame,
    Aggregator.get_report Example.aggregator Example.holdings []
    = (Ok df,
       [ mkRequest GET "https://api.bithumb.com/v1/accounts";
         mkRequest GET "https://api.bithumb.com/v1/accounts";
         mkRequest GET "https://api.bithumb.com/public/ticker/BTC_KRW";
         mkRequest POST "https://api.coinone.co.kr//v2.1/account/balance/all";
         mkRequest GET "https://api.coinone.co.kr/ticker/?currency=BTC" ])
    /\ Permutation (pd.rows df)
         (Aggregator.tagged "Bithumb"
            (pd.mkDataFrame pd.report_columns [Report.mkLine (JStr "BTC") 1 100 100 None])
          ++ Aggregator.tagged "Coinone"
               (pd.mkDataFrame pd.report_columns [Report.mkLine (JStr "BTC") 1 101 101 None])
          ++ Aggregator.tagged "Korbit" (pd.of_columns pd.report_columns)
          ++ Aggregator.tagged "Upbit" (pd.of_columns pd.report_columns))%list
    /\ StronglySorted pd.desc (pd.rows df)
    /\ (forall r, In r (pd.rows df) ->
          exists name, In name ["Bithumb"; "Coinone"; "Korbit"; "Upbit"]%string
                       /\ Report.exchange r = Some name)
    /\ (pd.rows df = [] -> pd.columns df = []).
Proof.
  apply (aggregator_merges_and_sorts Example.aggregator Example.holdings []
           [ mkRequest GET "https://api.bithumb.com/v1/accounts";
             mkRequest GET "https://api.bithumb.com/v1/accounts";
             mkRequest GET "https://api.bithumb.com/public/ticker/BTC_KRW" ]
           [ mkRequest GET "https://api.bithumb.com/v1/accounts";
             mkRequest GET "https://api.bithumb.com/v1/accounts";
             mkRequest GET "https://api.bithumb.com/public/ticker/BTC_KRW";
             mkRequest POST "https://api.coinone.co.kr//v2.1/account/balance/all";
             mkRequest GET "https://api.coinone.co.kr/ticker/?currency=BTC" ]
           [ mkRequest GET "https://api.bithumb.com/v1/accounts";
             mkRequest GET "https://api.bithumb.com/v1/accounts";
             mkRequest GET "https://api.bithumb.com/public/ticker/BTC_KRW";
             mkRequest POST "https://api.coinone.co.kr//v2.1/account/balance/all";
             mkRequest GET "https://api.coinone.co.kr/ticker/?currency=BTC" ]).
  - vm_compute; reflexivity.
  - vm_compute; reflexivity.
  - vm_compute; reflexivity.
  - vm_compute; reflexivity.
  - intros d [<-|[<-|[<-|[<-|[]]]]] Em; solve [reflexivity | discriminate Em].
Defined.
